(** * DRC Congo Positioning: a shallow embedding of [streamlit_app.py]

    The script is one Streamlit page.  Every user interaction re-runs it
    from the top; only the [st.cache_data] store survives between runs.
    The embedding follows the script line by line:

    - the three CSV tables and the GeoJSON document are typed records
      (names are strings, coordinates are binary64 floats);
    - [sorted], [Series.unique] and boolean-mask indexing are list functions;
    - the Streamlit calls are recorded in a trace, and [st.stop], uncaught
      exceptions and the memoisation store are threaded by a small monad;
    - the folium map is a value to which children are appended.

    [folium.Map] and [folium.Marker] validate their location: a coordinate
    that is NaN (what [pd.read_csv] returns for a blank cell) raises
    [ValueError], which the script does not catch.

    The script is modelled on location tables whose name cells are strings
    ([LocationRecord]).  The selection cascade is modelled a second time on
    tables as [pd.read_csv] returns them, where a blank name cell is NaN
    ([RawLocationRecord]); on tables without blank name cells the two
    cascades agree.  Further assumptions on the inputs: a GeoJSON document
    is a dictionary whose [features] are dictionaries with a [properties]
    dictionary, and the files are not rewritten while a session lasts. *)

From Stdlib Require Import String Ascii List Bool Arith Lia ZArith.
From Stdlib Require Import PrimFloat.
From Stdlib Require Import Sorting.Mergesort Sorting.Sorted Sorting.Permutation.
From Stdlib Require Import Structures.OrderedTypeEx.
From Stdlib Require Import Relations.Relation_Definitions Classes.RelationClasses.
Import ListNotations.

Local Open Scope string_scope.
Local Open Scope list_scope.

(** ** Data model *)

(** A row of [drc_admin_data.csv] whose name cells are not blank. *)
Record LocationRecord : Type := mkLocation {
  Admin1 : string;
  Admin2 : string;
  Admin3 : string;
  Lat : float;
  Lon : float
}.

(** A row of [drc_health_data.csv] or [drc_port_data.csv]. *)
Record FacilityRecord : Type := mkFacility {
  Name : string;
  fLat : float;
  fLon : float
}.

(** One feature of [drc_admin2.geojson].  [ADM2_FR] is what
    [feature.get("properties", {}).get("ADM2_FR")] evaluates to: [None] when
    the key is absent.  The geometry is carried along untouched. *)
Record feature : Type := mkFeature {
  ADM2_FR : option string;
  geometry : list (list (float * float))
}.

(** The dictionary returned by [json.load]: either key may be absent. *)
Record geojson : Type := mkGeojson {
  gj_type : option string;
  gj_features : option (list feature)
}.

(** Truth value of a dictionary: it has at least one key. *)
Definition dict_truthy (g : geojson) : bool :=
  match gj_type g, gj_features g with
  | None, None => false
  | _, _ => true
  end.

(** [admin2_geojson.get("features", [])]. *)
Definition get_features (g : geojson) : list feature :=
  match gj_features g with
  | Some fs => fs
  | None => []
  end.

(** ** Library functions used by the script *)

(** [sorted] on strings: a stable merge sort for the code-point order. *)
Module StringOrder <: Orders.TotalLeBool.
Definition t := string.
Definition leb := String.leb.
Definition leb_total :
  forall a1 a2, leb a1 a2 = true \/ leb a2 a1 = true := String.leb_total.
End StringOrder.

Module StringSort := Sort StringOrder.

Definition sorted (l : list string) : list string := StringSort.sort l.

(** [Series.unique]: the distinct values in order of first appearance. *)
Fixpoint unique (l : list string) : list string :=
  match l with
  | [] => []
  | x :: l' => x :: filter (fun y => negb (String.eqb y x)) (unique l')
  end.

(** Elementwise [column == selected]: a selectbox without options returns
    [None], and a name never equals [None]. *)
Definition series_eq (cell : string) (selected : option string) : bool :=
  match selected with
  | Some s => String.eqb cell s
  | None => false
  end.

(** Python [==] between two values that are a string or [None]. *)
Definition py_eq (a b : option string) : bool :=
  match a, b with
  | Some x, Some y => String.eqb x y
  | None, None => true
  | _, _ => false
  end.

(** ** The selection cascade (lines 69-85) *)

Definition admin1_options (data : list LocationRecord) : list string :=
  sorted (unique (map Admin1 data)).

Definition filtered_data_admin1 (data : list LocationRecord)
    (selected_admin1 : option string) : list LocationRecord :=
  filter (fun r => series_eq (Admin1 r) selected_admin1) data.

Definition admin2_options (data : list LocationRecord)
    (selected_admin1 : option string) : list string :=
  sorted (unique (map Admin2 (filtered_data_admin1 data selected_admin1))).

Definition filtered_data_admin2 (data : list LocationRecord)
    (selected_admin1 selected_admin2 : option string) : list LocationRecord :=
  filter (fun r => series_eq (Admin2 r) selected_admin2)
         (filtered_data_admin1 data selected_admin1).

Definition admin3_options (data : list LocationRecord)
    (selected_admin1 selected_admin2 : option string) : list string :=
  sorted (unique (map Admin3
    (filtered_data_admin2 data selected_admin1 selected_admin2))).

Definition final_data (data : list LocationRecord)
    (selected_admin1 selected_admin2 selected_admin3 : option string)
    : list LocationRecord :=
  filter (fun r => series_eq (Admin3 r) selected_admin3)
         (filtered_data_admin2 data selected_admin1 selected_admin2).

(** ** The selection cascade on a table with blank name cells *)

(** A name cell as [pd.read_csv] returns it: a string, or NaN when the cell
    is blank. *)
Inductive cell : Type :=
| Text (s : string)
| Blank.

(** A row of [drc_admin_data.csv] as [pd.read_csv] returns it. *)
Record RawLocationRecord : Type := mkRaw {
  raw_Admin1 : cell;
  raw_Admin2 : cell;
  raw_Admin3 : cell;
  raw_Lat : float;
  raw_Lon : float
}.

(** [Series.unique] counts every NaN as the same value. *)
Definition same_cell (a b : cell) : bool :=
  match a, b with
  | Text x, Text y => String.eqb x y
  | Blank, Blank => true
  | _, _ => false
  end.

Fixpoint unique_cells (l : list cell) : list cell :=
  match l with
  | [] => []
  | x :: l' => x :: filter (fun y => negb (same_cell y x)) (unique_cells l')
  end.

(** The strings of a list of cells, when none is blank. *)
Fixpoint texts (l : list cell) : option (list string) :=
  match l with
  | [] => Some []
  | Text s :: l' =>
      match texts l' with
      | Some names => Some (s :: names)
      | None => None
      end
  | Blank :: _ => None
  end.

Definition is_blank (c : cell) : bool :=
  match c with
  | Blank => true
  | Text _ => false
  end.

(** [sorted] on cells: comparing a string with NaN raises [TypeError]
    ([None] here); NaN alone compares with nothing, or with NaN only, and
    the list is returned as it is. *)
Definition sorted_cells (l : list cell) : option (list cell) :=
  match texts l with
  | Some names => Some (map Text (sorted names))
  | None => if forallb is_blank l then Some l else None
  end.

(** Elementwise [column == selected]: NaN equals nothing, itself included,
    and nothing equals [None]. *)
Definition raw_series_eq (c : cell) (selected : option cell) : bool :=
  match c, selected with
  | Text a, Some (Text b) => String.eqb a b
  | _, _ => false
  end.

(** Lines 69-85 on a raw table; an option list is [None] when [sorted]
    raises. *)
Definition raw_admin1_options (data : list RawLocationRecord)
    : option (list cell) :=
  sorted_cells (unique_cells (map raw_Admin1 data)).

Definition raw_filtered_data_admin1 (data : list RawLocationRecord)
    (selected_admin1 : option cell) : list RawLocationRecord :=
  filter (fun r => raw_series_eq (raw_Admin1 r) selected_admin1) data.

Definition raw_admin2_options (data : list RawLocationRecord)
    (selected_admin1 : option cell) : option (list cell) :=
  sorted_cells (unique_cells
    (map raw_Admin2 (raw_filtered_data_admin1 data selected_admin1))).

Definition raw_filtered_data_admin2 (data : list RawLocationRecord)
    (selected_admin1 selected_admin2 : option cell)
    : list RawLocationRecord :=
  filter (fun r => raw_series_eq (raw_Admin2 r) selected_admin2)
         (raw_filtered_data_admin1 data selected_admin1).

Definition raw_admin3_options (data : list RawLocationRecord)
    (selected_admin1 selected_admin2 : option cell) : option (list cell) :=
  sorted_cells (unique_cells (map raw_Admin3
    (raw_filtered_data_admin2 data selected_admin1 selected_admin2))).

Definition raw_final_data (data : list RawLocationRecord)
    (selected_admin1 selected_admin2 selected_admin3 : option cell)
    : list RawLocationRecord :=
  filter (fun r => raw_series_eq (raw_Admin3 r) selected_admin3)
         (raw_filtered_data_admin2 data selected_admin1 selected_admin2).

(** ** The folium map *)

Inductive Icon : Type := mkIcon (color icon : string).

(** The constant [style_function] of the boundary overlay. *)
Record style : Type := mkStyle {
  fillColor : string;
  line_color : string;
  weight : Z;
  fillOpacity : float
}.

Definition boundary_style : style :=
  {| fillColor := "blue"; line_color := "blue"; weight := 2;
     fillOpacity := 0x1.999999999999ap-3%float |}.

(** What can be added to a map or to a feature group. *)
#[warnings="-register-all"]
Inductive element : Type :=
| Marker (location : float * float) (popup : string) (icon : option Icon)
| GeoJson (data : geojson) (style_function : style)
| FeatureGroup (name : string) (children : list element)
| LayerControl.

Record Map : Type := mkMap {
  location : float * float;
  zoom_start : Z;
  tiles : string;
  map_children : list element
}.

(** [child.add_to(parent)]: the child is appended to the parent's children. *)
Definition add_to_map (child : element) (m : Map) : Map :=
  {| location := location m; zoom_start := zoom_start m; tiles := tiles m;
     map_children := map_children m ++ [child] |}.

Definition add_to_group (child : element) (g : element) : element :=
  match g with
  | FeatureGroup name children => FeatureGroup name (children ++ [child])
  | other => other
  end.

(** ** Streamlit calls *)

(** The calls of a run that show something or end it, in program order. *)
Inductive st_call : Type :=
| st_set_page_config (page_title layout : string)
| st_markdown (body : string)
| st_write (text : string)
| st_write_coordinates (town : option string) (lat lon : float)
| st_columns (n : nat)
| st_selectbox (label : string) (options : list string)
| st_checkbox (label : string)
| st_error (message : string)
| st_warning (message : string)
| st_info (message : string)
| st_folium (m : Map).

(** What the widgets return in one run of the script. *)
Record interaction : Type := mkInteraction {
  selected_admin1 : option string;
  selected_admin2 : option string;
  selected_admin3 : option string;
  show_hospitals : bool;
  show_ports : bool
}.

(** ** Files *)

(** Outcome of reading a file: its content or the raised exception. *)
Inductive read (A : Type) : Type :=
| Content (a : A)
| Failure (e : string).
Arguments Content {A} a.
Arguments Failure {A} e.

(** The four files; the GeoJSON file may not exist. *)
Record files : Type := mkFiles {
  drc_admin_data_csv : read (list LocationRecord);
  drc_health_data_csv : read (list FacilityRecord);
  drc_port_data_csv : read (list FacilityRecord);
  drc_admin2_geojson : option (read geojson)
}.

(** ** The script monad: memoisation store, trace, [st.stop], exceptions *)

(** An entry of [st.cache_data]: the returned value and the Streamlit calls
    recorded while it was computed, which a hit replays. *)
Definition entry (A : Type) : Type := option (A * list st_call).

Record cache : Type := mkCache {
  location_entry : entry (list LocationRecord);
  hospital_entry : entry (list FacilityRecord);
  port_entry : entry (list FacilityRecord);
  geojson_entry : entry (option geojson)
}.

Definition empty_cache : cache :=
  {| location_entry := None; hospital_entry := None;
     port_entry := None; geojson_entry := None |}.

Record state : Type := mkState {
  st_cache : cache;
  shown : list st_call
}.

Inductive res (A : Type) : Type :=
| Val (a : A)
| Stop
| Raise (e : string).
Arguments Val {A} a.
Arguments Stop {A}.
Arguments Raise {A} e.

Definition M (A : Type) : Type := state -> res A * state.

Definition ret {A} (a : A) : M A := fun s => (Val a, s).

Definition bind {A B} (m : M A) (k : A -> M B) : M B :=
  fun s => match m s with
           | (Val a, s') => k a s'
           | (Stop, s') => (Stop, s')
           | (Raise e, s') => (Raise e, s')
           end.

Notation "x <- m ;; k" := (bind m (fun x => k))
  (at level 61, m at next level, right associativity).
Notation "m ;;; k" := (bind m (fun _ => k))
  (at level 61, right associativity).

Definition call (c : st_call) : M unit :=
  fun s => (Val tt, {| st_cache := st_cache s; shown := shown s ++ [c] |}).

Definition st_stop {A} : M A := fun s => (Stop, s).

Definition raise {A} (e : string) : M A := fun s => (Raise e, s).

(** [try: body / except Exception as e: handler / else: orelse].
    [st.stop] is not an [Exception] and passes through. *)
Definition try_except_else {A B} (body : M A) (handler : string -> M B)
    (orelse : A -> M B) : M B :=
  fun s => match body s with
           | (Val a, s') => orelse a s'
           | (Stop, s') => (Stop, s')
           | (Raise e, s') => handler e s'
           end.

(** [@st.cache_data] on a function without arguments. *)
Definition cache_data {A} (get : cache -> entry A)
    (set : A * list st_call -> cache -> cache) (body : M A) : M A :=
  fun s =>
    match get (st_cache s) with
    | Some (v, replay) =>
        (Val v, {| st_cache := st_cache s; shown := shown s ++ replay |})
    | None =>
        match body {| st_cache := st_cache s; shown := [] |} with
        | (Val v, s') =>
            (Val v, {| st_cache := set (v, shown s') (st_cache s');
                       shown := shown s ++ shown s' |})
        | (Stop, s') =>
            (Stop, {| st_cache := st_cache s'; shown := shown s ++ shown s' |})
        | (Raise e, s') =>
            (Raise e, {| st_cache := st_cache s'; shown := shown s ++ shown s' |})
        end
    end.

(** [pd.read_csv] and [json.load] on a file whose reading has outcome [f]. *)
Definition read_file {A} (f : read A) : M A :=
  match f with
  | Content a => ret a
  | Failure e => raise e
  end.

(** ** The script *)

Definition set_location_entry (e : list LocationRecord * list st_call)
    (c : cache) : cache :=
  {| location_entry := Some e; hospital_entry := hospital_entry c;
     port_entry := port_entry c; geojson_entry := geojson_entry c |}.

Definition set_hospital_entry (e : list FacilityRecord * list st_call)
    (c : cache) : cache :=
  {| location_entry := location_entry c; hospital_entry := Some e;
     port_entry := port_entry c; geojson_entry := geojson_entry c |}.

Definition set_port_entry (e : list FacilityRecord * list st_call)
    (c : cache) : cache :=
  {| location_entry := location_entry c; hospital_entry := hospital_entry c;
     port_entry := Some e; geojson_entry := geojson_entry c |}.

Definition set_geojson_entry (e : option geojson * list st_call)
    (c : cache) : cache :=
  {| location_entry := location_entry c; hospital_entry := hospital_entry c;
     port_entry := port_entry c; geojson_entry := Some e |}.

(** The undecorated bodies of the four loaders (lines 27-46). *)
Definition load_location_data_body (fs : files) : M (list LocationRecord) :=
  read_file (drc_admin_data_csv fs).

Definition load_hospital_data_body (fs : files) : M (list FacilityRecord) :=
  read_file (drc_health_data_csv fs).

Definition load_port_data_body (fs : files) : M (list FacilityRecord) :=
  read_file (drc_port_data_csv fs).

Definition load_admin2_geojson_body (fs : files) : M (option geojson) :=
  match drc_admin2_geojson fs with
  | Some f => g <- read_file f ;; ret (Some g)
  | None => call (st_warning "Admin2 polygon file not found.") ;;; ret None
  end.

(** The loaders as the script calls them, under [@st.cache_data]. *)
Definition load_location_data (fs : files) : M (list LocationRecord) :=
  cache_data location_entry set_location_entry (load_location_data_body fs).

Definition load_hospital_data (fs : files) : M (list FacilityRecord) :=
  cache_data hospital_entry set_hospital_entry (load_hospital_data_body fs).

Definition load_port_data (fs : files) : M (list FacilityRecord) :=
  cache_data port_entry set_port_entry (load_port_data_body fs).

Definition load_admin2_geojson (fs : files) : M (option geojson) :=
  cache_data geojson_entry set_geojson_entry (load_admin2_geojson_body fs).

(** A widget call is traced and returns what the user set it to. *)
Definition selectbox (label : string) (options : list string)
    (chosen : option string) : M (option string) :=
  call (st_selectbox label options) ;;; ret chosen.

Definition checkbox (label : string) (ticked : bool) : M bool :=
  call (st_checkbox label) ;;; ret ticked.

(** [folium] validates the location of a map and of a marker: a NaN
    coordinate raises [ValueError]. *)
Definition nan_error : string := "Location values cannot contain NaNs.".

Definition has_nan (loc : float * float) : bool :=
  is_nan (fst loc) || is_nan (snd loc).

Definition validate_location (loc : float * float) : M (float * float) :=
  if has_nan loc then raise nan_error else ret loc.

(** [folium.Map(location=..., zoom_start=...)]; the tiles default to
    OpenStreetMap. *)
Definition folium_Map (loc : float * float) (zoom : Z) : M Map :=
  loc <- validate_location loc ;;
  ret {| location := loc; zoom_start := zoom; tiles := "OpenStreetMap";
         map_children := [] |}.

(** [folium.Marker(location, popup=..., icon=...)]. *)
Definition folium_Marker (loc : float * float) (popup : string)
    (icon : option Icon) : M element :=
  loc <- validate_location loc ;;
  ret (Marker loc popup icon).

(** Truth value of [admin2_geojson]: not [None] and not an empty dictionary. *)
Definition truthy (admin2_geojson : option geojson) : bool :=
  match admin2_geojson with
  | Some g => dict_truthy g
  | None => false
  end.

(** Lines 11-21. *)
Definition page_css : string :=
"
    <style>
    .block-container {
        max-width: 1024px;
    }
    </style>
    ".

(** Lines 58-62, 67 and 147. *)
Definition page_title : string :=
  "<div style='display: flex; justify-content: center;'><h2>DRC Congo Positioning</h2></div>".

Definition page_intro : string :=
  "This app allows you to select a location in the Democratic Republic of the Congo and visualize it on a map. You can also overlay additional layers such as health facilities and ports.".

Definition layers_intro : string :=
  "Select the layers you want to display on the map. Since the data is loaded from CSV files, it may take a few seconds for the layers to fully load and appear correctly.".

(** Lines 48-52. *)
Definition load_or_stop (fs : files) : M (list LocationRecord) :=
  try_except_else (load_location_data fs)
    (fun e => call (st_error ("Error reading location CSV file: " ++ e)%string) ;;;
              st_stop)
    ret.

(** The loop of lines 100-102; a marker that cannot be built ends it. *)
Fixpoint location_markers (final : list LocationRecord) (folium_map : Map)
    : M Map :=
  match final with
  | [] => ret folium_map
  | row :: rest =>
      let popup_text :=
        (Admin1 row ++ " | " ++ Admin2 row ++ " | " ++ Admin3 row)%string in
      marker <- folium_Marker (Lat row, Lon row) popup_text None ;;
      location_markers rest (add_to_map marker folium_map)
  end.

(** Lines 90-105. *)
Definition base_map (final : list LocationRecord)
    (selected_admin3 : option string) : M Map :=
  match final with
  | first :: _ =>
      let lat := Lat first in
      let lon := Lon first in
      call (st_write_coordinates selected_admin3 lat lon) ;;;
      folium_map <- folium_Map (lat, lon) 10 ;;
      location_markers final folium_map
  | [] =>
      call (st_write "No data found for the selected options.") ;;;
      folium_Map (0%float, 0%float) 2
  end.

(** Lines 113-116. *)
Definition filtered_features (g : geojson) (selected_admin2 : option string)
    : list feature :=
  filter (fun feature => py_eq (ADM2_FR feature) selected_admin2)
         (get_features g).

(** Lines 111-135. *)
Definition boundary_overlay (admin2_geojson : option geojson)
    (selected_admin2 : option string) (folium_map : Map) : M Map :=
  match admin2_geojson with
  | Some g =>
      if dict_truthy g then
        match filtered_features g selected_admin2 with
        | [] =>
            call (st_info "No polygon found for the selected Admin2.") ;;;
            ret folium_map
        | features =>
            let filtered_geojson :=
              {| gj_type := Some "FeatureCollection";
                 gj_features := Some features |} in
            let admin2_layer := FeatureGroup "Admin2 Boundary" [] in
            let admin2_layer :=
              add_to_group (GeoJson filtered_geojson boundary_style)
                           admin2_layer in
            ret (add_to_map admin2_layer folium_map)
        end
      else ret folium_map
  | None => ret folium_map
  end.

(** The loop of lines 159-165. *)
Fixpoint hospital_markers (hospital_data : list FacilityRecord)
    (hospital_layer : element) : M element :=
  match hospital_data with
  | [] => ret hospital_layer
  | row :: rest =>
      let popup_text := ("Hospital: " ++ Name row)%string in
      marker <- folium_Marker (fLat row, fLon row) popup_text
                  (Some (mkIcon "red" "plus-sign")) ;;
      hospital_markers rest (add_to_group marker hospital_layer)
  end.

(** Lines 152-167; returns the map and [layers_added].  The [else] branch
    of the [try] is outside the handler: what a marker raises is not
    caught. *)
Definition hospital_block (fs : files) (ui : interaction)
    (folium_map : Map) (layers_added : bool) : M (Map * bool) :=
  ticked <- checkbox "Show Health Facilities Layer" (show_hospitals ui) ;;
  if ticked then
    try_except_else (load_hospital_data fs)
      (fun e =>
         call (st_error ("Error reading hospital CSV file: " ++ e)%string) ;;;
         ret (folium_map, layers_added))
      (fun hospital_data =>
         hospital_layer <-
           hospital_markers hospital_data (FeatureGroup "Hospitals" []) ;;
         ret (add_to_map hospital_layer folium_map, true))
  else ret (folium_map, layers_added).

(** The loop of lines 179-185. *)
Fixpoint port_markers (port_data : list FacilityRecord)
    (port_layer : element) : M element :=
  match port_data with
  | [] => ret port_layer
  | row :: rest =>
      let popup_text := ("Port: " ++ Name row)%string in
      marker <- folium_Marker (fLat row, fLon row) popup_text
                  (Some (mkIcon "green" "plus-sign")) ;;
      port_markers rest (add_to_group marker port_layer)
  end.

(** Lines 172-187. *)
Definition port_block (fs : files) (ui : interaction)
    (folium_map : Map) (layers_added : bool) : M (Map * bool) :=
  ticked <- checkbox "Show Ports Layer" (show_ports ui) ;;
  if ticked then
    try_except_else (load_port_data fs)
      (fun e =>
         call (st_error ("Error reading port CSV file: " ++ e)%string) ;;;
         ret (folium_map, layers_added))
      (fun port_data =>
         port_layer <- port_markers port_data (FeatureGroup "Ports" []) ;;
         ret (add_to_map port_layer folium_map, true))
  else ret (folium_map, layers_added).

(** The whole of [streamlit_app.py]; the value is the map handed to
    [st_folium]. *)
Definition script (fs : files) (ui : interaction) : M Map :=
  call (st_set_page_config "DRC Congo Positioning" "centered") ;;;
  call (st_markdown page_css) ;;;
  data <- load_or_stop fs ;;
  call (st_markdown page_title) ;;;
  call (st_write page_intro) ;;;
  call (st_columns 3) ;;;
  s1 <- selectbox "Select Admin Level 1 (Province):"
          (admin1_options data) (selected_admin1 ui) ;;
  s2 <- selectbox "Select Admin Level 2 (District):"
          (admin2_options data s1) (selected_admin2 ui) ;;
  s3 <- selectbox "Select Admin Level 3 (Town):"
          (admin3_options data s1 s2) (selected_admin3 ui) ;;
  folium_map <- base_map (final_data data s1 s2 s3) s3 ;;
  admin2_geojson <- load_admin2_geojson fs ;;
  folium_map <- boundary_overlay admin2_geojson s2 folium_map ;;
  let layers_added := false in
  call (st_markdown "<b>Layers</b>") ;;;
  call (st_write layers_intro) ;;;
  after_hospitals <- hospital_block fs ui folium_map layers_added ;;
  after_ports <- port_block fs ui (fst after_hospitals) (snd after_hospitals) ;;
  let folium_map := fst after_ports in
  let layers_added := snd after_ports in
  let folium_map :=
    if layers_added || truthy admin2_geojson
    then add_to_map LayerControl folium_map
    else folium_map in
  call (st_folium folium_map) ;;;
  ret folium_map.

(** One run of the script from a given store, and a session of runs. *)
Definition run (fs : files) (ui : interaction) (c : cache) : res Map * state :=
  script fs ui {| st_cache := c; shown := [] |}.

Definition trace (o : res Map * state) : list st_call := shown (snd o).

Fixpoint session (fs : files) (uis : list interaction) (c : cache) : cache :=
  match uis with
  | [] => c
  | ui :: rest => session fs rest (st_cache (snd (run fs ui c)))
  end.

(** * Vocabulary of the statements *)

(** ** Order, store and transparency *)

(** The code-point order on strings, strict and large. *)
Definition str_lt (a b : string) : Prop := String.compare a b = Lt.
Definition str_le (a b : string) : Prop := String.leb a b = true.

(** What a loader body returns and shows when it is run outside the store. *)
Definition uncached {A} (body : M A) : res A * list st_call :=
  let o := body {| st_cache := empty_cache; shown := [] |} in
  (fst o, shown (snd o)).

(** An entry is sound when it holds what the body returns and shows. *)
Definition entry_ok {A} (body : M A) (e : entry A) : Prop :=
  match e with
  | None => True
  | Some (v, replay) => uncached body = (Val v, replay)
  end.

Definition cache_ok (fs : files) (c : cache) : Prop :=
  entry_ok (load_location_data_body fs) (location_entry c) /\
  entry_ok (load_hospital_data_body fs) (hospital_entry c) /\
  entry_ok (load_port_data_body fs) (port_entry c) /\
  entry_ok (load_admin2_geojson_body fs) (geojson_entry c).

(** A body that neither reads nor writes the store. *)
Definition oblivious {A} (body : M A) : Prop :=
  forall c pre,
    body {| st_cache := c; shown := pre |}
    = (fst (uncached body),
       {| st_cache := c; shown := pre ++ snd (uncached body) |}).

(** The store after a call of a memoised function. *)
Definition remember {A} (get : cache -> entry A)
    (set : A * list st_call -> cache -> cache) (body : M A) (c : cache)
    : cache :=
  match get c, fst (uncached body) with
  | None, Val v => set (v, snd (uncached body)) c
  | _, _ => c
  end.

(** A computation is transparent when, from any sound store and after any
    prefix of calls, it returns the same result, shows the same calls and
    leaves a sound store. *)
Definition transparent (fs : files) {A} (m : M A) : Prop :=
  exists r out, forall c pre,
    cache_ok fs c ->
    exists c', cache_ok fs c' /\
      m {| st_cache := c; shown := pre |}
      = (r, {| st_cache := c'; shown := pre ++ out |}).

(** ** Traces and maps *)

(** What is shown before the map is built, and above the two checkboxes. *)
Definition before_map (data : list LocationRecord) (ui : interaction)
    : list st_call :=
  [st_set_page_config "DRC Congo Positioning" "centered";
   st_markdown page_css;
   st_markdown page_title;
   st_write page_intro;
   st_columns 3;
   st_selectbox "Select Admin Level 1 (Province):" (admin1_options data);
   st_selectbox "Select Admin Level 2 (District):"
     (admin2_options data (selected_admin1 ui));
   st_selectbox "Select Admin Level 3 (Town):"
     (admin3_options data (selected_admin1 ui) (selected_admin2 ui))].

Definition layers_head : list st_call :=
  [st_markdown "<b>Layers</b>"; st_write layers_intro].

(** The final data of a run, as the script computes it. *)
Definition final_of (data : list LocationRecord) (ui : interaction)
    : list LocationRecord :=
  final_data data (selected_admin1 ui) (selected_admin2 ui)
    (selected_admin3 ui).

(** The dropdowns shown in a run: label and offered options, in order. *)
Definition selectboxes (t : list st_call) : list (string * list string) :=
  flat_map (fun x => match x with
                     | st_selectbox label options => [(label, options)]
                     | _ => []
                     end) t.

(** The children of the feature groups of a given name among [children]. *)
Definition groups (name : string) (children : list element)
    : list (list element) :=
  flat_map (fun x => match x with
                     | FeatureGroup n cs =>
                         if String.eqb n name then [cs] else []
                     | _ => []
                     end) children.

(** The features drawn by the boundary overlay of a map. *)
Definition boundary_features (m : Map) : list feature :=
  flat_map
    (flat_map (fun x => match x with
                        | GeoJson d _ => get_features d
                        | _ => []
                        end))
    (groups "Admin2 Boundary" (map_children m)).

(** The marker of a hospital and of a port (lines 161-165 and 181-185). *)
Definition hospital_marker (row : FacilityRecord) : element :=
  Marker (fLat row, fLon row) ("Hospital: " ++ Name row)%string
         (Some (mkIcon "red" "plus-sign")).

Definition port_marker (row : FacilityRecord) : element :=
  Marker (fLat row, fLon row) ("Port: " ++ Name row)%string
         (Some (mkIcon "green" "plus-sign")).

(** The marker of a location record (lines 101-102). *)
Definition location_marker (row : LocationRecord) : element :=
  Marker (Lat row, Lon row)
         (Admin1 row ++ " | " ++ Admin2 row ++ " | " ++ Admin3 row)%string
         None.

(** The text written at line 104. *)
Definition no_data_found : string :=
  "No data found for the selected options.".

(** The children that lines 111-135, 152-167 and 172-187 add to the map. *)
Definition overlay_children (g : option geojson) (s2 : option string)
    : list element :=
  match g with
  | Some d =>
      if dict_truthy d then
        match filtered_features d s2 with
        | [] => []
        | features =>
            [FeatureGroup "Admin2 Boundary"
               [GeoJson {| gj_type := Some "FeatureCollection";
                           gj_features := Some features |}
                        boundary_style]]
        end
      else []
  | None => []
  end.

Definition hospital_children (fs : files) (ui : interaction) : list element :=
  if show_hospitals ui then
    match drc_health_data_csv fs with
    | Content hospital_data =>
        [FeatureGroup "Hospitals" (map hospital_marker hospital_data)]
    | Failure _ => []
    end
  else [].

Definition port_children (fs : files) (ui : interaction) : list element :=
  if show_ports ui then
    match drc_port_data_csv fs with
    | Content port_data => [FeatureGroup "Ports" (map port_marker port_data)]
    | Failure _ => []
    end
  else [].

(** [json.load] does not raise on the shapes file. *)
Definition shapes_readable (fs : files) : Prop :=
  forall e, drc_admin2_geojson fs <> Some (Failure e).

(** The exception of [json.load] on the shapes file, if it raises. *)
Definition unreadable (fs : files) : option string :=
  match drc_admin2_geojson fs with
  | Some (Failure e) => Some e
  | _ => None
  end.

(** What [load_admin2_geojson] returns when the file exists and is read. *)
Definition shapes_of (fs : files) : option geojson :=
  match drc_admin2_geojson fs with
  | Some (Content g) => Some g
  | _ => None
  end.

(** No row has a NaN coordinate: [folium] accepts every one of them. *)
Definition plottable (rows : list LocationRecord) : bool :=
  forallb (fun row => negb (has_nan (Lat row, Lon row))) rows.

Definition facilities_plottable (rows : list FacilityRecord) : bool :=
  forallb (fun row => negb (has_nan (fLat row, fLon row))) rows.

(** A facility layer that is not ticked, or whose file cannot be read,
    places no marker; a ticked layer whose file is read places one per
    row. *)
Definition layer_plottable (ticked : bool) (file : read (list FacilityRecord))
    : bool :=
  if ticked then
    match file with
    | Content rows => facilities_plottable rows
    | Failure _ => true
    end
  else true.

Definition layers_plottable (fs : files) (ui : interaction) : bool :=
  layer_plottable (show_hospitals ui) (drc_health_data_csv fs) &&
  layer_plottable (show_ports ui) (drc_port_data_csv fs).

(** A ticked layer whose file was read (the [else] branches of lines
    157-167 and 177-187, which set [layers_added]). *)
Definition hospitals_loaded (fs : files) (ui : interaction) : bool :=
  show_hospitals ui &&
  match drc_health_data_csv fs with
  | Content _ => true
  | Failure _ => false
  end.

Definition ports_loaded (fs : files) (ui : interaction) : bool :=
  show_ports ui &&
  match drc_port_data_csv fs with
  | Content _ => true
  | Failure _ => false
  end.

(** ** What the blocks return and show *)

(** A map with further children. *)
Definition add_children (cs : list element) (m : Map) : Map :=
  {| location := location m; zoom_start := zoom_start m; tiles := tiles m;
     map_children := map_children m ++ cs |}.

(** The map of lines 90-105 when every marker can be built, and what these
    lines write. *)
Definition base_view (final : list LocationRecord) : Map :=
  {| location := match final with
                 | first :: _ => (Lat first, Lon first)
                 | [] => (0%float, 0%float)
                 end;
     zoom_start := match final with
                   | _ :: _ => 10
                   | [] => 2
                   end;
     tiles := "OpenStreetMap";
     map_children := map location_marker final |}.

Definition base_shown (final : list LocationRecord) (s3 : option string)
    : list st_call :=
  match final with
  | first :: _ => [st_write_coordinates s3 (Lat first) (Lon first)]
  | [] => [st_write no_data_found]
  end.

(** What the shapes loader and lines 110-135 show. *)
Definition shapes_shown (fs : files) : list st_call :=
  match drc_admin2_geojson fs with
  | None => [st_warning "Admin2 polygon file not found."]
  | Some _ => []
  end.

Definition overlay_shown (g : option geojson) (s2 : option string)
    : list st_call :=
  match g with
  | Some d =>
      if dict_truthy d then
        match filtered_features d s2 with
        | [] => [st_info "No polygon found for the selected Admin2."]
        | _ => []
        end
      else []
  | None => []
  end.

(** What lines 152-167 and 172-187 show. *)
Definition hospital_shown (fs : files) (ui : interaction) : list st_call :=
  st_checkbox "Show Health Facilities Layer"
  :: (if show_hospitals ui then
        match drc_health_data_csv fs with
        | Failure e =>
            [st_error ("Error reading hospital CSV file: " ++ e)%string]
        | Content _ => []
        end
      else []).

Definition port_shown (fs : files) (ui : interaction) : list st_call :=
  st_checkbox "Show Ports Layer"
  :: (if show_ports ui then
        match drc_port_data_csv fs with
        | Failure e => [st_error ("Error reading port CSV file: " ++ e)%string]
        | Content _ => []
        end
      else []).

(** The map handed to [st_folium] by a run that reaches line 196. *)
Definition rendered_map (data : list LocationRecord) (fs : files)
    (ui : interaction) : Map :=
  let folium_map :=
    add_children (port_children fs ui)
      (add_children (hospital_children fs ui)
         (add_children (overlay_children (shapes_of fs) (selected_admin2 ui))
            (base_view (final_of data ui)))) in
  if false || hospitals_loaded fs ui || ports_loaded fs ui
     || truthy (shapes_of fs)
  then add_to_map LayerControl folium_map
  else folium_map.

(** What a run returns and shows, case by case: the location table cannot
    be read; a matching record has a NaN coordinate; [json.load] raises; a
    row of a ticked layer has a NaN coordinate; the map is rendered. *)
Definition page (fs : files) (ui : interaction) : res Map * list st_call :=
  match drc_admin_data_csv fs with
  | Failure e =>
      (Stop,
       [st_set_page_config "DRC Congo Positioning" "centered";
        st_markdown page_css;
        st_error ("Error reading location CSV file: " ++ e)%string])
  | Content data =>
      let shown0 :=
        before_map data ui
        ++ base_shown (final_of data ui) (selected_admin3 ui) in
      if plottable (final_of data ui) then
        match unreadable fs with
        | Some e => (Raise e, shown0)
        | None =>
            let shown1 :=
              shown0 ++ shapes_shown fs
              ++ overlay_shown (shapes_of fs) (selected_admin2 ui)
              ++ layers_head ++ hospital_shown fs ui in
            if layer_plottable (show_hospitals ui) (drc_health_data_csv fs)
            then
              if layer_plottable (show_ports ui) (drc_port_data_csv fs) then
                (Val (rendered_map data fs ui),
                 shown1 ++ port_shown fs ui
                 ++ [st_folium (rendered_map data fs ui)])
              else (Raise nan_error, shown1 ++ port_shown fs ui)
            else (Raise nan_error, shown1)
        end
      else (Raise nan_error, shown0)
  end.

(** What may be shown once lines 90-105 are done: no dropdown, no
    coordinates, and no text but the one above the checkboxes. *)
Definition after_base (x : st_call) : Prop :=
  match x with
  | st_selectbox _ _ => False
  | st_write_coordinates _ _ _ => False
  | st_write text => text = layers_intro
  | _ => True
  end.

(** ** Observations of a rendered map *)

(** The polygon layers on or under an element, and those of a map: the
    [GeoJson] documents added to it directly or inside a group, at any
    depth. *)
Fixpoint element_polygons (x : element) : list geojson :=
  match x with
  | GeoJson d _ => [d]
  | FeatureGroup _ children => flat_map element_polygons children
  | _ => []
  end.

Definition polygons (m : Map) : list geojson :=
  flat_map element_polygons (map_children m).

(** Every feature drawn on a map. *)
Definition drawn_features (m : Map) : list feature :=
  flat_map get_features (polygons m).

(** The hospital and the port groups of the map a run renders. *)
Definition facility_layers (o : res Map * state)
    : option (list (list element) * list (list element)) :=
  match fst o with
  | Val m => Some (groups "Hospitals" (map_children m),
                   groups "Ports" (map_children m))
  | _ => None
  end.

(** What the two files and the two checkboxes determine. *)
Definition hospital_layer_of (fs : files) (ticked : bool)
    : list (list element) :=
  if ticked then
    match drc_health_data_csv fs with
    | Content hospital_data => [map hospital_marker hospital_data]
    | Failure _ => []
    end
  else [].

Definition port_layer_of (fs : files) (ticked : bool) : list (list element) :=
  if ticked then
    match drc_port_data_csv fs with
    | Content port_data => [map port_marker port_data]
    | Failure _ => []
    end
  else [].

(** ** The store between runs *)

(** Every dataset held by [c] is held unchanged by [c']. *)
Definition retains (c c' : cache) : Prop :=
  (forall e, location_entry c = Some e -> location_entry c' = Some e) /\
  (forall e, hospital_entry c = Some e -> hospital_entry c' = Some e) /\
  (forall e, port_entry c = Some e -> port_entry c' = Some e) /\
  (forall e, geojson_entry c = Some e -> geojson_entry c' = Some e).

(** A computation keeps the datasets of [c0]. *)
Definition keeps (c0 : cache) {A} (m : M A) : Prop :=
  forall s, retains c0 (st_cache s) -> retains c0 (st_cache (snd (m s))).

(** The state after [n] calls of [m] in a row. *)
Fixpoint after_calls {A} (n : nat) (m : M A) (s : state) : state :=
  match n with
  | O => s
  | S k => after_calls k m (snd (m s))
  end.

(** ** Sample inputs *)

Definition kalamu : LocationRecord :=
  mkLocation "Kinshasa" "Funa" "Kalamu" (-4.375)%float 15.3125%float.
Definition makala : LocationRecord :=
  mkLocation "Kinshasa" "Funa" "Makala" (-4.5)%float 15.25%float.
Definition goma : LocationRecord :=
  mkLocation "Nord-Kivu" "Goma" "Goma" (-1.625)%float 29.25%float.

Definition sample_table : list LocationRecord := [kalamu; goma; makala].

Definition sample_hospitals : list FacilityRecord :=
  [mkFacility "Clinique Ngaliema" (-4.25)%float 15.25%float].

Definition sample_ports : list FacilityRecord :=
  [mkFacility "Matadi" (-5.75)%float 13.5%float].

Definition sample_shapes : geojson :=
  {| gj_type := Some "FeatureCollection";
     gj_features :=
       Some [mkFeature (Some "Funa") [[(15%float, (-4)%float)]];
             mkFeature (Some "Goma") [];
             mkFeature None []] |}.

Definition sample_files : files :=
  {| drc_admin_data_csv := Content sample_table;
     drc_health_data_csv := Content sample_hospitals;
     drc_port_data_csv := Content sample_ports;
     drc_admin2_geojson := Some (Content sample_shapes) |}.

(** The same files with an unreadable hospital table, and without the
    shapes file. *)
Definition files_bad_hospitals : files :=
  {| drc_admin_data_csv := Content sample_table;
     drc_health_data_csv := Failure "No such file or directory";
     drc_port_data_csv := Content sample_ports;
     drc_admin2_geojson := Some (Content sample_shapes) |}.

Definition files_no_shapes : files :=
  {| drc_admin_data_csv := Content sample_table;
     drc_health_data_csv := Content sample_hospitals;
     drc_port_data_csv := Content sample_ports;
     drc_admin2_geojson := None |}.

Definition sample_ui : interaction :=
  {| selected_admin1 := Some "Kinshasa"; selected_admin2 := Some "Funa";
     selected_admin3 := Some "Makala";
     show_hospitals := true; show_ports := true |}.

(** ** Further observations of a rendered map *)

(** The markers placed directly on a map, not inside a group. *)
Definition is_marker (x : element) : bool :=
  match x with
  | Marker _ _ _ => true
  | _ => false
  end.

Definition direct_markers (m : Map) : list element :=
  filter is_marker (map_children m).

(** The layer controls of a map. *)
Definition is_control (x : element) : bool :=
  match x with
  | LayerControl => true
  | _ => false
  end.

Definition layer_controls (m : Map) : list element :=
  filter is_control (map_children m).

(** The names of the feature groups of a map, in the order they were added. *)
Definition group_names (m : Map) : list string :=
  flat_map (fun x => match x with
                     | FeatureGroup name _ => [name]
                     | _ => []
                     end) (map_children m).

(** The features of the shapes file that match the selected district, when
    the file exists and is read. *)
Definition matching_features (fs : files) (ui : interaction) : list feature :=
  match drc_admin2_geojson fs with
  | Some (Content g) => filtered_features g (selected_admin2 ui)
  | _ => []
  end.

(** The informational and the error messages of a trace, in order. *)
Definition infos (t : list st_call) : list string :=
  flat_map (fun x => match x with
                     | st_info text => [text]
                     | _ => []
                     end) t.

Definition errors (t : list st_call) : list string :=
  flat_map (fun x => match x with
                     | st_error text => [text]
                     | _ => []
                     end) t.

(** A computation preserves a property of the store. *)
Definition preserves (I : cache -> Prop) {A} (m : M A) : Prop :=
  forall s, I (st_cache s) -> I (st_cache (snd (m s))).

(** ** Further sample inputs *)

(** The sample files with a shapes file that is not valid JSON, and with a
    location table that has a header only. *)
Definition files_bad_shapes : files :=
  {| drc_admin_data_csv := Content sample_table;
     drc_health_data_csv := Content sample_hospitals;
     drc_port_data_csv := Content sample_ports;
     drc_admin2_geojson := Some (Failure "Expecting value") |}.

Definition files_empty_table : files :=
  {| drc_admin_data_csv := Content [];
     drc_health_data_csv := Content sample_hospitals;
     drc_port_data_csv := Content sample_ports;
     drc_admin2_geojson := Some (Content sample_shapes) |}.

(** What the widgets return on a header-only table, and a run with only the
    port layer ticked. *)
Definition ui_nothing : interaction :=
  {| selected_admin1 := None; selected_admin2 := None;
     selected_admin3 := None;
     show_hospitals := false; show_ports := false |}.

Definition ui_ports_only : interaction :=
  {| selected_admin1 := Some "Kinshasa"; selected_admin2 := Some "Funa";
     selected_admin3 := Some "Makala";
     show_hospitals := false; show_ports := true |}.


(** The sample files with a table in which two records carry the same
    triple, and with a shapes file that has no polygon for the selected
    district. *)
Definition makala_again : LocationRecord :=
  mkLocation "Kinshasa" "Funa" "Makala" (-4.5625)%float 15.1875%float.

Definition files_with_duplicates : files :=
  {| drc_admin_data_csv := Content [kalamu; makala; goma; makala_again];
     drc_health_data_csv := Content sample_hospitals;
     drc_port_data_csv := Content sample_ports;
     drc_admin2_geojson := Some (Content sample_shapes) |}.

Definition files_other_shapes : files :=
  {| drc_admin_data_csv := Content sample_table;
     drc_health_data_csv := Content sample_hospitals;
     drc_port_data_csv := Content sample_ports;
     drc_admin2_geojson :=
       Some (Content {| gj_type := Some "FeatureCollection";
                        gj_features :=
                          Some [mkFeature (Some "Lukaya") []] |}) |}.

(** ** Tables without blank name cells *)

(** A raw row read as a [LocationRecord], when none of its name cells is
    blank; a raw table read as a list of them, when this holds of every
    row. *)
Definition typed_record (r : RawLocationRecord) : option LocationRecord :=
  match raw_Admin1 r, raw_Admin2 r, raw_Admin3 r with
  | Text a1, Text a2, Text a3 =>
      Some (mkLocation a1 a2 a3 (raw_Lat r) (raw_Lon r))
  | _, _, _ => None
  end.

Fixpoint typed_table (data : list RawLocationRecord)
    : option (list LocationRecord) :=
  match data with
  | [] => Some []
  | r :: data' =>
      match typed_record r, typed_table data' with
      | Some row, Some rows => Some (row :: rows)
      | _, _ => None
      end
  end.

Definition raw_record (r : LocationRecord) : RawLocationRecord :=
  mkRaw (Text (Admin1 r)) (Text (Admin2 r)) (Text (Admin3 r)) (Lat r) (Lon r).

(** A table whose only row has a blank town, and a table without blank
    cell. *)
Definition blank_town_table : list RawLocationRecord :=
  [mkRaw (Text "Kinshasa") (Text "Funa") Blank (-4.375)%float 15.3125%float].

Definition raw_sample_table : list RawLocationRecord :=
  map raw_record sample_table.

(** The sample files with a table whose second row has a blank latitude. *)
Definition files_blank_latitude : files :=
  {| drc_admin_data_csv :=
       Content [kalamu; mkLocation "Kinshasa" "Funa" "Makala" nan 15.25%float];
     drc_health_data_csv := Content sample_hospitals;
     drc_port_data_csv := Content sample_ports;
     drc_admin2_geojson := Some (Content sample_shapes) |}.
(** * Properties *)

(** ** Lists, [unique] and [sorted] *)

Section ListFacts.
Context {A : Type}.

Lemma filter_twice (f g : A -> bool) (l : list A) :
  filter f (filter g l) = filter (fun x => g x && f x) l.
Proof.
  induction l as [|x l IH]; simpl; [reflexivity|].
  destruct (g x); simpl; [|exact IH].
  destruct (f x); simpl; now rewrite IH.
Qed.

End ListFacts.

Lemma series_eq_true (cell : string) (selected : option string) :
  series_eq cell selected = true <-> selected = Some cell.
Proof.
  destruct selected as [s|]; simpl.
  - rewrite String.eqb_eq. split; intros H; [now subst|now injection H].
  - split; discriminate.
Qed.

Lemma py_eq_true (a b : option string) : py_eq a b = true <-> a = b.
Proof.
  destruct a as [x|], b as [y|]; simpl; try (split; [discriminate|discriminate]).
  - rewrite String.eqb_eq. split; intros H; [now subst|now injection H].
  - split; reflexivity.
Qed.

Lemma In_unique (l : list string) (x : string) : In x (unique l) <-> In x l.
Proof.
  induction l as [|y l IH]; simpl; [reflexivity|].
  rewrite filter_In, IH, negb_true_iff, String.eqb_neq.
  destruct (string_dec y x) as [->|Hne]; [tauto|].
  split; [tauto|].
  intros [H|H]; [tauto|]. right. split; [exact H|congruence].
Qed.

Lemma NoDup_unique (l : list string) : NoDup (unique l).
Proof.
  induction l as [|y l IH]; simpl; constructor.
  - rewrite filter_In, negb_true_iff, String.eqb_neq. tauto.
  - now apply NoDup_filter.
Qed.

Lemma In_sorted (l : list string) (x : string) : In x (sorted l) <-> In x l.
Proof.
  unfold sorted. split; intros H.
  - eapply Permutation_in; [apply Permutation_sym, StringSort.Permuted_sort|exact H].
  - eapply Permutation_in; [apply StringSort.Permuted_sort|exact H].
Qed.

Lemma NoDup_sorted (l : list string) : NoDup l -> NoDup (sorted l).
Proof.
  intros H. eapply Permutation_NoDup; [apply StringSort.Permuted_sort|exact H].
Qed.

Lemma str_lt_trans (a b c : string) : str_lt a b -> str_lt b c -> str_lt a c.
Proof.
  unfold str_lt. intros Hab Hbc.
  apply String_as_OT.cmp_lt. apply String_as_OT.cmp_lt in Hab, Hbc.
  eapply String_as_OT.lt_trans; eassumption.
Qed.

Lemma str_le_lt_or_eq (a b : string) : str_le a b <-> str_lt a b \/ a = b.
Proof.
  unfold str_le, str_lt, String.leb. split.
  - destruct (String.compare a b) eqn:E; intros H.
    + right. now apply String.compare_eq_iff.
    + now left.
    + discriminate.
  - intros [->| ->]; [reflexivity|].
    assert (String.compare b b = Eq) as -> by now apply String_as_OT.cmp_eq.
    reflexivity.
Qed.

Lemma str_le_trans (a b c : string) : str_le a b -> str_le b c -> str_le a c.
Proof.
  rewrite !str_le_lt_or_eq. intros [Hab| ->] [Hbc| ->]; auto.
  left. eapply str_lt_trans; eassumption.
Qed.

Lemma sorted_ascending (l : list string) : StronglySorted str_le (sorted l).
Proof.
  unfold sorted.
  apply Sorted_StronglySorted.
  - intros a b c. apply str_le_trans.
  - pose proof (StringSort.Sorted_sort l) as H.
    induction H as [|a s Hs IH Hd]; constructor; auto.
Qed.

Lemma ascending_strict (l : list string) :
  NoDup l -> StronglySorted str_le l -> StronglySorted str_lt l.
Proof.
  intros Hnd Hs. induction Hs as [|a l Hs IH Hall]; constructor.
  - apply IH. now inversion Hnd.
  - inversion Hnd as [|? ? Hnotin _]; subst.
    rewrite Forall_forall in *. intros x Hx.
    destruct (proj1 (str_le_lt_or_eq a x) (Hall x Hx)) as [Hlt| ->];
      [exact Hlt|contradiction].
Qed.

Lemma options_strictly_ascending (column : list string) :
  StronglySorted str_lt (sorted (unique column)).
Proof.
  apply ascending_strict.
  - apply NoDup_sorted, NoDup_unique.
  - apply sorted_ascending.
Qed.

Lemma In_options (column : list string) (v : string) :
  In v (sorted (unique column)) <-> In v column.
Proof. now rewrite In_sorted, In_unique. Qed.

(** ** The memoisation store *)

Lemma load_location_data_body_oblivious fs :
  oblivious (load_location_data_body fs).
Proof.
  intros c pre. unfold load_location_data_body, uncached.
  destruct (drc_admin_data_csv fs); simpl; now rewrite app_nil_r.
Qed.

Lemma load_hospital_data_body_oblivious fs :
  oblivious (load_hospital_data_body fs).
Proof.
  intros c pre. unfold load_hospital_data_body, uncached.
  destruct (drc_health_data_csv fs); simpl; now rewrite app_nil_r.
Qed.

Lemma load_port_data_body_oblivious fs :
  oblivious (load_port_data_body fs).
Proof.
  intros c pre. unfold load_port_data_body, uncached.
  destruct (drc_port_data_csv fs); simpl; now rewrite app_nil_r.
Qed.

Lemma load_admin2_geojson_body_oblivious fs :
  oblivious (load_admin2_geojson_body fs).
Proof.
  intros c pre. unfold load_admin2_geojson_body, uncached.
  destruct (drc_admin2_geojson fs) as [[g|e]|]; simpl;
    try now rewrite app_nil_r.
  reflexivity.
Qed.

(** A memoised call returns and shows what its body does, hit or miss. *)
Lemma cache_data_eq {A} (get : cache -> entry A) set (body : M A) c pre :
  oblivious body ->
  entry_ok body (get c) ->
  cache_data get set body {| st_cache := c; shown := pre |}
  = (fst (uncached body),
     {| st_cache := remember get set body c;
        shown := pre ++ snd (uncached body) |}).
Proof.
  intros Hob Hok. unfold cache_data, remember. cbn [st_cache shown].
  destruct (get c) as [[v replay]|].
  - cbn [entry_ok] in Hok. rewrite Hok. reflexivity.
  - rewrite Hob. cbn [app].
    destruct (fst (uncached body)); reflexivity.
Qed.

Lemma cache_ok_empty fs : cache_ok fs empty_cache.
Proof. repeat split. Qed.

Lemma uncached_val {A} (body : M A) (v : A) :
  fst (uncached body) = Val v -> uncached body = (Val v, snd (uncached body)).
Proof. destruct (uncached body) as [r t]; simpl; now intros ->. Qed.

Lemma cache_ok_remember_location fs c :
  cache_ok fs c ->
  cache_ok fs (remember location_entry set_location_entry
                 (load_location_data_body fs) c).
Proof.
  intros H. unfold remember.
  destruct (location_entry c) eqn:E; [exact H|].
  destruct (fst (uncached (load_location_data_body fs))) eqn:F; try exact H.
  destruct H as (_ & H2 & H3 & H4). repeat split; try assumption.
  simpl. now apply uncached_val.
Qed.

Lemma cache_ok_remember_hospital fs c :
  cache_ok fs c ->
  cache_ok fs (remember hospital_entry set_hospital_entry
                 (load_hospital_data_body fs) c).
Proof.
  intros H. unfold remember.
  destruct (hospital_entry c) eqn:E; [exact H|].
  destruct (fst (uncached (load_hospital_data_body fs))) eqn:F; try exact H.
  destruct H as (H1 & _ & H3 & H4). repeat split; try assumption.
  simpl. now apply uncached_val.
Qed.

Lemma cache_ok_remember_port fs c :
  cache_ok fs c ->
  cache_ok fs (remember port_entry set_port_entry
                 (load_port_data_body fs) c).
Proof.
  intros H. unfold remember.
  destruct (port_entry c) eqn:E; [exact H|].
  destruct (fst (uncached (load_port_data_body fs))) eqn:F; try exact H.
  destruct H as (H1 & H2 & _ & H4). repeat split; try assumption.
  simpl. now apply uncached_val.
Qed.

Lemma cache_ok_remember_geojson fs c :
  cache_ok fs c ->
  cache_ok fs (remember geojson_entry set_geojson_entry
                 (load_admin2_geojson_body fs) c).
Proof.
  intros H. unfold remember.
  destruct (geojson_entry c) eqn:E; [exact H|].
  destruct (fst (uncached (load_admin2_geojson_body fs))) eqn:F; try exact H.
  destruct H as (H1 & H2 & H3 & _). repeat split; try assumption.
  simpl. now apply uncached_val.
Qed.

(** The four loaders under a sound store. *)
Lemma load_location_data_eq fs c pre :
  cache_ok fs c ->
  load_location_data fs {| st_cache := c; shown := pre |}
  = (fst (uncached (load_location_data_body fs)),
     {| st_cache := remember location_entry set_location_entry
                      (load_location_data_body fs) c;
        shown := pre ++ snd (uncached (load_location_data_body fs)) |}).
Proof.
  intros H. apply cache_data_eq.
  - apply load_location_data_body_oblivious.
  - apply H.
Qed.

Lemma load_hospital_data_eq fs c pre :
  cache_ok fs c ->
  load_hospital_data fs {| st_cache := c; shown := pre |}
  = (fst (uncached (load_hospital_data_body fs)),
     {| st_cache := remember hospital_entry set_hospital_entry
                      (load_hospital_data_body fs) c;
        shown := pre ++ snd (uncached (load_hospital_data_body fs)) |}).
Proof.
  intros H. apply cache_data_eq.
  - apply load_hospital_data_body_oblivious.
  - apply H.
Qed.

Lemma load_port_data_eq fs c pre :
  cache_ok fs c ->
  load_port_data fs {| st_cache := c; shown := pre |}
  = (fst (uncached (load_port_data_body fs)),
     {| st_cache := remember port_entry set_port_entry
                      (load_port_data_body fs) c;
        shown := pre ++ snd (uncached (load_port_data_body fs)) |}).
Proof.
  intros H. apply cache_data_eq.
  - apply load_port_data_body_oblivious.
  - apply H.
Qed.

Lemma load_admin2_geojson_eq fs c pre :
  cache_ok fs c ->
  load_admin2_geojson fs {| st_cache := c; shown := pre |}
  = (fst (uncached (load_admin2_geojson_body fs)),
     {| st_cache := remember geojson_entry set_geojson_entry
                      (load_admin2_geojson_body fs) c;
        shown := pre ++ snd (uncached (load_admin2_geojson_body fs)) |}).
Proof.
  intros H. apply cache_data_eq.
  - apply load_admin2_geojson_body_oblivious.
  - apply H.
Qed.

(** ** The folium constructors *)

(** The constructors and the marker loops do not touch the state: they
    return a value, or raise on the first NaN coordinate. *)
Lemma validate_location_run loc s :
  validate_location loc s
  = (if has_nan loc then Raise nan_error else Val loc, s).
Proof. unfold validate_location. now destruct (has_nan loc). Qed.

Lemma folium_Map_run loc zoom s :
  folium_Map loc zoom s
  = (if has_nan loc then Raise nan_error
     else Val {| location := loc; zoom_start := zoom;
                 tiles := "OpenStreetMap"; map_children := [] |}, s).
Proof.
  unfold folium_Map, bind. rewrite validate_location_run.
  now destruct (has_nan loc).
Qed.

Lemma folium_Marker_run loc popup icon s :
  folium_Marker loc popup icon s
  = (if has_nan loc then Raise nan_error else Val (Marker loc popup icon), s).
Proof.
  unfold folium_Marker, bind. rewrite validate_location_run.
  now destruct (has_nan loc).
Qed.

Lemma add_children_add_to_map x l m :
  add_children l (add_to_map x m) = add_children (x :: l) m.
Proof. unfold add_children, add_to_map. simpl. now rewrite <- app_assoc. Qed.

Lemma add_children_nil m : add_children [] m = m.
Proof. destruct m. unfold add_children. simpl. now rewrite app_nil_r. Qed.

Lemma location_markers_run final m s :
  location_markers final m s
  = (if plottable final
     then Val (add_children (map location_marker final) m)
     else Raise nan_error, s).
Proof.
  revert m. induction final as [|row rest IH]; intros m.
  - simpl. now rewrite add_children_nil.
  - cbn [location_markers plottable forallb map]. unfold bind.
    rewrite folium_Marker_run.
    destruct (has_nan (Lat row, Lon row)); [reflexivity|].
    rewrite IH. cbn [negb andb]. fold (plottable rest).
    destruct (plottable rest); [|reflexivity].
    now rewrite add_children_add_to_map.
Qed.

Lemma hospital_markers_run rows name children s :
  hospital_markers rows (FeatureGroup name children) s
  = (if facilities_plottable rows
     then Val (FeatureGroup name (children ++ map hospital_marker rows))
     else Raise nan_error, s).
Proof.
  revert children. induction rows as [|row rest IH]; intros children.
  - simpl. now rewrite app_nil_r.
  - cbn [hospital_markers facilities_plottable forallb map]. unfold bind.
    rewrite folium_Marker_run.
    destruct (has_nan (fLat row, fLon row)); [reflexivity|].
    cbn [add_to_group]. rewrite IH. cbn [negb andb].
    fold (facilities_plottable rest).
    destruct (facilities_plottable rest); [|reflexivity].
    now rewrite <- app_assoc.
Qed.

Lemma port_markers_run rows name children s :
  port_markers rows (FeatureGroup name children) s
  = (if facilities_plottable rows
     then Val (FeatureGroup name (children ++ map port_marker rows))
     else Raise nan_error, s).
Proof.
  revert children. induction rows as [|row rest IH]; intros children.
  - simpl. now rewrite app_nil_r.
  - cbn [port_markers facilities_plottable forallb map]. unfold bind.
    rewrite folium_Marker_run.
    destruct (has_nan (fLat row, fLon row)); [reflexivity|].
    cbn [add_to_group]. rewrite IH. cbn [negb andb].
    fold (facilities_plottable rest).
    destruct (facilities_plottable rest); [|reflexivity].
    now rewrite <- app_assoc.
Qed.

(** The base map: the coordinates of the first row are written before the
    map is built. *)
Lemma base_map_run final s3 s :
  base_map final s3 s
  = (if plottable final then Val (base_view final) else Raise nan_error,
     {| st_cache := st_cache s;
        shown := shown s ++ base_shown final s3 |}).
Proof.
  unfold base_map, base_view, base_shown. destruct final as [|first rest].
  - unfold bind, call. rewrite folium_Map_run. reflexivity.
  - unfold bind, call. rewrite folium_Map_run.
    cbn [plottable forallb].
    destruct (has_nan (Lat first, Lon first)) eqn:E; [reflexivity|].
    rewrite location_markers_run. cbn [plottable forallb]. rewrite E.
    cbn [negb andb]. fold (plottable rest).
    destruct (plottable rest); reflexivity.
Qed.

(** ** Memoisation is invisible *)

Section Transparent.
Variable fs : files.

Lemma transparent_ret {A} (a : A) : transparent fs (ret a).
Proof.
  exists (Val a), []. intros c pre H. exists c. split; [exact H|].
  unfold ret. now rewrite app_nil_r.
Qed.

Lemma transparent_call (x : st_call) : transparent fs (call x).
Proof.
  exists (Val tt), [x]. intros c pre H. exists c. split; [exact H|reflexivity].
Qed.

Lemma transparent_stop {A} : transparent fs (@st_stop A).
Proof.
  exists Stop, []. intros c pre H. exists c. split; [exact H|].
  unfold st_stop. now rewrite app_nil_r.
Qed.

Lemma transparent_raise {A} (e : string) : transparent fs (@raise A e).
Proof.
  exists (Raise e), []. intros c pre H. exists c. split; [exact H|].
  unfold raise. now rewrite app_nil_r.
Qed.

Lemma transparent_try {A B} (body : M A) (handler : string -> M B)
    (orelse : A -> M B) :
  transparent fs body ->
  (forall e, transparent fs (handler e)) ->
  (forall a, transparent fs (orelse a)) ->
  transparent fs (try_except_else body handler orelse).
Proof.
  intros (r & out & Hm) Hh Ho. unfold try_except_else.
  destruct r as [a| |e].
  - destruct (Ho a) as (r2 & out2 & Hk). exists r2, (out ++ out2).
    intros c pre Hc. destruct (Hm c pre Hc) as (c1 & Hc1 & ->).
    destruct (Hk c1 (pre ++ out) Hc1) as (c2 & Hc2 & ->).
    exists c2. now rewrite app_assoc.
  - exists Stop, out. intros c pre Hc.
    destruct (Hm c pre Hc) as (c1 & Hc1 & ->). now exists c1.
  - destruct (Hh e) as (r2 & out2 & Hk). exists r2, (out ++ out2).
    intros c pre Hc. destruct (Hm c pre Hc) as (c1 & Hc1 & ->).
    destruct (Hk c1 (pre ++ out) Hc1) as (c2 & Hc2 & ->).
    exists c2. now rewrite app_assoc.
Qed.

Lemma transparent_bind {A B} (m : M A) (k : A -> M B) :
  transparent fs m -> (forall a, transparent fs (k a)) ->
  transparent fs (bind m k).
Proof.
  intros (r & out & Hm) Hk. unfold bind.
  destruct r as [a| |e].
  - destruct (Hk a) as (r2 & out2 & Hka). exists r2, (out ++ out2).
    intros c pre Hc. destruct (Hm c pre Hc) as (c1 & Hc1 & ->).
    destruct (Hka c1 (pre ++ out) Hc1) as (c2 & Hc2 & ->).
    exists c2. now rewrite app_assoc.
  - exists Stop, out. intros c pre Hc.
    destruct (Hm c pre Hc) as (c1 & Hc1 & ->). now exists c1.
  - exists (Raise e), out. intros c pre Hc.
    destruct (Hm c pre Hc) as (c1 & Hc1 & ->). now exists c1.
Qed.

Lemma transparent_if {A} (b : bool) (m1 m2 : M A) :
  transparent fs m1 -> transparent fs m2 ->
  transparent fs (if b then m1 else m2).
Proof. now destruct b. Qed.

(** A computation that returns [r] and leaves the state as it is. *)
Lemma transparent_run {A} (m : M A) (r : res A) :
  (forall s, m s = (r, s)) -> transparent fs m.
Proof.
  intros H. exists r, []. intros c pre Hc. exists c. split; [exact Hc|].
  now rewrite H, app_nil_r.
Qed.

Lemma transparent_load_location_data : transparent fs (load_location_data fs).
Proof.
  eexists _, _. intros c pre Hc. eexists. split.
  - apply cache_ok_remember_location, Hc.
  - now apply load_location_data_eq.
Qed.

Lemma transparent_load_hospital_data : transparent fs (load_hospital_data fs).
Proof.
  eexists _, _. intros c pre Hc. eexists. split.
  - apply cache_ok_remember_hospital, Hc.
  - now apply load_hospital_data_eq.
Qed.

Lemma transparent_load_port_data : transparent fs (load_port_data fs).
Proof.
  eexists _, _. intros c pre Hc. eexists. split.
  - apply cache_ok_remember_port, Hc.
  - now apply load_port_data_eq.
Qed.

Lemma transparent_load_admin2_geojson :
  transparent fs (load_admin2_geojson fs).
Proof.
  eexists _, _. intros c pre Hc. eexists. split.
  - apply cache_ok_remember_geojson, Hc.
  - now apply load_admin2_geojson_eq.
Qed.

End Transparent.

Create HintDb transparent.
#[global] Hint Resolve transparent_ret transparent_call transparent_stop
  transparent_raise transparent_try transparent_bind transparent_if
  transparent_load_location_data transparent_load_hospital_data
  transparent_load_port_data transparent_load_admin2_geojson : transparent.

Lemma transparent_location_markers fs final m :
  transparent fs (location_markers final m).
Proof. eapply transparent_run. intros s. apply location_markers_run. Qed.

Lemma transparent_hospital_markers fs rows name children :
  transparent fs (hospital_markers rows (FeatureGroup name children)).
Proof. eapply transparent_run. intros s. apply hospital_markers_run. Qed.

Lemma transparent_port_markers fs rows name children :
  transparent fs (port_markers rows (FeatureGroup name children)).
Proof. eapply transparent_run. intros s. apply port_markers_run. Qed.

Lemma transparent_folium_Map fs loc zoom : transparent fs (folium_Map loc zoom).
Proof. eapply transparent_run. intros s. apply folium_Map_run. Qed.

#[global] Hint Resolve transparent_location_markers
  transparent_hospital_markers transparent_port_markers
  transparent_folium_Map : transparent.

Lemma transparent_base_map fs final s3 : transparent fs (base_map final s3).
Proof. unfold base_map. destruct final; auto with transparent. Qed.

Lemma transparent_boundary_overlay fs g s2 m :
  transparent fs (boundary_overlay g s2 m).
Proof.
  unfold boundary_overlay. destruct g as [g|]; [|auto with transparent].
  destruct (dict_truthy g); [|auto with transparent].
  destruct (filtered_features g s2); auto with transparent.
Qed.

Lemma transparent_hospital_block fs ui m la :
  transparent fs (hospital_block fs ui m la).
Proof. unfold hospital_block, checkbox. auto 10 with transparent. Qed.

Lemma transparent_port_block fs ui m la :
  transparent fs (port_block fs ui m la).
Proof. unfold port_block, checkbox. auto 10 with transparent. Qed.

#[global] Hint Resolve transparent_base_map transparent_boundary_overlay
  transparent_hospital_block transparent_port_block : transparent.

Lemma transparent_script fs ui : transparent fs (script fs ui).
Proof.
  unfold script, load_or_stop, selectbox.
  repeat (apply transparent_bind; [auto 10 with transparent|intros ?]).
  auto with transparent.
Qed.

(** A run from a sound store returns and shows what a run from the empty
    store does, and leaves a sound store. *)
Lemma run_from_empty fs ui c :
  cache_ok fs c ->
  fst (run fs ui c) = fst (run fs ui empty_cache) /\
  trace (run fs ui c) = trace (run fs ui empty_cache) /\
  cache_ok fs (st_cache (snd (run fs ui c))).
Proof.
  intros Hc. destruct (transparent_script fs ui) as (r & out & H).
  unfold run, trace.
  destruct (H c [] Hc) as (c1 & Hc1 & ->).
  destruct (H empty_cache [] (cache_ok_empty fs)) as (c2 & Hc2 & ->).
  simpl. auto.
Qed.

Lemma session_ok fs uis c : cache_ok fs c -> cache_ok fs (session fs uis c).
Proof.
  revert c. induction uis as [|ui uis IH]; intros c Hc; simpl; [exact Hc|].
  apply IH. now apply run_from_empty.
Qed.

(** ** Decomposing a run into its blocks *)

Lemma transparent_uncached fs {A} (m : M A) c pre :
  transparent fs m -> cache_ok fs c ->
  exists c', cache_ok fs c' /\
    m {| st_cache := c; shown := pre |}
    = (fst (uncached m),
       {| st_cache := c'; shown := pre ++ snd (uncached m) |}).
Proof.
  intros (r & out & H) Hc.
  destruct (H c pre Hc) as (c1 & Hc1 & E1).
  destruct (H empty_cache [] (cache_ok_empty fs)) as (c2 & Hc2 & E2).
  exists c1. split; [exact Hc1|].
  unfold uncached. rewrite E1, E2. reflexivity.
Qed.

Lemma bind_step fs {A B} (m : M A) (k : A -> M B) c pre :
  transparent fs m -> cache_ok fs c ->
  exists c', cache_ok fs c' /\
    bind m k {| st_cache := c; shown := pre |}
    = match fst (uncached m) with
      | Val a => k a {| st_cache := c'; shown := pre ++ snd (uncached m) |}
      | Stop => (Stop, {| st_cache := c'; shown := pre ++ snd (uncached m) |})
      | Raise e =>
          (Raise e, {| st_cache := c'; shown := pre ++ snd (uncached m) |})
      end.
Proof.
  intros Hm Hc.
  destruct (transparent_uncached fs m c pre Hm Hc) as (c' & Hc' & E).
  exists c'. split; [exact Hc'|]. unfold bind. rewrite E.
  destruct (fst (uncached m)); reflexivity.
Qed.

Lemma transparent_load_or_stop fs : transparent fs (load_or_stop fs).
Proof. unfold load_or_stop. auto 10 with transparent. Qed.

Lemma transparent_selectbox fs l o v : transparent fs (selectbox l o v).
Proof. unfold selectbox. auto with transparent. Qed.

#[global] Hint Resolve transparent_load_or_stop transparent_selectbox
  : transparent.

(** One step of a run: the first computation of a sequence is replaced by
    what it returns and shows outside the store. *)
Ltac step fs H :=
  match goal with
  | |- context [bind ?m ?k {| st_cache := ?c; shown := ?pre |}] =>
      let c' := fresh "c" in
      let Hc' := fresh "Hc" in
      let E := fresh "E" in
      let T := fresh "T" in
      assert (transparent fs m) as T by auto 10 with transparent;
      destruct (bind_step fs m k c pre T H) as (c' & Hc' & E);
      rewrite E; clear E T
  end.

(** The loaders outside the store. *)
Lemma uncached_load_or_stop fs :
  uncached (load_or_stop fs)
  = match drc_admin_data_csv fs with
    | Content data => (Val data, [])
    | Failure e =>
        (Stop, [st_error ("Error reading location CSV file: " ++ e)%string])
    end.
Proof.
  unfold uncached, load_or_stop, load_location_data, load_location_data_body.
  destruct (drc_admin_data_csv fs); reflexivity.
Qed.

Lemma uncached_load_admin2_geojson fs :
  uncached (load_admin2_geojson fs)
  = match unreadable fs with
    | Some e => (Raise e, [])
    | None => (Val (shapes_of fs), shapes_shown fs)
    end.
Proof.
  unfold uncached, load_admin2_geojson, load_admin2_geojson_body, unreadable,
    shapes_of, shapes_shown.
  destruct (drc_admin2_geojson fs) as [[g|e]|]; reflexivity.
Qed.

(** The blocks outside the store. *)
Lemma uncached_base_map final s3 :
  uncached (base_map final s3)
  = (if plottable final then Val (base_view final) else Raise nan_error,
     base_shown final s3).
Proof. unfold uncached. rewrite base_map_run. reflexivity. Qed.

Lemma uncached_boundary_overlay g s2 m :
  uncached (boundary_overlay g s2 m)
  = (Val (add_children (overlay_children g s2) m), overlay_shown g s2).
Proof.
  unfold uncached, boundary_overlay, overlay_children, overlay_shown.
  destruct g as [g|]; [|cbn; now rewrite add_children_nil].
  destruct (dict_truthy g); [|cbn; now rewrite add_children_nil].
  destruct (filtered_features g s2); cbn; [now rewrite add_children_nil|].
  reflexivity.
Qed.

Lemma uncached_hospital_block fs ui m la :
  uncached (hospital_block fs ui m la)
  = (if layer_plottable (show_hospitals ui) (drc_health_data_csv fs)
     then Val (add_children (hospital_children fs ui) m,
               la || hospitals_loaded fs ui)
     else Raise nan_error,
     hospital_shown fs ui).
Proof.
  unfold uncached, hospital_block, load_hospital_data, load_hospital_data_body,
    layer_plottable, hospital_children, hospitals_loaded, hospital_shown,
    checkbox, try_except_else, cache_data, bind, call.
  cbn [st_cache shown hospital_entry empty_cache ret].
  destruct (show_hospitals ui);
    [|cbn; now rewrite add_children_nil, orb_false_r].
  destruct (drc_health_data_csv fs) as [rows|e];
    cbn [read_file ret raise andb st_cache shown app fst snd hospital_entry
         empty_cache];
    [|now rewrite add_children_nil, orb_false_r].
  rewrite hospital_markers_run.
  destruct (facilities_plottable rows); [|reflexivity].
  cbn [app fst snd shown]. now rewrite orb_true_r.
Qed.

Lemma uncached_port_block fs ui m la :
  uncached (port_block fs ui m la)
  = (if layer_plottable (show_ports ui) (drc_port_data_csv fs)
     then Val (add_children (port_children fs ui) m,
               la || ports_loaded fs ui)
     else Raise nan_error,
     port_shown fs ui).
Proof.
  unfold uncached, port_block, load_port_data, load_port_data_body,
    layer_plottable, port_children, ports_loaded, port_shown,
    checkbox, try_except_else, cache_data, bind, call.
  cbn [st_cache shown port_entry empty_cache ret].
  destruct (show_ports ui);
    [|cbn; now rewrite add_children_nil, orb_false_r].
  destruct (drc_port_data_csv fs) as [rows|e];
    cbn [read_file ret raise andb st_cache shown app fst snd port_entry
         empty_cache];
    [|now rewrite add_children_nil, orb_false_r].
  rewrite port_markers_run.
  destruct (facilities_plottable rows); [|reflexivity].
  cbn [app fst snd shown]. now rewrite orb_true_r.
Qed.

Lemma uncached_selectbox l o v :
  uncached (selectbox l o v) = (Val v, [st_selectbox l o]).
Proof. reflexivity. Qed.

(** What a run from a sound store returns and shows. *)
Lemma run_page fs ui c :
  cache_ok fs c ->
  (fst (run fs ui c), trace (run fs ui c)) = page fs ui.
Proof.
  intros Hc. unfold run, trace, script, page.
  step fs Hc. cbn [uncached call fst snd shown app].
  step fs Hc0. cbn [uncached call fst snd shown app].
  step fs Hc1. rewrite uncached_load_or_stop.
  destruct (drc_admin_data_csv fs) as [data|e]; cbn [fst snd app shown];
    [|reflexivity].
  step fs Hc2. cbn [uncached call fst snd shown app].
  step fs Hc3. cbn [uncached call fst snd shown app].
  step fs Hc4. cbn [uncached call fst snd shown app].
  step fs Hc5. rewrite uncached_selectbox. cbn [fst snd app].
  step fs Hc6. rewrite uncached_selectbox. cbn [fst snd app].
  step fs Hc7. rewrite uncached_selectbox. cbn [fst snd app].
  step fs Hc8. rewrite uncached_base_map. fold (final_of data ui).
  cbn [fst snd].
  change [st_set_page_config "DRC Congo Positioning" "centered";
          st_markdown page_css; st_markdown page_title; st_write page_intro;
          st_columns 3;
          st_selectbox "Select Admin Level 1 (Province):" (admin1_options data);
          st_selectbox "Select Admin Level 2 (District):"
            (admin2_options data (selected_admin1 ui));
          st_selectbox "Select Admin Level 3 (Town):"
            (admin3_options data (selected_admin1 ui) (selected_admin2 ui))]
    with (before_map data ui).
  destruct (plottable (final_of data ui)); cbn [shown]; [|reflexivity].
  step fs Hc9. rewrite uncached_load_admin2_geojson.
  destruct (unreadable fs) as [e|]; cbn [fst snd shown];
    [now rewrite app_nil_r|].
  step fs Hc10. rewrite uncached_boundary_overlay. cbn [fst snd].
  step fs Hc11. cbn [uncached call fst snd shown app].
  step fs Hc12. cbn [uncached call fst snd shown app].
  step fs Hc13. rewrite uncached_hospital_block. cbn [fst snd].
  destruct (layer_plottable (show_hospitals ui) (drc_health_data_csv fs));
    cbn [shown fst snd].
  2: { unfold layers_head. rewrite <- !app_assoc. reflexivity. }
  step fs Hc14. rewrite uncached_port_block. cbn [fst snd].
  destruct (layer_plottable (show_ports ui) (drc_port_data_csv fs));
    cbn [shown fst snd].
  2: { unfold layers_head. rewrite <- !app_assoc. reflexivity. }
  step fs Hc15. cbn [uncached call fst snd shown app ret].
  unfold rendered_map, layers_head. rewrite <- !app_assoc. reflexivity.
Qed.

Lemma run_result fs ui c :
  cache_ok fs c -> fst (run fs ui c) = fst (page fs ui).
Proof. intros Hc. now rewrite <- (run_page fs ui c Hc). Qed.

Lemma run_shown fs ui c :
  cache_ok fs c -> trace (run fs ui c) = snd (page fs ui).
Proof. intros Hc. now rewrite <- (run_page fs ui c Hc). Qed.

(** ** The page, case by case *)

Lemma unreadable_none fs : shapes_readable fs -> unreadable fs = None.
Proof.
  intros H. unfold unreadable.
  destruct (drc_admin2_geojson fs) as [[g|e]|] eqn:E; try reflexivity.
  now apply H in E.
Qed.

Lemma unreadable_some fs e :
  drc_admin2_geojson fs = Some (Failure e) -> unreadable fs = Some e.
Proof. intros H. unfold unreadable. now rewrite H. Qed.

(** The location table cannot be read: the run stops at line 52. *)
Lemma page_location_failure fs ui e :
  drc_admin_data_csv fs = Failure e ->
  page fs ui
  = (Stop,
     [st_set_page_config "DRC Congo Positioning" "centered";
      st_markdown page_css;
      st_error ("Error reading location CSV file: " ++ e)%string]).
Proof. intros H. unfold page. now rewrite H. Qed.

(** [json.load] raises: the run ends there, after the coordinates have been
    written. *)
Lemma page_unreadable fs ui data e :
  drc_admin_data_csv fs = Content data ->
  plottable (final_of data ui) = true ->
  drc_admin2_geojson fs = Some (Failure e) ->
  page fs ui
  = (Raise e,
     before_map data ui
     ++ base_shown (final_of data ui) (selected_admin3 ui)).
Proof.
  intros Hd Hp He. unfold page.
  now rewrite Hd, Hp, (unreadable_some fs e He).
Qed.

(** Every location can be plotted and [json.load] does not raise: the map
    is handed to [st_folium]. *)
Lemma page_rendered fs ui data :
  drc_admin_data_csv fs = Content data ->
  shapes_readable fs ->
  plottable (final_of data ui) = true ->
  layers_plottable fs ui = true ->
  page fs ui
  = (Val (rendered_map data fs ui),
     before_map data ui
     ++ base_shown (final_of data ui) (selected_admin3 ui)
     ++ shapes_shown fs
     ++ overlay_shown (shapes_of fs) (selected_admin2 ui)
     ++ layers_head ++ hospital_shown fs ui ++ port_shown fs ui
     ++ [st_folium (rendered_map data fs ui)]).
Proof.
  intros Hd Hs Hp Hl. unfold layers_plottable in Hl.
  apply andb_true_iff in Hl. destruct Hl as [Hh Hq].
  unfold page. rewrite Hd, Hp, (unreadable_none fs Hs), Hh, Hq.
  now rewrite <- !app_assoc.
Qed.

(** What follows the coordinates in any run that read the location table. *)
Lemma shapes_shown_after fs : Forall after_base (shapes_shown fs).
Proof.
  unfold shapes_shown. destruct (drc_admin2_geojson fs);
    repeat constructor.
Qed.

Lemma overlay_shown_after g s2 : Forall after_base (overlay_shown g s2).
Proof.
  unfold overlay_shown. destruct g as [d|]; [|constructor].
  destruct (dict_truthy d); [|constructor].
  destruct (filtered_features d s2); repeat constructor.
Qed.

Lemma layers_head_after : Forall after_base layers_head.
Proof. repeat constructor. Qed.

Lemma hospital_shown_after fs ui : Forall after_base (hospital_shown fs ui).
Proof.
  unfold hospital_shown. destruct (show_hospitals ui);
    [destruct (drc_health_data_csv fs)|]; repeat constructor.
Qed.

Lemma port_shown_after fs ui : Forall after_base (port_shown fs ui).
Proof.
  unfold port_shown. destruct (show_ports ui);
    [destruct (drc_port_data_csv fs)|]; repeat constructor.
Qed.

Create HintDb after_base.
#[global] Hint Resolve shapes_shown_after overlay_shown_after
  layers_head_after hospital_shown_after port_shown_after : after_base.

Lemma page_shown fs ui data :
  drc_admin_data_csv fs = Content data ->
  exists rest,
    snd (page fs ui)
    = before_map data ui
      ++ base_shown (final_of data ui) (selected_admin3 ui) ++ rest /\
    Forall after_base rest.
Proof.
  intros Hd. unfold page. rewrite Hd.
  destruct (plottable (final_of data ui));
    [|exists []; split; [now rewrite app_nil_r|constructor]].
  destruct (unreadable fs);
    [exists []; split; [now rewrite app_nil_r|constructor]|].
  destruct (layer_plottable (show_hospitals ui) (drc_health_data_csv fs));
    [destruct (layer_plottable (show_ports ui) (drc_port_data_csv fs))|];
    cbn [snd]; eexists; (split; [rewrite <- !app_assoc; reflexivity|]);
    rewrite ?Forall_app; repeat split; auto with after_base.
  repeat constructor.
Qed.

(** Whatever a run that read the location table shows is shown by one of
    its blocks. *)
Lemma page_members fs ui data x :
  drc_admin_data_csv fs = Content data ->
  In x (snd (page fs ui)) ->
  In x (before_map data ui) \/
  In x (base_shown (final_of data ui) (selected_admin3 ui)) \/
  In x (shapes_shown fs) \/
  In x (overlay_shown (shapes_of fs) (selected_admin2 ui)) \/
  In x layers_head \/ In x (hospital_shown fs ui) \/
  In x (port_shown fs ui) \/ In x [st_folium (rendered_map data fs ui)].
Proof.
  intros Hd. unfold page. rewrite Hd.
  destruct (plottable (final_of data ui));
    [|cbn [snd]; rewrite in_app_iff; tauto].
  destruct (unreadable fs); [cbn [snd]; rewrite in_app_iff; tauto|].
  destruct (layer_plottable (show_hospitals ui) (drc_health_data_csv fs));
    [destruct (layer_plottable (show_ports ui) (drc_port_data_csv fs))|];
    cbn [snd]; rewrite !in_app_iff; tauto.
Qed.

Lemma run_location_failure fs ui c e :
  cache_ok fs c ->
  drc_admin_data_csv fs = Failure e ->
  fst (run fs ui c) = Stop /\
  trace (run fs ui c)
  = [st_set_page_config "DRC Congo Positioning" "centered";
     st_markdown page_css;
     st_error ("Error reading location CSV file: " ++ e)%string].
Proof.
  intros Hc Hd.
  rewrite (run_result fs ui c Hc), (run_shown fs ui c Hc),
    (page_location_failure fs ui e Hd).
  split; reflexivity.
Qed.

(** ** Traces and maps *)

Lemma selectboxes_app (t u : list st_call) :
  selectboxes (t ++ u) = selectboxes t ++ selectboxes u.
Proof. apply flat_map_app. Qed.

Lemma selectboxes_after rest : Forall after_base rest -> selectboxes rest = [].
Proof.
  induction 1 as [|x rest Hx _ IH]; [reflexivity|].
  destruct x; simpl in *; try exact IH. contradiction.
Qed.

Lemma selectboxes_base final s3 : selectboxes (base_shown final s3) = [].
Proof. now destruct final. Qed.

Lemma groups_app (name : string) (l l' : list element) :
  groups name (l ++ l') = groups name l ++ groups name l'.
Proof. apply flat_map_app. Qed.

Lemma groups_location_markers (name : string) (rows : list LocationRecord) :
  groups name (map location_marker rows) = [].
Proof. induction rows; simpl; auto. Qed.

(** The map handed to [st_folium], field by field. *)
Lemma rendered_map_children data fs ui :
  map_children (rendered_map data fs ui)
  = map location_marker (final_of data ui)
    ++ overlay_children (shapes_of fs) (selected_admin2 ui)
    ++ hospital_children fs ui ++ port_children fs ui
    ++ (if hospitals_loaded fs ui || ports_loaded fs ui
           || truthy (shapes_of fs)
        then [LayerControl] else []).
Proof.
  unfold rendered_map. cbn [orb].
  destruct (hospitals_loaded fs ui || ports_loaded fs ui
            || truthy (shapes_of fs));
    cbn [map_children add_to_map add_children base_view];
    rewrite <- ?app_assoc, ?app_nil_r; reflexivity.
Qed.

Lemma rendered_map_view data fs ui :
  tiles (rendered_map data fs ui) = "OpenStreetMap" /\
  (location (rendered_map data fs ui), zoom_start (rendered_map data fs ui))
  = match final_of data ui with
    | first :: _ => ((Lat first, Lon first), 10%Z)
    | [] => ((0%float, 0%float), 2%Z)
    end.
Proof.
  unfold rendered_map. cbn [orb].
  destruct (hospitals_loaded fs ui || ports_loaded fs ui
            || truthy (shapes_of fs));
    cbn [tiles location zoom_start add_to_map add_children base_view];
    (split; [reflexivity|]); destruct (final_of data ui); reflexivity.
Qed.

(** The cases in which a run hands a map to [st_folium]. *)
Lemma run_rendered fs ui c data :
  cache_ok fs c ->
  drc_admin_data_csv fs = Content data ->
  shapes_readable fs ->
  plottable (final_of data ui) = true ->
  layers_plottable fs ui = true ->
  fst (run fs ui c) = Val (rendered_map data fs ui) /\
  trace (run fs ui c)
  = before_map data ui
    ++ base_shown (final_of data ui) (selected_admin3 ui)
    ++ shapes_shown fs
    ++ overlay_shown (shapes_of fs) (selected_admin2 ui)
    ++ layers_head ++ hospital_shown fs ui ++ port_shown fs ui
    ++ [st_folium (rendered_map data fs ui)].
Proof.
  intros Hc Hd Hs Hp Hl.
  rewrite (run_result fs ui c Hc), (run_shown fs ui c Hc),
    (page_rendered fs ui data Hd Hs Hp Hl).
  split; reflexivity.
Qed.

Lemma run_map fs ui c data :
  cache_ok fs c ->
  drc_admin_data_csv fs = Content data ->
  shapes_readable fs ->
  plottable (final_of data ui) = true ->
  layers_plottable fs ui = true ->
  exists m,
    fst (run fs ui c) = Val m /\
    In (st_folium m) (trace (run fs ui c)) /\
    tiles m = "OpenStreetMap" /\
    (location m, zoom_start m)
    = match final_of data ui with
      | first :: _ => ((Lat first, Lon first), 10%Z)
      | [] => ((0%float, 0%float), 2%Z)
      end /\
    map_children m
    = map location_marker (final_of data ui)
      ++ overlay_children (shapes_of fs) (selected_admin2 ui)
      ++ hospital_children fs ui ++ port_children fs ui
      ++ (if hospitals_loaded fs ui || ports_loaded fs ui
             || truthy (shapes_of fs)
          then [LayerControl] else []).
Proof.
  intros Hc Hd Hs Hp Hl.
  destruct (run_rendered fs ui c data Hc Hd Hs Hp Hl) as [Hr Ht].
  exists (rendered_map data fs ui). split; [exact Hr|]. split.
  { rewrite Ht, !in_app_iff. do 7 right. now left. }
  destruct (rendered_map_view data fs ui) as [Hv Hl'].
  split; [exact Hv|]. split; [exact Hl'|]. apply rendered_map_children.
Qed.

(** A run in which [json.load] raises ends on that exception, after the
    coordinates have been written. *)
Lemma run_geojson_unreadable fs ui c data e :
  cache_ok fs c ->
  drc_admin_data_csv fs = Content data ->
  plottable (final_of data ui) = true ->
  drc_admin2_geojson fs = Some (Failure e) ->
  fst (run fs ui c) = Raise e /\
  trace (run fs ui c)
  = before_map data ui ++ base_shown (final_of data ui) (selected_admin3 ui).
Proof.
  intros Hc Hd Hp He.
  rewrite (run_result fs ui c Hc), (run_shown fs ui c Hc),
    (page_unreadable fs ui data e Hd Hp He).
  split; reflexivity.
Qed.

(** What every run that read the location table shows first. *)
Lemma run_prefix fs ui c data :
  cache_ok fs c ->
  drc_admin_data_csv fs = Content data ->
  exists rest,
    trace (run fs ui c)
    = before_map data ui
      ++ base_shown (final_of data ui) (selected_admin3 ui) ++ rest /\
    Forall after_base rest.
Proof.
  intros Hc Hd. rewrite (run_shown fs ui c Hc). now apply page_shown.
Qed.

Lemma run_members fs ui c data x :
  cache_ok fs c ->
  drc_admin_data_csv fs = Content data ->
  In x (trace (run fs ui c)) ->
  In x (before_map data ui) \/
  In x (base_shown (final_of data ui) (selected_admin3 ui)) \/
  In x (shapes_shown fs) \/
  In x (overlay_shown (shapes_of fs) (selected_admin2 ui)) \/
  In x layers_head \/ In x (hospital_shown fs ui) \/
  In x (port_shown fs ui) \/ In x [st_folium (rendered_map data fs ui)].
Proof.
  intros Hc Hd. rewrite (run_shown fs ui c Hc). now apply page_members.
Qed.

(** A run whose matching records can be plotted reaches line 110. *)
Lemma run_reaches_shapes fs ui c data x :
  cache_ok fs c ->
  drc_admin_data_csv fs = Content data ->
  plottable (final_of data ui) = true ->
  In x (shapes_shown fs) -> In x (trace (run fs ui c)).
Proof.
  intros Hc Hd Hp Hx. rewrite (run_shown fs ui c Hc). unfold page.
  rewrite Hd, Hp. unfold unreadable, shapes_shown in *.
  destruct (drc_admin2_geojson fs) as [[g|e]|];
    [destruct Hx|destruct Hx|destruct Hx as [<-|[]]].
  destruct (layer_plottable (show_hospitals ui) (drc_health_data_csv fs));
    [destruct (layer_plottable (show_ports ui) (drc_port_data_csv fs))|];
    cbn [snd]; rewrite !in_app_iff; cbn [In]; tauto.
Qed.

Lemma run_selectboxes fs ui c data :
  cache_ok fs c ->
  drc_admin_data_csv fs = Content data ->
  selectboxes (trace (run fs ui c)) = selectboxes (before_map data ui).
Proof.
  intros Hc Hd. destruct (run_prefix fs ui c data Hc Hd) as (rest & -> & Hr).
  rewrite !selectboxes_app, selectboxes_base, (selectboxes_after rest Hr).
  now rewrite !app_nil_r.
Qed.
(** ** The cascade *)

Lemma filtered_data_admin2_eq data s1 s2 :
  filtered_data_admin2 data s1 s2
  = filter (fun r => series_eq (Admin1 r) s1 && series_eq (Admin2 r) s2) data.
Proof. unfold filtered_data_admin2, filtered_data_admin1. apply filter_twice. Qed.

Lemma final_data_eq data s1 s2 s3 :
  final_data data s1 s2 s3
  = filter (fun r => series_eq (Admin1 r) s1 && series_eq (Admin2 r) s2
                     && series_eq (Admin3 r) s3) data.
Proof.
  unfold final_data. rewrite filtered_data_admin2_eq. apply filter_twice.
Qed.

Lemma In_final_data data s1 s2 s3 r :
  In r (final_data data s1 s2 s3) <->
  In r data /\ s1 = Some (Admin1 r) /\ s2 = Some (Admin2 r)
  /\ s3 = Some (Admin3 r).
Proof.
  rewrite final_data_eq, filter_In, !andb_true_iff, !series_eq_true. tauto.
Qed.

Lemma In_admin1_options data v :
  In v (admin1_options data) <-> exists r, In r data /\ Admin1 r = v.
Proof.
  unfold admin1_options. rewrite In_options, in_map_iff.
  split; intros (r & H1 & H2); exists r; tauto.
Qed.

Lemma In_admin2_options data s1 v :
  In v (admin2_options data s1) <->
  exists r, In r data /\ s1 = Some (Admin1 r) /\ Admin2 r = v.
Proof.
  unfold admin2_options, filtered_data_admin1. rewrite In_options, in_map_iff.
  split.
  - intros (r & H1 & H2). apply filter_In in H2. exists r.
    rewrite <- series_eq_true. tauto.
  - intros (r & H1 & H2 & H3). exists r. rewrite filter_In, series_eq_true.
    tauto.
Qed.

Lemma In_admin3_options data s1 s2 v :
  In v (admin3_options data s1 s2) <->
  exists r, In r data /\ s1 = Some (Admin1 r) /\ s2 = Some (Admin2 r)
            /\ Admin3 r = v.
Proof.
  unfold admin3_options. rewrite filtered_data_admin2_eq, In_options, in_map_iff.
  split.
  - intros (r & H1 & H2). apply filter_In in H2. exists r.
    rewrite andb_true_iff, !series_eq_true in H2. tauto.
  - intros (r & H1 & H2 & H3 & H4). exists r.
    rewrite filter_In, andb_true_iff, !series_eq_true. tauto.
Qed.

(** C1. The selection cascade is an equality filter on three columns: the
    district options are computed from exactly the rows whose Admin1 equals
    the selected province, the town options from exactly those rows whose
    Admin2 also equals the selected district, and the final record set is
    exactly the rows of the table whose Admin1, Admin2 and Admin3 equal the
    three selections (same rows, same order, same multiplicity). *)
Theorem selection_cascade_is_equality_filter
    (data : list LocationRecord) (s1 s2 s3 : option string) :
  admin2_options data s1
  = sorted (unique (map Admin2
      (filter (fun r => series_eq (Admin1 r) s1) data))) /\
  admin3_options data s1 s2
  = sorted (unique (map Admin3
      (filter (fun r => series_eq (Admin1 r) s1 && series_eq (Admin2 r) s2)
              data))) /\
  final_data data s1 s2 s3
  = filter (fun r => series_eq (Admin1 r) s1 && series_eq (Admin2 r) s2
                     && series_eq (Admin3 r) s3) data /\
  (forall cell sel, series_eq cell sel = true <-> sel = Some cell) /\
  (forall r, In r (final_data data s1 s2 s3) <->
             In r data /\ s1 = Some (Admin1 r) /\ s2 = Some (Admin2 r)
             /\ s3 = Some (Admin3 r)).
Proof.
  split; [reflexivity|].
  split; [unfold admin3_options; now rewrite filtered_data_admin2_eq|].
  split; [apply final_data_eq|].
  split; [apply series_eq_true|].
  intros r. apply In_final_data.
Qed.


(** C10. Dropdown options are sorted and duplicate-free: the three dropdowns
    shown in a run offer, at each level, the strictly ascending list of the
    distinct values of the corresponding column within the rows matching the
    higher-level selections. *)
Theorem dropdown_options_sorted_distinct
    (fs : files) (ui : interaction) (c : cache) (data : list LocationRecord) :
  cache_ok fs c ->
  drc_admin_data_csv fs = Content data ->
  exists o1 o2 o3,
    selectboxes (trace (run fs ui c))
    = [("Select Admin Level 1 (Province):", o1);
       ("Select Admin Level 2 (District):", o2);
       ("Select Admin Level 3 (Town):", o3)] /\
    (StronglySorted str_lt o1 /\
     forall v, In v o1 <-> exists r, In r data /\ Admin1 r = v) /\
    (StronglySorted str_lt o2 /\
     forall v, In v o2 <->
       exists r, In r data /\ selected_admin1 ui = Some (Admin1 r)
                 /\ Admin2 r = v) /\
    (StronglySorted str_lt o3 /\
     forall v, In v o3 <->
       exists r, In r data /\ selected_admin1 ui = Some (Admin1 r)
                 /\ selected_admin2 ui = Some (Admin2 r) /\ Admin3 r = v).
Proof.
  intros Hc Hd.
  exists (admin1_options data), (admin2_options data (selected_admin1 ui)),
    (admin3_options data (selected_admin1 ui) (selected_admin2 ui)).
  split; [now rewrite (run_selectboxes fs ui c data Hc Hd)|].
  repeat split; try apply options_strictly_ascending.
  - apply In_admin1_options.
  - apply In_admin1_options.
  - apply In_admin2_options.
  - apply In_admin2_options.
  - apply In_admin3_options.
  - apply In_admin3_options.
Qed.

(** *** How a run ends *)

(** A run that read the location table hands the map to [st_folium], or ends
    on the exception of [json.load], or on the one [folium] raises for a NaN
    coordinate. *)
Lemma page_outcome fs ui data :
  drc_admin_data_csv fs = Content data ->
  match fst (page fs ui) with
  | Val m => m = rendered_map data fs ui /\ In (st_folium m) (snd (page fs ui))
  | Raise e =>
      drc_admin2_geojson fs = Some (Failure e) \/
      (e = nan_error /\
       (plottable (final_of data ui) = false \/
        layers_plottable fs ui = false))
  | Stop => False
  end.
Proof.
  intros Hd. unfold page, layers_plottable. rewrite Hd.
  destruct (plottable (final_of data ui));
    [|cbn; right; split; [reflexivity|now left]].
  unfold unreadable.
  destruct (drc_admin2_geojson fs) as [[g|e]|]; [|cbn; now left|];
    (destruct (layer_plottable (show_hospitals ui) (drc_health_data_csv fs));
     [|cbn; right; split; [reflexivity|now right]]);
    (destruct (layer_plottable (show_ports ui) (drc_port_data_csv fs));
     [|cbn; right; split; [reflexivity|now right]]);
    cbn [fst snd]; (split; [reflexivity|]);
    apply in_or_app; right; apply in_or_app; right; now left.
Qed.

(** When one record carries the selected triple, the final data holds
    nothing else. *)
Lemma final_head data ui r :
  In r data ->
  selected_admin1 ui = Some (Admin1 r) ->
  selected_admin2 ui = Some (Admin2 r) ->
  selected_admin3 ui = Some (Admin3 r) ->
  (forall r', In r' data -> Admin1 r' = Admin1 r -> Admin2 r' = Admin2 r ->
              Admin3 r' = Admin3 r -> r' = r) ->
  (exists rest, final_of data ui = r :: rest) /\
  forall r', In r' (final_of data ui) -> r' = r.
Proof.
  intros Hin H1 H2 H3 Huniq. unfold final_of.
  assert (forall r', In r' (final_data data (selected_admin1 ui)
                              (selected_admin2 ui) (selected_admin3 ui)) ->
                     r' = r) as Hall.
  { intros r' Hr'. apply In_final_data in Hr'.
    destruct Hr' as (Hd & F1 & F2 & F3). apply Huniq; congruence. }
  split; [|exact Hall].
  assert (In r (final_data data (selected_admin1 ui) (selected_admin2 ui)
                  (selected_admin3 ui))) as Hr
    by (apply In_final_data; auto).
  destruct (final_data data _ _ _) as [|first rest] eqn:E; [destruct Hr|].
  exists rest. f_equal. apply Hall. now left.
Qed.

Lemma plottable_copies (r : LocationRecord) (rows : list LocationRecord) :
  (forall r', In r' rows -> r' = r) ->
  has_nan (Lat r, Lon r) = false -> plottable rows = true.
Proof.
  intros Hall Hr. unfold plottable. apply forallb_forall.
  intros x Hx. rewrite (Hall x Hx), Hr. reflexivity.
Qed.

(** C2. For every location table containing exactly one record for the
    selected (Admin1, Admin2, Admin3) triple, the coordinates written on the
    page are the Lat and Lon of that record, and the map handed to
    [st_folium] is centred on them.  The runs that hand over no map are the
    one in which [json.load] raises on the shapes file and those in which
    [folium] raises on a NaN coordinate, of that record or of a row of a
    ticked facility layer. *)
Theorem centroid_of_unique_record
    (fs : files) (ui : interaction) (c : cache) (data : list LocationRecord)
    (r : LocationRecord) :
  cache_ok fs c ->
  drc_admin_data_csv fs = Content data ->
  In r data ->
  selected_admin1 ui = Some (Admin1 r) ->
  selected_admin2 ui = Some (Admin2 r) ->
  selected_admin3 ui = Some (Admin3 r) ->
  (forall r', In r' data -> Admin1 r' = Admin1 r -> Admin2 r' = Admin2 r ->
              Admin3 r' = Admin3 r -> r' = r) ->
  In (st_write_coordinates (Some (Admin3 r)) (Lat r) (Lon r))
     (trace (run fs ui c)) /\
  match fst (run fs ui c) with
  | Val m => location m = (Lat r, Lon r) /\
             In (st_folium m) (trace (run fs ui c))
  | Raise e =>
      drc_admin2_geojson fs = Some (Failure e) \/
      (e = nan_error /\
       (has_nan (Lat r, Lon r) = true \/ layers_plottable fs ui = false))
  | Stop => False
  end.
Proof.
  intros Hc Hd Hin H1 H2 H3 Huniq.
  destruct (final_head data ui r Hin H1 H2 H3 Huniq) as ((rest & Hf) & Hall).
  split.
  - destruct (run_prefix fs ui c data Hc Hd) as (tl & -> & _).
    rewrite Hf, H3, !in_app_iff. right. left. now left.
  - rewrite (run_result fs ui c Hc), (run_shown fs ui c Hc).
    pose proof (page_outcome fs ui data Hd) as Ho.
    destruct (fst (page fs ui)) as [m| |e]; [| exact Ho |].
    + destruct Ho as [-> Hfol]. split; [|exact Hfol].
      destruct (rendered_map_view data fs ui) as [_ Hv].
      rewrite Hf in Hv. now injection Hv.
    + destruct Ho as [Ho|(-> & [Ho|Ho])]; auto.
      right. split; [reflexivity|].
      destruct (has_nan (Lat r, Lon r)) eqn:E; [now left|].
      rewrite (plottable_copies r _ Hall E) in Ho. discriminate.
Qed.

(** *** Tables without blank name cells *)

Lemma typed_record_raw r row : typed_record r = Some row -> r = raw_record row.
Proof.
  destruct r as [[a1|] [a2|] [a3|] lat lon]; unfold typed_record; simpl;
    intros H; try discriminate.
  injection H as <-. reflexivity.
Qed.

Lemma typed_table_raw rows data :
  typed_table rows = Some data -> rows = map raw_record data.
Proof.
  revert data. induction rows as [|r rows IH]; intros data; simpl.
  - intros H. injection H as <-. reflexivity.
  - destruct (typed_record r) as [row|] eqn:E; [|discriminate].
    destruct (typed_table rows) as [rest|]; [|discriminate].
    intros H. injection H as <-. simpl.
    now rewrite (typed_record_raw r row E), (IH rest eq_refl).
Qed.

Lemma filter_map {A B} (f : B -> bool) (g : A -> B) (l : list A) :
  filter f (map g l) = map g (filter (fun a => f (g a)) l).
Proof.
  induction l as [|a l IH]; simpl; [reflexivity|].
  destruct (f (g a)); simpl; now rewrite IH.
Qed.

Lemma texts_Text (l : list string) : texts (map Text l) = Some l.
Proof. induction l as [|s l IH]; simpl; [reflexivity|now rewrite IH]. Qed.

Lemma unique_cells_Text (l : list string) :
  unique_cells (map Text l) = map Text (unique l).
Proof.
  induction l as [|s l IH]; simpl; [reflexivity|].
  now rewrite IH, filter_map.
Qed.

Lemma sorted_cells_Text (l : list string) :
  sorted_cells (map Text l) = Some (map Text (sorted l)).
Proof. unfold sorted_cells. now rewrite texts_Text. Qed.

Lemma raw_options_Text (column : list string) :
  sorted_cells (unique_cells (map Text column))
  = Some (map Text (sorted (unique column))).
Proof. now rewrite unique_cells_Text, sorted_cells_Text. Qed.

Lemma raw_series_eq_Text (a : string) (s : option string) :
  raw_series_eq (Text a) (option_map Text s) = series_eq a s.
Proof. now destruct s. Qed.

(** On a table without blank name cells the two cascades agree. *)
Lemma raw_filtered_data_admin1_typed data s1 :
  raw_filtered_data_admin1 (map raw_record data) (option_map Text s1)
  = map raw_record (filtered_data_admin1 data s1).
Proof.
  unfold raw_filtered_data_admin1, filtered_data_admin1.
  rewrite filter_map. f_equal. apply filter_ext. intros r.
  apply raw_series_eq_Text.
Qed.

Lemma raw_filtered_data_admin2_typed data s1 s2 :
  raw_filtered_data_admin2 (map raw_record data) (option_map Text s1)
    (option_map Text s2)
  = map raw_record (filtered_data_admin2 data s1 s2).
Proof.
  unfold raw_filtered_data_admin2, filtered_data_admin2.
  rewrite raw_filtered_data_admin1_typed, filter_map. f_equal.
  apply filter_ext. intros r. apply raw_series_eq_Text.
Qed.

Lemma raw_final_data_typed data s1 s2 s3 :
  raw_final_data (map raw_record data) (option_map Text s1)
    (option_map Text s2) (option_map Text s3)
  = map raw_record (final_data data s1 s2 s3).
Proof.
  unfold raw_final_data, final_data.
  rewrite raw_filtered_data_admin2_typed, filter_map. f_equal.
  apply filter_ext. intros r. apply raw_series_eq_Text.
Qed.

Lemma raw_admin1_options_typed data :
  raw_admin1_options (map raw_record data)
  = Some (map Text (admin1_options data)).
Proof.
  unfold raw_admin1_options, admin1_options.
  rewrite map_map. cbn [raw_record raw_Admin1].
  rewrite <- (map_map Admin1 Text). apply raw_options_Text.
Qed.

Lemma raw_admin2_options_typed data s1 :
  raw_admin2_options (map raw_record data) (option_map Text s1)
  = Some (map Text (admin2_options data s1)).
Proof.
  unfold raw_admin2_options, admin2_options.
  rewrite raw_filtered_data_admin1_typed, map_map. cbn [raw_record raw_Admin2].
  rewrite <- (map_map Admin2 Text). apply raw_options_Text.
Qed.

Lemma raw_admin3_options_typed data s1 s2 :
  raw_admin3_options (map raw_record data) (option_map Text s1)
    (option_map Text s2)
  = Some (map Text (admin3_options data s1 s2)).
Proof.
  unfold raw_admin3_options, admin3_options.
  rewrite raw_filtered_data_admin2_typed, map_map. cbn [raw_record raw_Admin3].
  rewrite <- (map_map Admin3 Text). apply raw_options_Text.
Qed.

Lemma nonempty_of_In {A} (x : A) (l : list A) : In x l -> l <> [].
Proof. intros H E. rewrite E in H. exact H. Qed.

Lemma map_nonempty {A B} (f : A -> B) (l : list A) : l <> [] -> map f l <> [].
Proof. destruct l; [contradiction|discriminate]. Qed.

(** On a non-empty table of named records, selections drawn from the
    options find data: line 104 is not reached and the coordinates of the
    first matching row are written. *)
Lemma selections_find_data (data : list LocationRecord) :
  data <> [] ->
  admin1_options data <> [] /\
  forall s1, In s1 (admin1_options data) ->
    admin2_options data (Some s1) <> [] /\
    forall s2, In s2 (admin2_options data (Some s1)) ->
      admin3_options data (Some s1) (Some s2) <> [] /\
      forall s3, In s3 (admin3_options data (Some s1) (Some s2)) ->
        final_data data (Some s1) (Some s2) (Some s3) <> [] /\
        forall fs c ui,
          cache_ok fs c ->
          drc_admin_data_csv fs = Content data ->
          selected_admin1 ui = Some s1 ->
          selected_admin2 ui = Some s2 ->
          selected_admin3 ui = Some s3 ->
          ~ In (st_write no_data_found) (trace (run fs ui c)) /\
          exists first,
            hd_error (final_data data (Some s1) (Some s2) (Some s3))
              = Some first /\
            In (st_write_coordinates (Some s3) (Lat first) (Lon first))
               (trace (run fs ui c)).
Proof.
  intros Hdata. split.
  { destruct data as [|r data]; [contradiction|].
    apply (nonempty_of_In (Admin1 r)), In_admin1_options.
    exists r. split; [now left|reflexivity]. }
  intros s1 Hs1. apply In_admin1_options in Hs1.
  destruct Hs1 as (r1 & Hin1 & <-). split.
  { apply (nonempty_of_In (Admin2 r1)), In_admin2_options.
    exists r1. auto. }
  intros s2 Hs2. apply In_admin2_options in Hs2.
  destruct Hs2 as (r2 & Hin2 & E21 & <-). split.
  { apply (nonempty_of_In (Admin3 r2)), In_admin3_options.
    exists r2. auto. }
  intros s3 Hs3. apply In_admin3_options in Hs3.
  destruct Hs3 as (r3 & Hin3 & E31 & E32 & <-).
  assert (final_data data (Some (Admin1 r1)) (Some (Admin2 r2))
            (Some (Admin3 r3)) <> []) as Hfinal.
  { apply (nonempty_of_In r3), In_final_data. auto. }
  split; [exact Hfinal|].
  intros fs c ui Hc Hd H1 H2 H3.
  destruct (run_prefix fs ui c data Hc Hd) as (rest & -> & Hrest).
  unfold final_of. rewrite H1, H2, H3.
  destruct (final_data data _ _ _) as [|first tl]; [contradiction|].
  split.
  - rewrite !in_app_iff. intros [H|[H|H]].
    + simpl in H. repeat (destruct H as [H|H]; try discriminate H). exact H.
    + simpl in H. destruct H as [H|[]]. discriminate H.
    + rewrite Forall_forall in Hrest. apply Hrest in H. discriminate H.
  - exists first. split; [reflexivity|].
    rewrite !in_app_iff. right. left. now left.
Qed.

(** C8, as the code has it. For every non-empty location table without
    blank name cells, [sorted] raises at no level, every level has options
    to draw from, and when each selection is drawn from the options offered
    at its level the final filtered record set is non-empty: the branch that
    writes "No data found for the selected options." is not taken and the
    coordinates of the first row of the final data are written. *)
Theorem offered_selections_find_data
    (rows : list RawLocationRecord) (data : list LocationRecord) :
  rows <> [] ->
  typed_table rows = Some data ->
  exists o1,
    raw_admin1_options rows = Some o1 /\ o1 <> [] /\
    forall c1, In c1 o1 ->
      exists o2,
        raw_admin2_options rows (Some c1) = Some o2 /\ o2 <> [] /\
        forall c2, In c2 o2 ->
          exists o3,
            raw_admin3_options rows (Some c1) (Some c2) = Some o3 /\
            o3 <> [] /\
            forall c3, In c3 o3 ->
              raw_final_data rows (Some c1) (Some c2) (Some c3) <> [] /\
              exists s1 s2 s3,
                c1 = Text s1 /\ c2 = Text s2 /\ c3 = Text s3 /\
                final_data data (Some s1) (Some s2) (Some s3) <> [] /\
                forall fs c ui,
                  cache_ok fs c ->
                  drc_admin_data_csv fs = Content data ->
                  selected_admin1 ui = Some s1 ->
                  selected_admin2 ui = Some s2 ->
                  selected_admin3 ui = Some s3 ->
                  ~ In (st_write no_data_found) (trace (run fs ui c)) /\
                  exists first,
                    hd_error (final_data data (Some s1) (Some s2) (Some s3))
                      = Some first /\
                    In (st_write_coordinates (Some s3) (Lat first)
                          (Lon first))
                       (trace (run fs ui c)).
Proof.
  intros Hrows Hty. pose proof (typed_table_raw rows data Hty) as ->.
  assert (data <> []) as Hdata by (intros ->; now apply Hrows).
  destruct (selections_find_data data Hdata) as (N1 & K1).
  exists (map Text (admin1_options data)).
  split; [apply raw_admin1_options_typed|].
  split; [now apply map_nonempty|].
  intros c1 Hc1. apply in_map_iff in Hc1. destruct Hc1 as (s1 & <- & Hs1).
  destruct (K1 s1 Hs1) as (N2 & K2).
  exists (map Text (admin2_options data (Some s1))).
  split; [apply (raw_admin2_options_typed data (Some s1))|].
  split; [now apply map_nonempty|].
  intros c2 Hc2. apply in_map_iff in Hc2. destruct Hc2 as (s2 & <- & Hs2).
  destruct (K2 s2 Hs2) as (N3 & K3).
  exists (map Text (admin3_options data (Some s1) (Some s2))).
  split; [apply (raw_admin3_options_typed data (Some s1) (Some s2))|].
  split; [now apply map_nonempty|].
  intros c3 Hc3. apply in_map_iff in Hc3. destruct Hc3 as (s3 & <- & Hs3).
  destruct (K3 s3 Hs3) as (N4 & K4).
  split.
  { pose proof (raw_final_data_typed data (Some s1) (Some s2) (Some s3)) as E.
    cbn [option_map] in E. rewrite E. now apply map_nonempty. }
  exists s1, s2, s3. repeat (split; [reflexivity|]).
  split; [exact N4|exact K4].
Qed.

(** C8 fails as stated: on a table whose only row has a blank town, every
    level offers one option ([sorted] has nothing to compare), the town
    offered and selected is NaN, which equals no cell, and the final data
    is empty although the table is not. *)
Lemma blank_town_finds_no_data :
  blank_town_table <> [] /\
  raw_admin1_options blank_town_table = Some [Text "Kinshasa"] /\
  raw_admin2_options blank_town_table (Some (Text "Kinshasa"))
    = Some [Text "Funa"] /\
  raw_admin3_options blank_town_table (Some (Text "Kinshasa"))
    (Some (Text "Funa")) = Some [Blank] /\
  raw_final_data blank_town_table (Some (Text "Kinshasa"))
    (Some (Text "Funa")) (Some Blank) = [].
Proof. split; [discriminate|]. repeat split. Qed.

(** *** Feature groups and polygons of a rendered map *)

Lemma groups_overlay_other name g s2 :
  name <> "Admin2 Boundary" -> groups name (overlay_children g s2) = [].
Proof.
  intros Hn. unfold overlay_children.
  destruct g as [d|]; [|reflexivity].
  destruct (dict_truthy d); [|reflexivity].
  destruct (filtered_features d s2); [reflexivity|].
  unfold groups. cbn [flat_map app].
  destruct (String.eqb_spec "Admin2 Boundary" name) as [E|E];
    [now subst|reflexivity].
Qed.

Lemma groups_hospital_other name fs ui :
  name <> "Hospitals" -> groups name (hospital_children fs ui) = [].
Proof.
  intros Hn. unfold hospital_children.
  destruct (show_hospitals ui); [|reflexivity].
  destruct (drc_health_data_csv fs); [|reflexivity].
  unfold groups. cbn [flat_map app].
  destruct (String.eqb_spec "Hospitals" name) as [E|E];
    [now subst|reflexivity].
Qed.

Lemma groups_port_other name fs ui :
  name <> "Ports" -> groups name (port_children fs ui) = [].
Proof.
  intros Hn. unfold port_children.
  destruct (show_ports ui); [|reflexivity].
  destruct (drc_port_data_csv fs); [|reflexivity].
  unfold groups. cbn [flat_map app].
  destruct (String.eqb_spec "Ports" name) as [E|E];
    [now subst|reflexivity].
Qed.

Lemma groups_control name (b : bool) :
  groups name (if b then [LayerControl] else []) = [].
Proof. now destruct b. Qed.

(** The groups of a given name in a rendered map come from the block that
    adds groups of that name. *)
Lemma groups_rendered name data fs ui :
  groups name (map_children (rendered_map data fs ui))
  = groups name (overlay_children (shapes_of fs) (selected_admin2 ui))
    ++ groups name (hospital_children fs ui)
    ++ groups name (port_children fs ui).
Proof.
  rewrite rendered_map_children, !groups_app, groups_location_markers,
    groups_control, app_nil_r. reflexivity.
Qed.

Lemma falsy_has_no_features d : dict_truthy d = false -> get_features d = [].
Proof.
  unfold dict_truthy, get_features.
  destruct (gj_type d), (gj_features d); intros H;
    try discriminate; reflexivity.
Qed.

Lemma overlay_features g s2 :
  flat_map (flat_map (fun x => match x with
                               | GeoJson d _ => get_features d
                               | _ => []
                               end))
           (groups "Admin2 Boundary" (overlay_children (Some g) s2))
  = filtered_features g s2.
Proof.
  unfold overlay_children.
  destruct (dict_truthy g) eqn:Ht.
  - destruct (filtered_features g s2) as [|f l]; [reflexivity|].
    simpl. now rewrite !app_nil_r.
  - unfold filtered_features. now rewrite (falsy_has_no_features g Ht).
Qed.

Lemma overlay_empty g s2 :
  filtered_features g s2 = [] ->
  groups "Admin2 Boundary" (overlay_children (Some g) s2) = [].
Proof.
  intros H. unfold overlay_children. rewrite H.
  now destruct (dict_truthy g).
Qed.

Lemma polygons_location_markers rows :
  flat_map element_polygons (map location_marker rows) = [].
Proof. induction rows; simpl; auto. Qed.

Lemma polygons_hospital_markers rows :
  flat_map element_polygons (map hospital_marker rows) = [].
Proof. induction rows; simpl; auto. Qed.

Lemma polygons_port_markers rows :
  flat_map element_polygons (map port_marker rows) = [].
Proof. induction rows; simpl; auto. Qed.

Lemma polygons_hospital_children fs ui :
  flat_map element_polygons (hospital_children fs ui) = [].
Proof.
  unfold hospital_children. destruct (show_hospitals ui); [|reflexivity].
  destruct (drc_health_data_csv fs); [|reflexivity].
  cbn [flat_map element_polygons]. now rewrite polygons_hospital_markers.
Qed.

Lemma polygons_port_children fs ui :
  flat_map element_polygons (port_children fs ui) = [].
Proof.
  unfold port_children. destruct (show_ports ui); [|reflexivity].
  destruct (drc_port_data_csv fs); [|reflexivity].
  cbn [flat_map element_polygons]. now rewrite polygons_port_markers.
Qed.

Lemma polygons_overlay_children g s2 :
  flat_map element_polygons (overlay_children (Some g) s2)
  = match filtered_features g s2 with
    | [] => []
    | matching => [{| gj_type := Some "FeatureCollection";
                      gj_features := Some matching |}]
    end.
Proof.
  unfold overlay_children. destruct (dict_truthy g) eqn:Ht.
  - now destruct (filtered_features g s2).
  - unfold filtered_features. now rewrite (falsy_has_no_features g Ht).
Qed.

(** The polygon layers of a rendered map are those of the overlay. *)
Lemma polygons_rendered data fs ui :
  polygons (rendered_map data fs ui)
  = flat_map element_polygons
      (overlay_children (shapes_of fs) (selected_admin2 ui)).
Proof.
  unfold polygons.
  rewrite rendered_map_children, !flat_map_app, polygons_location_markers,
    polygons_hospital_children, polygons_port_children.
  cbn [app].
  destruct (hospitals_loaded fs ui || ports_loaded fs ui
            || truthy (shapes_of fs)); cbn; now rewrite app_nil_r.
Qed.

Lemma shapes_of_content fs g :
  drc_admin2_geojson fs = Some (Content g) -> shapes_of fs = Some g.
Proof. intros H. unfold shapes_of. now rewrite H. Qed.

Lemma shapes_of_missing fs : drc_admin2_geojson fs = None -> shapes_of fs = None.
Proof. intros H. unfold shapes_of. now rewrite H. Qed.

Lemma readable_content fs g :
  drc_admin2_geojson fs = Some (Content g) -> shapes_readable fs.
Proof. intros H e He. congruence. Qed.

Lemma readable_missing fs : drc_admin2_geojson fs = None -> shapes_readable fs.
Proof. intros H e He. congruence. Qed.

(** A run hands over a map only if it read the location table, and the map
    is then the rendered one. *)
Lemma run_val fs ui c m :
  cache_ok fs c ->
  fst (run fs ui c) = Val m ->
  exists data,
    drc_admin_data_csv fs = Content data /\ m = rendered_map data fs ui.
Proof.
  intros Hc Hr. rewrite (run_result fs ui c Hc) in Hr.
  destruct (drc_admin_data_csv fs) as [data|e] eqn:Hd.
  - pose proof (page_outcome fs ui data Hd) as Ho. rewrite Hr in Ho.
    exists data. split; [reflexivity|apply Ho].
  - rewrite (page_location_failure fs ui e Hd) in Hr. discriminate Hr.
Qed.

(** C4. When a district is selected and the shapes file is read, the
    polygon layers of every map the run renders, wherever they are on the
    map, draw exactly the features of the file whose ADM2_FR property equals
    the selected district, in file order, and no other feature: they are the
    single collection of the 'Admin2 Boundary' group.  When no feature
    matches, the map has no polygon layer and no boundary group at all.  The
    map is rendered whenever no coordinate placed on it is NaN. *)
Theorem boundary_overlay_is_exact_match
    (fs : files) (ui : interaction) (c : cache) (data : list LocationRecord)
    (g : geojson) (district : string) :
  cache_ok fs c ->
  drc_admin_data_csv fs = Content data ->
  drc_admin2_geojson fs = Some (Content g) ->
  selected_admin2 ui = Some district ->
  (forall m,
     fst (run fs ui c) = Val m ->
     polygons m
     = match filter (fun f => py_eq (ADM2_FR f) (Some district))
                    (get_features g) with
       | [] => []
       | matching => [{| gj_type := Some "FeatureCollection";
                         gj_features := Some matching |}]
       end /\
     drawn_features m
     = filter (fun f => py_eq (ADM2_FR f) (Some district)) (get_features g) /\
     boundary_features m = drawn_features m /\
     (forall f, In f (drawn_features m) <->
                In f (get_features g) /\ ADM2_FR f = Some district) /\
     (filter (fun f => py_eq (ADM2_FR f) (Some district)) (get_features g)
      = [] ->
      polygons m = [] /\ groups "Admin2 Boundary" (map_children m) = [])) /\
  (plottable (final_of data ui) = true ->
   layers_plottable fs ui = true ->
   exists m,
     fst (run fs ui c) = Val m /\ In (st_folium m) (trace (run fs ui c))).
Proof.
  intros Hc Hd Hg Hs. split.
  - intros m Hr. destruct (run_val fs ui c m Hc Hr) as (data' & _ & ->).
    assert (groups "Admin2 Boundary" (map_children (rendered_map data' fs ui))
            = groups "Admin2 Boundary"
                (overlay_children (Some g) (Some district))) as Hgr.
    { rewrite groups_rendered, (shapes_of_content fs g Hg), Hs.
      rewrite groups_hospital_other, groups_port_other by discriminate.
      now rewrite !app_nil_r. }
    assert (polygons (rendered_map data' fs ui)
            = match filtered_features g (Some district) with
              | [] => []
              | matching => [{| gj_type := Some "FeatureCollection";
                                gj_features := Some matching |}]
              end) as Hpol.
    { rewrite polygons_rendered, (shapes_of_content fs g Hg), Hs.
      apply polygons_overlay_children. }
    assert (drawn_features (rendered_map data' fs ui)
            = filtered_features g (Some district)) as Hdr.
    { unfold drawn_features. rewrite Hpol.
      destruct (filtered_features g (Some district)); [reflexivity|].
      cbn. now rewrite app_nil_r. }
    assert (boundary_features (rendered_map data' fs ui)
            = filtered_features g (Some district)) as Hb.
    { unfold boundary_features. rewrite Hgr. apply overlay_features. }
    split; [exact Hpol|]. split; [exact Hdr|]. split; [congruence|]. split.
    + intros f. rewrite Hdr. unfold filtered_features.
      rewrite filter_In, py_eq_true. reflexivity.
    + intros He. fold (filtered_features g (Some district)) in He. split.
      * now rewrite Hpol, He.
      * rewrite Hgr. now apply overlay_empty.
  - intros Hp Hl.
    destruct (run_rendered fs ui c data Hc Hd (readable_content fs g Hg)
                Hp Hl) as [Hr Ht].
    exists (rendered_map data fs ui). split; [exact Hr|].
    rewrite Ht, !in_app_iff. do 7 right. now left.
Qed.

(** C9. A missing shapes file is not an error: when [drc_admin2.geojson]
    does not exist the loader returns [None] after showing a warning, no
    message of the overlay step and no error on its account is shown, every
    map the run renders has no boundary group and no polygon layer, and the
    map is rendered as it is with the file present: whenever no coordinate
    placed on it is NaN. *)
Theorem missing_shapes_file_is_not_an_error
    (fs : files) (ui : interaction) (c : cache) (data : list LocationRecord) :
  cache_ok fs c ->
  drc_admin_data_csv fs = Content data ->
  drc_admin2_geojson fs = None ->
  (forall c0 pre, cache_ok fs c0 ->
     fst (load_admin2_geojson fs {| st_cache := c0; shown := pre |})
       = Val None /\
     shown (snd (load_admin2_geojson fs {| st_cache := c0; shown := pre |}))
       = pre ++ [st_warning "Admin2 polygon file not found."]) /\
  ~ In (st_info "No polygon found for the selected Admin2.")
       (trace (run fs ui c)) /\
  (forall e, ~ In (st_error e) (trace (run fs ui c)) \/
             show_hospitals ui = true \/ show_ports ui = true) /\
  (forall m,
     fst (run fs ui c) = Val m ->
     groups "Admin2 Boundary" (map_children m) = [] /\
     polygons m = [] /\
     boundary_features m = []) /\
  (plottable (final_of data ui) = true ->
   In (st_warning "Admin2 polygon file not found.") (trace (run fs ui c)) /\
   (layers_plottable fs ui = true ->
    exists m,
      fst (run fs ui c) = Val m /\ In (st_folium m) (trace (run fs ui c)))).
Proof.
  intros Hc Hd Hg.
  assert (uncached (load_admin2_geojson fs)
          = (Val None, [st_warning "Admin2 polygon file not found."])) as Hu.
  { rewrite uncached_load_admin2_geojson.
    unfold unreadable, shapes_of, shapes_shown. now rewrite Hg. }
  assert (shapes_shown fs = [st_warning "Admin2 polygon file not found."])
    as Hw by (unfold shapes_shown; now rewrite Hg).
  assert (forall x, In x (trace (run fs ui c)) ->
            In x (before_map data ui) \/
            In x (base_shown (final_of data ui) (selected_admin3 ui)) \/
            x = st_warning "Admin2 polygon file not found." \/
            In x layers_head \/ In x (hospital_shown fs ui) \/
            In x (port_shown fs ui) \/
            st_folium (rendered_map data fs ui) = x) as Hin.
  { intros x H. apply (run_members fs ui c data x Hc Hd) in H.
    rewrite (shapes_of_missing fs Hg), Hw in H. cbn [overlay_shown In] in H.
    destruct H as [H|[H|[[H|[]]|[[]|[H|[H|[H|[H|[]]]]]]]]]; auto 10. }
  split.
  { intros c0 pre Hc0.
    destruct (transparent_uncached fs (load_admin2_geojson fs) c0 pre
                (transparent_load_admin2_geojson fs) Hc0) as (c' & _ & ->).
    rewrite Hu. split; reflexivity. }
  split.
  { intros H. apply Hin in H.
    destruct H as [H|[H|[H|[H|[H|[H|H]]]]]]; try discriminate H.
    + cbn in H. intuition discriminate.
    + destruct (final_of data ui); cbn in H; intuition discriminate.
    + cbn in H. intuition discriminate.
    + unfold hospital_shown in H. destruct (show_hospitals ui);
        [destruct (drc_health_data_csv fs)|]; cbn in H;
        intuition discriminate.
    + unfold port_shown in H. destruct (show_ports ui);
        [destruct (drc_port_data_csv fs)|]; cbn in H;
        intuition discriminate. }
  split.
  { intros e.
    destruct (show_hospitals ui) eqn:Hh; [auto|].
    destruct (show_ports ui) eqn:Hq; [auto|]. left.
    intros H. apply Hin in H.
    destruct H as [H|[H|[H|[H|[H|[H|H]]]]]]; try discriminate H.
    + cbn in H. intuition discriminate.
    + destruct (final_of data ui); cbn in H; intuition discriminate.
    + cbn in H. intuition discriminate.
    + unfold hospital_shown in H. rewrite Hh in H. cbn in H.
      intuition discriminate.
    + unfold port_shown in H. rewrite Hq in H. cbn in H.
      intuition discriminate. }
  split.
  { intros m Hr. destruct (run_val fs ui c m Hc Hr) as (data' & _ & ->).
    assert (groups "Admin2 Boundary"
              (map_children (rendered_map data' fs ui)) = []) as Hgr.
    { rewrite groups_rendered, (shapes_of_missing fs Hg).
      rewrite groups_hospital_other, groups_port_other by discriminate.
      reflexivity. }
    split; [exact Hgr|]. split.
    - now rewrite polygons_rendered, (shapes_of_missing fs Hg).
    - unfold boundary_features. now rewrite Hgr. }
  intros Hp. split.
  { apply (run_reaches_shapes fs ui c data _ Hc Hd Hp).
    rewrite Hw. now left. }
  intros Hl.
  destruct (run_rendered fs ui c data Hc Hd (readable_missing fs Hg) Hp Hl)
    as [Hr Ht].
  exists (rendered_map data fs ui). split; [exact Hr|].
  rewrite Ht, !in_app_iff. do 7 right. now left.
Qed.

(** *** Failing loads *)


(** *** The facility layers *)

Lemma groups_hospital_children fs ui :
  groups "Hospitals" (hospital_children fs ui)
  = hospital_layer_of fs (show_hospitals ui).
Proof.
  unfold hospital_children, hospital_layer_of.
  destruct (show_hospitals ui); [|reflexivity].
  destruct (drc_health_data_csv fs); reflexivity.
Qed.

Lemma groups_port_children fs ui :
  groups "Ports" (port_children fs ui) = port_layer_of fs (show_ports ui).
Proof.
  unfold port_children, port_layer_of.
  destruct (show_ports ui); [|reflexivity].
  destruct (drc_port_data_csv fs); reflexivity.
Qed.

Lemma facility_layers_rendered data fs ui :
  (groups "Hospitals" (map_children (rendered_map data fs ui)),
   groups "Ports" (map_children (rendered_map data fs ui)))
  = (hospital_layer_of fs (show_hospitals ui),
     port_layer_of fs (show_ports ui)).
Proof.
  rewrite !groups_rendered.
  rewrite !groups_overlay_other by discriminate.
  rewrite (groups_port_other "Hospitals"),
    (groups_hospital_other "Ports") by discriminate.
  now rewrite groups_hospital_children, groups_port_children, app_nil_r.
Qed.

(** The facility layers of a run in which the matching records can be
    plotted, whatever is selected. *)
Lemma facility_layers_eq fs ui c :
  cache_ok fs c ->
  (forall data, drc_admin_data_csv fs = Content data ->
                plottable (final_of data ui) = true) ->
  facility_layers (run fs ui c)
  = match drc_admin_data_csv fs, unreadable fs with
    | Failure _, _ => None
    | Content _, Some _ => None
    | Content _, None =>
        if layer_plottable (show_hospitals ui) (drc_health_data_csv fs)
           && layer_plottable (show_ports ui) (drc_port_data_csv fs)
        then Some (hospital_layer_of fs (show_hospitals ui),
                   port_layer_of fs (show_ports ui))
        else None
    end.
Proof.
  intros Hc Hp. unfold facility_layers.
  rewrite (run_result fs ui c Hc). unfold page.
  destruct (drc_admin_data_csv fs) as [data|e]; [|reflexivity].
  rewrite (Hp data eq_refl).
  destruct (unreadable fs); [reflexivity|].
  destruct (layer_plottable (show_hospitals ui) (drc_health_data_csv fs));
    [|reflexivity].
  destruct (layer_plottable (show_ports ui) (drc_port_data_csv fs));
    [|reflexivity].
  cbn [fst andb]. now rewrite facility_layers_rendered.
Qed.

(** C7. The hospital and port layers are independent of the location
    selection: whenever two runs on the same files that differ only in the
    selected triple both render a map, the two maps carry the same hospital
    and port groups; when the records matching either selection can be
    plotted (none has a NaN coordinate) the two runs render or fail alike;
    and a ticked layer whose file is read holds one marker per record of the
    file, carrying that record's Name, Lat and Lon. *)
Theorem facility_layers_independent_of_selection
    (fs : files) (c : cache) (ui ui' : interaction) :
  cache_ok fs c ->
  show_hospitals ui = show_hospitals ui' ->
  show_ports ui = show_ports ui' ->
  (forall m m',
     fst (run fs ui c) = Val m -> fst (run fs ui' c) = Val m' ->
     groups "Hospitals" (map_children m)
     = groups "Hospitals" (map_children m') /\
     groups "Ports" (map_children m) = groups "Ports" (map_children m')) /\
  ((forall data, drc_admin_data_csv fs = Content data ->
      plottable (final_of data ui) = true /\
      plottable (final_of data ui') = true) ->
   facility_layers (run fs ui c) = facility_layers (run fs ui' c)) /\
  (forall data hospital_data,
     drc_admin_data_csv fs = Content data ->
     shapes_readable fs ->
     plottable (final_of data ui) = true ->
     layers_plottable fs ui = true ->
     show_hospitals ui = true ->
     drc_health_data_csv fs = Content hospital_data ->
     exists m, fst (run fs ui c) = Val m /\
       groups "Hospitals" (map_children m)
       = [map (fun row =>
                 Marker (fLat row, fLon row) ("Hospital: " ++ Name row)%string
                        (Some (mkIcon "red" "plus-sign")))
              hospital_data]) /\
  (forall data port_data,
     drc_admin_data_csv fs = Content data ->
     shapes_readable fs ->
     plottable (final_of data ui) = true ->
     layers_plottable fs ui = true ->
     show_ports ui = true ->
     drc_port_data_csv fs = Content port_data ->
     exists m, fst (run fs ui c) = Val m /\
       groups "Ports" (map_children m)
       = [map (fun row =>
                 Marker (fLat row, fLon row) ("Port: " ++ Name row)%string
                        (Some (mkIcon "green" "plus-sign")))
              port_data]).
Proof.
  intros Hc Hh Hq. split; [|split; [|split]].
  - intros m m' Hr Hr'.
    destruct (run_val fs ui c m Hc Hr) as (data & _ & ->).
    destruct (run_val fs ui' c m' Hc Hr') as (data' & _ & ->).
    pose proof (facility_layers_rendered data fs ui) as L.
    pose proof (facility_layers_rendered data' fs ui') as L'.
    rewrite <- Hh, <- Hq in L'. rewrite <- L' in L.
    injection L as -> ->. split; reflexivity.
  - intros Hp. rewrite !facility_layers_eq; try assumption.
    + now rewrite Hh, Hq.
    + intros data Hd. apply (Hp data Hd).
    + intros data Hd. apply (Hp data Hd).
  - intros data hd Hd Hs Hp Hl Ht Hf.
    destruct (run_rendered fs ui c data Hc Hd Hs Hp Hl) as [Hr _].
    exists (rendered_map data fs ui). split; [exact Hr|].
    pose proof (facility_layers_rendered data fs ui) as L.
    injection L as -> _. unfold hospital_layer_of. now rewrite Ht, Hf.
  - intros data pd Hd Hs Hp Hl Ht Hf.
    destruct (run_rendered fs ui c data Hc Hd Hs Hp Hl) as [Hr _].
    exists (rendered_map data fs ui). split; [exact Hr|].
    pose proof (facility_layers_rendered data fs ui) as L.
    injection L as _ ->. unfold port_layer_of. now rewrite Ht, Hf.
Qed.
(** ** Datasets are kept from run to run *)

Lemma retains_refl c : retains c c.
Proof. repeat split; auto. Qed.

Lemma retains_trans c1 c2 c3 : retains c1 c2 -> retains c2 c3 -> retains c1 c3.
Proof.
  intros (A1 & A2 & A3 & A4) (B1 & B2 & B3 & B4). repeat split; auto.
Qed.

Section Keeps.
Variable c0 : cache.

Lemma keeps_ret {A} (a : A) : keeps c0 (ret a).
Proof. intros s H. exact H. Qed.

Lemma keeps_call (x : st_call) : keeps c0 (call x).
Proof. intros s H. exact H. Qed.

Lemma keeps_stop {A} : keeps c0 (@st_stop A).
Proof. intros s H. exact H. Qed.

Lemma keeps_raise {A} (e : string) : keeps c0 (@raise A e).
Proof. intros s H. exact H. Qed.

Lemma keeps_bind {A B} (m : M A) (k : A -> M B) :
  keeps c0 m -> (forall a, keeps c0 (k a)) -> keeps c0 (bind m k).
Proof.
  intros Hm Hk s H. unfold bind. specialize (Hm s H).
  destruct (m s) as [[a| |e] s']; simpl in *; auto. now apply Hk.
Qed.

Lemma keeps_try {A B} (body : M A) (handler : string -> M B)
    (orelse : A -> M B) :
  keeps c0 body -> (forall e, keeps c0 (handler e)) ->
  (forall a, keeps c0 (orelse a)) ->
  keeps c0 (try_except_else body handler orelse).
Proof.
  intros Hm Hh Ho s H. unfold try_except_else. specialize (Hm s H).
  destruct (body s) as [[a| |e] s']; simpl in *; auto.
  - now apply Ho.
  - now apply Hh.
Qed.

Lemma keeps_if {A} (b : bool) (m1 m2 : M A) :
  keeps c0 m1 -> keeps c0 m2 -> keeps c0 (if b then m1 else m2).
Proof. now destruct b. Qed.

Lemma keeps_read_file {A} (f : read A) : keeps c0 (read_file f).
Proof. destruct f; intros s H; exact H. Qed.

(** A computation that leaves the state as it is. *)
Lemma keeps_run {A} (m : M A) (r : res A) :
  (forall s, m s = (r, s)) -> keeps c0 m.
Proof. intros E s H. now rewrite E. Qed.

(** A memoised call fills an empty entry and touches nothing else. *)
Lemma keeps_load_location_data fs : keeps c0 (load_location_data fs).
Proof.
  intros s H. unfold load_location_data, cache_data, load_location_data_body.
  destruct (location_entry (st_cache s)) as [[v replay]|] eqn:E; [exact H|].
  destruct (drc_admin_data_csv fs); simpl; [|exact H].
  destruct H as (H1 & H2 & H3 & H4). repeat split; simpl; auto.
  intros e He. apply H1 in He. congruence.
Qed.

Lemma keeps_load_hospital_data fs : keeps c0 (load_hospital_data fs).
Proof.
  intros s H. unfold load_hospital_data, cache_data, load_hospital_data_body.
  destruct (hospital_entry (st_cache s)) as [[v replay]|] eqn:E; [exact H|].
  destruct (drc_health_data_csv fs); simpl; [|exact H].
  destruct H as (H1 & H2 & H3 & H4). repeat split; simpl; auto.
  intros e He. apply H2 in He. congruence.
Qed.

Lemma keeps_load_port_data fs : keeps c0 (load_port_data fs).
Proof.
  intros s H. unfold load_port_data, cache_data, load_port_data_body.
  destruct (port_entry (st_cache s)) as [[v replay]|] eqn:E; [exact H|].
  destruct (drc_port_data_csv fs); simpl; [|exact H].
  destruct H as (H1 & H2 & H3 & H4). repeat split; simpl; auto.
  intros e He. apply H3 in He. congruence.
Qed.

Lemma keeps_load_admin2_geojson fs : keeps c0 (load_admin2_geojson fs).
Proof.
  intros s H.
  unfold load_admin2_geojson, cache_data, load_admin2_geojson_body.
  destruct (geojson_entry (st_cache s)) as [[v replay]|] eqn:E; [exact H|].
  destruct (drc_admin2_geojson fs) as [[g|e]|]; simpl; try exact H;
    destruct H as (H1 & H2 & H3 & H4); repeat split; simpl; auto;
    intros e' He; apply H4 in He; congruence.
Qed.

End Keeps.

Create HintDb keeps.
#[global] Hint Resolve keeps_ret keeps_call keeps_stop keeps_raise keeps_bind
  keeps_try keeps_if keeps_read_file keeps_load_location_data
  keeps_load_hospital_data keeps_load_port_data keeps_load_admin2_geojson
  : keeps.

Lemma keeps_base_map c0 final s3 : keeps c0 (base_map final s3).
Proof. intros s H. now rewrite base_map_run. Qed.

Lemma keeps_hospital_markers c0 rows name children :
  keeps c0 (hospital_markers rows (FeatureGroup name children)).
Proof. eapply keeps_run. intros s. apply hospital_markers_run. Qed.

Lemma keeps_port_markers c0 rows name children :
  keeps c0 (port_markers rows (FeatureGroup name children)).
Proof. eapply keeps_run. intros s. apply port_markers_run. Qed.

#[global] Hint Resolve keeps_hospital_markers keeps_port_markers : keeps.

Lemma keeps_boundary_overlay c0 g s2 m : keeps c0 (boundary_overlay g s2 m).
Proof.
  unfold boundary_overlay. destruct g as [g|]; [|auto with keeps].
  destruct (dict_truthy g); [|auto with keeps].
  destruct (filtered_features g s2); auto with keeps.
Qed.

Lemma keeps_hospital_block c0 fs ui m la : keeps c0 (hospital_block fs ui m la).
Proof. unfold hospital_block, checkbox. auto 10 with keeps. Qed.

Lemma keeps_port_block c0 fs ui m la : keeps c0 (port_block fs ui m la).
Proof. unfold port_block, checkbox. auto 10 with keeps. Qed.

#[global] Hint Resolve keeps_base_map keeps_boundary_overlay
  keeps_hospital_block keeps_port_block : keeps.

Lemma keeps_script c0 fs ui : keeps c0 (script fs ui).
Proof.
  unfold script, load_or_stop, selectbox.
  repeat (apply keeps_bind; [auto 10 with keeps|intros ?]).
  auto with keeps.
Qed.

(** C5. No entity is mutated after load: after every run, and after every
    sequence of runs, each dataset that the store held before is held
    unchanged; and whatever location table the store holds during a session
    is the content of the file, which filtering has left identical. *)
Theorem no_mutation_after_load (fs : files) (ui : interaction) (c : cache) :
  retains c (st_cache (snd (run fs ui c))) /\
  (forall uis, retains c (session fs uis c)) /\
  (forall uis data replay,
     location_entry (session fs uis empty_cache) = Some (data, replay) ->
     drc_admin_data_csv fs = Content data).
Proof.
  assert (forall ui' c', retains c' (st_cache (snd (run fs ui' c')))) as Hrun.
  { intros ui' c'. unfold run. apply (keeps_script c' fs ui').
    apply retains_refl. }
  split; [apply Hrun|]. split.
  - intros uis. revert c. induction uis as [|u uis IH]; intros c; simpl.
    + apply retains_refl.
    + eapply retains_trans; [apply Hrun|apply IH].
  - intros uis data replay He.
    pose proof (session_ok fs uis empty_cache (cache_ok_empty fs)) as (Hl & _).
    rewrite He in Hl. simpl in Hl.
    unfold uncached, load_location_data_body in Hl.
    destruct (drc_admin_data_csv fs); simpl in Hl; congruence.
Qed.

(** *** Memoised loads *)

Lemma cache_data_agrees {A} (get : cache -> entry A) set (body : M A) s :
  oblivious body ->
  entry_ok body (get (st_cache s)) ->
  fst (cache_data get set body s) = fst (body s) /\
  shown (snd (cache_data get set body s)) = shown (snd (body s)).
Proof.
  intros Hob Hok. destruct s as [c pre].
  rewrite (cache_data_eq get set body c pre Hob Hok), Hob. split; reflexivity.
Qed.

Lemma after_calls_ok fs {A} (m : M A) n s :
  transparent fs m ->
  cache_ok fs (st_cache s) -> cache_ok fs (st_cache (after_calls n m s)).
Proof.
  intros Hm. revert s. induction n as [|n IH]; intros s Hs; simpl; [exact Hs|].
  apply IH. destruct s as [c pre].
  destruct (transparent_uncached fs m c pre Hm Hs) as (c' & Hc' & ->).
  exact Hc'.
Qed.

(** C6. Each whole-file load is memoised and memoisation does not change
    the result: after any session of runs and any number of further calls, a
    call of each of the four loaders returns the same value (or raises the
    same exception) and shows the same calls as its undecorated body, which
    reads the file. *)
Theorem memoised_load_is_uncached_read
    (fs : files) (uis : list interaction) (n : nat) (pre : list st_call) :
  let s := {| st_cache := session fs uis empty_cache; shown := pre |} in
  (let s' := after_calls n (load_location_data fs) s in
   fst (load_location_data fs s') = fst (load_location_data_body fs s') /\
   shown (snd (load_location_data fs s'))
   = shown (snd (load_location_data_body fs s'))) /\
  (let s' := after_calls n (load_hospital_data fs) s in
   fst (load_hospital_data fs s') = fst (load_hospital_data_body fs s') /\
   shown (snd (load_hospital_data fs s'))
   = shown (snd (load_hospital_data_body fs s'))) /\
  (let s' := after_calls n (load_port_data fs) s in
   fst (load_port_data fs s') = fst (load_port_data_body fs s') /\
   shown (snd (load_port_data fs s'))
   = shown (snd (load_port_data_body fs s'))) /\
  (let s' := after_calls n (load_admin2_geojson fs) s in
   fst (load_admin2_geojson fs s') = fst (load_admin2_geojson_body fs s') /\
   shown (snd (load_admin2_geojson fs s'))
   = shown (snd (load_admin2_geojson_body fs s'))).
Proof.
  intros s.
  assert (cache_ok fs (st_cache s)) as Hs
    by (apply session_ok, cache_ok_empty).
  repeat split.
  - apply cache_data_agrees; [apply load_location_data_body_oblivious|].
    apply (after_calls_ok fs _ n s (transparent_load_location_data fs) Hs).
  - apply cache_data_agrees; [apply load_location_data_body_oblivious|].
    apply (after_calls_ok fs _ n s (transparent_load_location_data fs) Hs).
  - apply cache_data_agrees; [apply load_hospital_data_body_oblivious|].
    apply (after_calls_ok fs _ n s (transparent_load_hospital_data fs) Hs).
  - apply cache_data_agrees; [apply load_hospital_data_body_oblivious|].
    apply (after_calls_ok fs _ n s (transparent_load_hospital_data fs) Hs).
  - apply cache_data_agrees; [apply load_port_data_body_oblivious|].
    apply (after_calls_ok fs _ n s (transparent_load_port_data fs) Hs).
  - apply cache_data_agrees; [apply load_port_data_body_oblivious|].
    apply (after_calls_ok fs _ n s (transparent_load_port_data fs) Hs).
  - apply cache_data_agrees; [apply load_admin2_geojson_body_oblivious|].
    apply (after_calls_ok fs _ n s (transparent_load_admin2_geojson fs) Hs).
  - apply cache_data_agrees; [apply load_admin2_geojson_body_oblivious|].
    apply (after_calls_ok fs _ n s (transparent_load_admin2_geojson fs) Hs).
Qed.


(** ** The statements on the sample inputs *)


(** Instances of the theorems above on the sample inputs. *)

Lemma centroid_of_unique_record_witness :
  In (st_write_coordinates (Some "Makala") (-4.5)%float 15.25%float)
     (trace (run sample_files sample_ui empty_cache)) /\
  match fst (run sample_files sample_ui empty_cache) with
  | Val m => location m = ((-4.5)%float, 15.25%float) /\
             In (st_folium m) (trace (run sample_files sample_ui empty_cache))
  | Raise e =>
      drc_admin2_geojson sample_files = Some (Failure e) \/
      (e = nan_error /\
       (has_nan (Lat makala, Lon makala) = true \/
        layers_plottable sample_files sample_ui = false))
  | Stop => False
  end.
Proof.
  apply (centroid_of_unique_record sample_files sample_ui empty_cache
           sample_table makala).
  - repeat split.
  - reflexivity.
  - simpl. auto.
  - reflexivity.
  - reflexivity.
  - reflexivity.
  - intros r' [<-|[<-|[<-|[]]]]; simpl; intros; congruence.
Defined.

Lemma dropdown_options_sorted_distinct_witness :
  exists o1 o2 o3,
    selectboxes (trace (run sample_files sample_ui empty_cache))
    = [("Select Admin Level 1 (Province):", o1);
       ("Select Admin Level 2 (District):", o2);
       ("Select Admin Level 3 (Town):", o3)] /\
    (StronglySorted str_lt o1 /\
     forall v, In v o1 <-> exists r, In r sample_table /\ Admin1 r = v) /\
    (StronglySorted str_lt o2 /\
     forall v, In v o2 <->
       exists r, In r sample_table
                 /\ selected_admin1 sample_ui = Some (Admin1 r)
                 /\ Admin2 r = v) /\
    (StronglySorted str_lt o3 /\
     forall v, In v o3 <->
       exists r, In r sample_table
                 /\ selected_admin1 sample_ui = Some (Admin1 r)
                 /\ selected_admin2 sample_ui = Some (Admin2 r)
                 /\ Admin3 r = v).
Proof.
  apply (dropdown_options_sorted_distinct sample_files sample_ui empty_cache
           sample_table).
  - repeat split.
  - reflexivity.
Defined.

Lemma offered_selections_find_data_witness :
  raw_final_data raw_sample_table (Some (Text "Kinshasa"))
    (Some (Text "Funa")) (Some (Text "Makala")) <> [] /\
  ~ In (st_write no_data_found)
       (trace (run sample_files sample_ui empty_cache)).
Proof.
  destruct (offered_selections_find_data raw_sample_table sample_table)
    as (o1 & H1 & _ & K1).
  - discriminate.
  - reflexivity.
  - injection H1 as <-.
    destruct (K1 (Text "Kinshasa")) as (o2 & H2 & _ & K2);
      [simpl; auto|].
    injection H2 as <-.
    destruct (K2 (Text "Funa")) as (o3 & H3 & _ & K3); [simpl; auto|].
    injection H3 as <-.
    destruct (K3 (Text "Makala")) as (N & s1 & s2 & s3 & E1 & E2 & E3 & _ & K);
      [simpl; auto|].
    injection E1 as <-. injection E2 as <-. injection E3 as <-.
    split; [exact N|].
    apply (K sample_files empty_cache sample_ui); try reflexivity.
    repeat split.
Defined.

Lemma boundary_overlay_is_exact_match_witness :
  exists m,
    fst (run sample_files sample_ui empty_cache) = Val m /\
    polygons m
    = [{| gj_type := Some "FeatureCollection";
          gj_features :=
            Some [mkFeature (Some "Funa") [[(15%float, (-4)%float)]]] |}] /\
    boundary_features m = drawn_features m.
Proof.
  destruct (boundary_overlay_is_exact_match sample_files sample_ui empty_cache
              sample_table sample_shapes "Funa")
    as (H & K).
  - repeat split.
  - reflexivity.
  - reflexivity.
  - reflexivity.
  - destruct K as (m & Hr & _); [reflexivity|reflexivity|].
    destruct (H m Hr) as (Hp & _ & Hb & _).
    exists m. split; [exact Hr|]. split; [exact Hp|exact Hb].
Defined.

Lemma missing_shapes_file_is_not_an_error_witness :
  In (st_warning "Admin2 polygon file not found.")
     (trace (run files_no_shapes sample_ui empty_cache)) /\
  exists m,
    fst (run files_no_shapes sample_ui empty_cache) = Val m /\
    In (st_folium m) (trace (run files_no_shapes sample_ui empty_cache)) /\
    groups "Admin2 Boundary" (map_children m) = [] /\
    polygons m = [].
Proof.
  destruct (missing_shapes_file_is_not_an_error files_no_shapes sample_ui
              empty_cache sample_table)
    as (_ & _ & _ & H & K).
  - repeat split.
  - reflexivity.
  - reflexivity.
  - destruct K as (Hw & K); [reflexivity|].
    destruct K as (m & Hr & Hf); [reflexivity|].
    destruct (H m Hr) as (Hg & Hp & _).
    split; [exact Hw|]. exists m.
    split; [exact Hr|]. split; [exact Hf|]. split; [exact Hg|exact Hp].
Defined.


Lemma facility_layers_independent_of_selection_witness :
  facility_layers (run sample_files sample_ui empty_cache)
  = facility_layers
      (run sample_files
         {| selected_admin1 := Some "Nord-Kivu";
            selected_admin2 := Some "Goma"; selected_admin3 := Some "Goma";
            show_hospitals := true; show_ports := true |}
         empty_cache) /\
  exists m, fst (run sample_files sample_ui empty_cache) = Val m /\
    groups "Hospitals" (map_children m)
    = [[Marker ((-4.25)%float, 15.25%float) "Hospital: Clinique Ngaliema"
               (Some (mkIcon "red" "plus-sign"))]].
Proof.
  destruct (facility_layers_independent_of_selection sample_files empty_cache
              sample_ui
              {| selected_admin1 := Some "Nord-Kivu";
                 selected_admin2 := Some "Goma";
                 selected_admin3 := Some "Goma";
                 show_hospitals := true; show_ports := true |})
    as (_ & H & K & _).
  - repeat split.
  - reflexivity.
  - reflexivity.
  - split.
    + apply H. intros data E. injection E as <-. split; reflexivity.
    + apply (K sample_table sample_hospitals); try reflexivity.
      intros e. discriminate.
Defined.
(** * Further properties of the script *)

(** *** Markers, controls and groups among the children *)

Lemma markers_location_markers rows :
  filter is_marker (map location_marker rows) = map location_marker rows.
Proof. induction rows as [|r rows IH]; simpl; [reflexivity|now rewrite IH]. Qed.

Lemma controls_location_markers rows :
  filter is_control (map location_marker rows) = [].
Proof. induction rows as [|r rows IH]; simpl; auto. Qed.

Lemma names_location_markers rows :
  flat_map (fun x => match x with
                     | FeatureGroup name _ => [name]
                     | _ => []
                     end) (map location_marker rows) = [].
Proof. induction rows as [|r rows IH]; simpl; auto. Qed.

Lemma overlay_children_cases g s2 :
  overlay_children g s2 = [] \/
  exists cs, overlay_children g s2 = [FeatureGroup "Admin2 Boundary" cs].
Proof.
  unfold overlay_children. destruct g as [d|]; [|now left].
  destruct (dict_truthy d); [|now left].
  destruct (filtered_features d s2); [now left|right; eauto].
Qed.

Lemma hospital_children_cases fs ui :
  (hospitals_loaded fs ui = false /\ hospital_children fs ui = []) \/
  (hospitals_loaded fs ui = true /\
   exists cs, hospital_children fs ui = [FeatureGroup "Hospitals" cs]).
Proof.
  unfold hospital_children, hospitals_loaded.
  destruct (show_hospitals ui); [|now left].
  destruct (drc_health_data_csv fs); [right; eauto|now left].
Qed.

Lemma port_children_cases fs ui :
  (ports_loaded fs ui = false /\ port_children fs ui = []) \/
  (ports_loaded fs ui = true /\
   exists cs, port_children fs ui = [FeatureGroup "Ports" cs]).
Proof.
  unfold port_children, ports_loaded.
  destruct (show_ports ui); [|now left].
  destruct (drc_port_data_csv fs); [right; eauto|now left].
Qed.

(** The overlay is drawn exactly when a feature of the file matches. *)
Lemma overlay_children_drawn fs ui :
  (matching_features fs ui = [] /\
   overlay_children (shapes_of fs) (selected_admin2 ui) = []) \/
  (matching_features fs ui <> [] /\
   overlay_children (shapes_of fs) (selected_admin2 ui)
   = [FeatureGroup "Admin2 Boundary"
        [GeoJson {| gj_type := Some "FeatureCollection";
                    gj_features := Some (matching_features fs ui) |}
                 boundary_style]]).
Proof.
  unfold matching_features, shapes_of, overlay_children.
  destruct (drc_admin2_geojson fs) as [[g|e]|]; try (left; split; reflexivity).
  destruct (dict_truthy g) eqn:T.
  - destruct (filtered_features g (selected_admin2 ui)) as [|f l];
      [left; split; reflexivity|right; split; [discriminate|reflexivity]].
  - left. split; [|reflexivity].
    unfold filtered_features. now rewrite (falsy_has_no_features g T).
Qed.

(** What follows the location markers holds no marker. *)
Lemma layers_hold_no_marker fs ui g s2 (b : bool) :
  filter is_marker
    (overlay_children g s2 ++ hospital_children fs ui ++ port_children fs ui
     ++ (if b then [LayerControl] else [])) = [].
Proof.
  rewrite !filter_app.
  destruct (overlay_children_cases g s2) as [-> |(cs & ->)];
  destruct (hospital_children_cases fs ui) as [(_ & ->)|(_ & cs' & ->)];
  destruct (port_children_cases fs ui) as [(_ & ->)|(_ & cs'' & ->)];
  destruct b; reflexivity.
Qed.

Lemma direct_markers_of_children m rows rest :
  map_children m = map location_marker rows ++ rest ->
  filter is_marker rest = [] ->
  direct_markers m = map location_marker rows.
Proof.
  intros Hch Hrest. unfold direct_markers.
  now rewrite Hch, filter_app, Hrest, app_nil_r, markers_location_markers.
Qed.

(** X1. When the location table is read, json.load does not raise and no
    coordinate placed on the map is NaN, the rendered map starts with one
    marker per record of the final data, in table order (duplicates
    included), each at the record's (Lat, Lon) with popup
    'Admin1 | Admin2 | Admin3' and no icon; nothing added afterwards is a
    bare marker. *)
Theorem one_marker_per_matching_record
    (fs : files) (ui : interaction) (c : cache) (data : list LocationRecord) :
  cache_ok fs c ->
  drc_admin_data_csv fs = Content data ->
  shapes_readable fs ->
  plottable (final_data data (selected_admin1 ui) (selected_admin2 ui)
               (selected_admin3 ui)) = true ->
  layers_plottable fs ui = true ->
  exists m rest,
    fst (run fs ui c) = Val m /\
    map_children m
    = map (fun row =>
             Marker (Lat row, Lon row)
                    (Admin1 row ++ " | " ++ Admin2 row ++ " | "
                     ++ Admin3 row)%string None)
          (final_data data (selected_admin1 ui) (selected_admin2 ui)
             (selected_admin3 ui))
      ++ rest /\
    filter is_marker rest = [] /\
    length (direct_markers m)
    = length (final_data data (selected_admin1 ui) (selected_admin2 ui)
                (selected_admin3 ui)).
Proof.
  intros Hc Hd Hs Hp Hl.
  destruct (run_map fs ui c data Hc Hd Hs Hp Hl)
    as (m & Hr & _ & _ & _ & Hch).
  exists m. eexists. split; [exact Hr|]. split; [exact Hch|].
  split; [apply layers_hold_no_marker|].
  rewrite (direct_markers_of_children m _ _ Hch
             (layers_hold_no_marker fs ui _ _ _)).
  unfold final_of. now rewrite length_map.
Qed.

(** X5. The rendered map (json.load does not raise, no coordinate placed on
    the map is NaN) has at most one LayerControl; it has one exactly when a
    ticked hospital or port layer was loaded or the shapes document is a
    non-empty dictionary (even if no feature matched), and it is then the
    last child of the map. A layer whose load failed does not count. *)
Theorem layer_control_rule
    (fs : files) (ui : interaction) (c : cache) (data : list LocationRecord) :
  cache_ok fs c ->
  drc_admin_data_csv fs = Content data ->
  shapes_readable fs ->
  plottable (final_of data ui) = true ->
  layers_plottable fs ui = true ->
  exists m,
    fst (run fs ui c) = Val m /\
    (layer_controls m = [LayerControl] \/ layer_controls m = []) /\
    (layer_controls m = [LayerControl] <->
     (show_hospitals ui = true /\
      exists hospital_data, drc_health_data_csv fs = Content hospital_data) \/
     (show_ports ui = true /\
      exists port_data, drc_port_data_csv fs = Content port_data) \/
     (exists g, drc_admin2_geojson fs = Some (Content g) /\
                dict_truthy g = true)) /\
    (layer_controls m = [LayerControl] ->
     exists before, map_children m = before ++ [LayerControl]).
Proof.
  intros Hc Hd Hs Hp Hl.
  destruct (run_map fs ui c data Hc Hd Hs Hp Hl)
    as (m & Hr & _ & _ & _ & Hch).
  exists m. split; [exact Hr|].
  assert (layer_controls m
          = if hospitals_loaded fs ui || ports_loaded fs ui
               || truthy (shapes_of fs)
            then [LayerControl] else []) as Hlc.
  { unfold layer_controls. rewrite Hch, !filter_app, controls_location_markers.
    destruct (overlay_children_cases (shapes_of fs) (selected_admin2 ui))
      as [-> |(cs & ->)];
    destruct (hospital_children_cases fs ui) as [(_ & ->)|(_ & cs' & ->)];
    destruct (port_children_cases fs ui) as [(_ & ->)|(_ & cs'' & ->)];
    destruct (hospitals_loaded fs ui || ports_loaded fs ui
              || truthy (shapes_of fs)); reflexivity. }
  assert (hospitals_loaded fs ui || ports_loaded fs ui
          || truthy (shapes_of fs) = true <->
          (show_hospitals ui = true /\
           exists hospital_data,
             drc_health_data_csv fs = Content hospital_data) \/
          (show_ports ui = true /\
           exists port_data, drc_port_data_csv fs = Content port_data) \/
          (exists g, drc_admin2_geojson fs = Some (Content g) /\
                     dict_truthy g = true)) as Hcond.
  { rewrite !orb_true_iff. unfold hospitals_loaded, ports_loaded, shapes_of.
    rewrite !andb_true_iff. split.
    - intros [[[H1 H2]|[H1 H2]]|H].
      + left. split; [exact H1|].
        destruct (drc_health_data_csv fs); [eauto|discriminate].
      + right. left. split; [exact H1|].
        destruct (drc_port_data_csv fs); [eauto|discriminate].
      + right. right.
        destruct (drc_admin2_geojson fs) as [[g|e]|]; try discriminate.
        exists g. auto.
    - intros [[H1 (d & H2)]|[[H1 (d & H2)]|(g & H1 & H2)]].
      + left. left. now rewrite H2.
      + left. right. now rewrite H2.
      + right. now rewrite H1. }
  rewrite Hlc, <- Hcond.
  destruct (hospitals_loaded fs ui || ports_loaded fs ui
            || truthy (shapes_of fs)) eqn:E.
  - split; [now left|]. split; [tauto|]. intros _.
    rewrite Hch. eexists. rewrite !app_assoc. reflexivity.
  - split; [now right|]. split; [split; discriminate|discriminate].
Qed.

(** X6. The feature groups of the rendered map (json.load does not raise, no
    coordinate placed on the map is NaN) are, in this order, 'Admin2
    Boundary' (present iff a feature matches the selected district),
    'Hospitals' (iff ticked and loaded) and 'Ports' (iff ticked and
    loaded); the boundary group holds a single GeoJson FeatureCollection
    of the matching features with the constant blue style. *)
Theorem feature_groups_in_order
    (fs : files) (ui : interaction) (c : cache) (data : list LocationRecord) :
  cache_ok fs c ->
  drc_admin_data_csv fs = Content data ->
  shapes_readable fs ->
  plottable (final_of data ui) = true ->
  layers_plottable fs ui = true ->
  exists m,
    fst (run fs ui c) = Val m /\
    group_names m
    = (match matching_features fs ui with
       | [] => []
       | _ => ["Admin2 Boundary"]
       end)
      ++ (if hospitals_loaded fs ui then ["Hospitals"] else [])
      ++ (if ports_loaded fs ui then ["Ports"] else []) /\
    (matching_features fs ui <> [] ->
     groups "Admin2 Boundary" (map_children m)
     = [[GeoJson {| gj_type := Some "FeatureCollection";
                    gj_features := Some (matching_features fs ui) |}
                 boundary_style]]).
Proof.
  intros Hc Hd Hs Hp Hl.
  destruct (run_map fs ui c data Hc Hd Hs Hp Hl)
    as (m & Hr & _ & _ & _ & Hch).
  exists m. split; [exact Hr|]. split.
  - unfold group_names. rewrite Hch, !flat_map_app, names_location_markers.
    destruct (overlay_children_drawn fs ui) as [(-> & ->)|(Hne & ->)];
    destruct (hospital_children_cases fs ui) as [(-> & ->)|(-> & cs' & ->)];
    destruct (port_children_cases fs ui) as [(-> & ->)|(-> & cs'' & ->)];
    destruct (truthy (shapes_of fs));
    try reflexivity;
    destruct (matching_features fs ui); try contradiction; reflexivity.
  - intros Hne. rewrite Hch, !groups_app, groups_location_markers.
    rewrite groups_hospital_other, groups_port_other by discriminate.
    destruct (overlay_children_drawn fs ui) as [(E & _)|(_ & ->)];
      [contradiction|].
    destruct (hospitals_loaded fs ui || ports_loaded fs ui
              || truthy (shapes_of fs)); reflexivity.
Qed.

(** *** The view of the map *)

(** What a run that read the location table writes at lines 94 and 104. *)
Lemma run_writes fs ui c data :
  cache_ok fs c ->
  drc_admin_data_csv fs = Content data ->
  (forall town lat lon,
     In (st_write_coordinates town lat lon) (trace (run fs ui c)) ->
     exists first rest,
       final_of data ui = first :: rest /\ town = selected_admin3 ui /\
       lat = Lat first /\ lon = Lon first) /\
  (In (st_write no_data_found) (trace (run fs ui c)) <->
   final_of data ui = []).
Proof.
  intros Hc Hd. destruct (run_prefix fs ui c data Hc Hd) as (tl & -> & Htl).
  rewrite Forall_forall in Htl. split.
  - intros town lat lon H. rewrite !in_app_iff in H.
    destruct H as [H|[H|H]].
    + cbn in H. intuition discriminate.
    + destruct (final_of data ui) as [|first rest]; cbn in H;
        destruct H as [H|[]]; [discriminate H|].
      injection H as <- <- <-. now exists first, rest.
    + apply Htl in H. destruct H.
  - rewrite !in_app_iff. split.
    + intros [H|[H|H]].
      * cbn in H. intuition discriminate.
      * destruct (final_of data ui); [reflexivity|].
        cbn in H. intuition discriminate.
      * apply Htl in H. discriminate H.
    + intros ->. right. left. now left.
Qed.

(** X2. When no record matches the three selections (and json.load does not
    raise and no row of a ticked layer has a NaN coordinate), the page
    writes 'No data found for the selected options.', writes no
    coordinates, and renders a map centred on (0, 0) at zoom 2 with
    OpenStreetMap tiles and no marker. *)
Theorem empty_final_data_renders_world_view
    (fs : files) (ui : interaction) (c : cache) (data : list LocationRecord) :
  cache_ok fs c ->
  drc_admin_data_csv fs = Content data ->
  shapes_readable fs ->
  layers_plottable fs ui = true ->
  final_data data (selected_admin1 ui) (selected_admin2 ui)
    (selected_admin3 ui) = [] ->
  exists m,
    fst (run fs ui c) = Val m /\
    In (st_folium m) (trace (run fs ui c)) /\
    location m = (0%float, 0%float) /\
    zoom_start m = 2%Z /\
    tiles m = "OpenStreetMap" /\
    direct_markers m = [] /\
    In (st_write "No data found for the selected options.")
       (trace (run fs ui c)) /\
    forall town lat lon,
      ~ In (st_write_coordinates town lat lon) (trace (run fs ui c)).
Proof.
  intros Hc Hd Hs Hl Hf.
  assert (plottable (final_of data ui) = true) as Hp
    by (unfold final_of; now rewrite Hf).
  destruct (run_map fs ui c data Hc Hd Hs Hp Hl)
    as (m & Hr & Hfol & Ht & Hv & Hch).
  destruct (run_writes fs ui c data Hc Hd) as [Hco Hno].
  pose proof (direct_markers_of_children m _ _ Hch
                (layers_hold_no_marker fs ui _ _ _)) as Hdm.
  unfold final_of in *. rewrite Hf in *. injection Hv as Hloc Hz.
  exists m. repeat (split; [assumption|]). split.
  - now apply Hno.
  - intros town lat lon H. apply Hco in H.
    destruct H as (first & rest & H & _). discriminate H.
Qed.

(** The final data of a table whose first matching row is [first]. *)
Lemma final_data_first pre first post s1 s2 s3 :
  s1 = Some (Admin1 first) ->
  s2 = Some (Admin2 first) ->
  s3 = Some (Admin3 first) ->
  (forall r, In r pre ->
     ~ (s1 = Some (Admin1 r) /\ s2 = Some (Admin2 r)
        /\ s3 = Some (Admin3 r))) ->
  final_data (pre ++ first :: post) s1 s2 s3
  = first :: final_data post s1 s2 s3.
Proof.
  intros H1 H2 H3 Hpre. rewrite !final_data_eq, filter_app.
  assert (filter (fun r => series_eq (Admin1 r) s1 && series_eq (Admin2 r) s2
                           && series_eq (Admin3 r) s3) pre = []) as ->.
  { induction pre as [|r pre IH]; [reflexivity|]. simpl.
    destruct (series_eq (Admin1 r) s1 && series_eq (Admin2 r) s2
              && series_eq (Admin3 r) s3) eqn:E.
    - exfalso. apply (Hpre r); [now left|].
      rewrite !andb_true_iff, !series_eq_true in E. tauto.
    - apply IH. intros r' Hr'. apply Hpre. now right. }
  simpl. subst s1 s2 s3. simpl. now rewrite !String.eqb_refl.
Qed.

(** X4. When several records carry the selected triple (and the map is
    rendered: json.load does not raise, no coordinate placed on the map is
    NaN), the map is centred on the first of them in file order at zoom 10
    with OpenStreetMap tiles, that record's coordinates are written, the
    no-data message is not, and every matching record gets a marker. *)
Theorem several_matches_centre_on_first
    (fs : files) (ui : interaction) (c : cache)
    (pre post : list LocationRecord) (first : LocationRecord) :
  cache_ok fs c ->
  drc_admin_data_csv fs = Content (pre ++ first :: post) ->
  shapes_readable fs ->
  selected_admin1 ui = Some (Admin1 first) ->
  selected_admin2 ui = Some (Admin2 first) ->
  selected_admin3 ui = Some (Admin3 first) ->
  (forall r, In r pre ->
     ~ (selected_admin1 ui = Some (Admin1 r) /\
        selected_admin2 ui = Some (Admin2 r) /\
        selected_admin3 ui = Some (Admin3 r))) ->
  plottable (first :: final_data post (selected_admin1 ui)
                        (selected_admin2 ui) (selected_admin3 ui)) = true ->
  layers_plottable fs ui = true ->
  exists m,
    fst (run fs ui c) = Val m /\
    location m = (Lat first, Lon first) /\
    zoom_start m = 10%Z /\
    tiles m = "OpenStreetMap" /\
    In (st_write_coordinates (Some (Admin3 first)) (Lat first) (Lon first))
       (trace (run fs ui c)) /\
    ~ In (st_write "No data found for the selected options.")
         (trace (run fs ui c)) /\
    length (direct_markers m)
    = S (length (final_data post (selected_admin1 ui) (selected_admin2 ui)
                   (selected_admin3 ui))).
Proof.
  intros Hc Hd Hs H1 H2 H3 Hpre Hp Hl.
  pose proof (final_data_first pre first post _ _ _ H1 H2 H3 Hpre) as Hf.
  fold (final_of (pre ++ first :: post) ui) in Hf. rewrite <- Hf in Hp.
  destruct (run_rendered fs ui c _ Hc Hd Hs Hp Hl) as [_ Htr].
  destruct (run_map fs ui c _ Hc Hd Hs Hp Hl)
    as (m & Hr & Hfol & Ht & Hv & Hch).
  destruct (run_writes fs ui c _ Hc Hd) as [_ Hno].
  pose proof (direct_markers_of_children m _ _ Hch
                (layers_hold_no_marker fs ui _ _ _)) as Hdm.
  rewrite Hf in *. injection Hv as Hloc Hz.
  exists m. repeat (split; [assumption|]).
  split; [|split]; [| |rewrite Hdm; simpl; now rewrite length_map].
  - rewrite Htr, H3, !in_app_iff. right. left. now left.
  - intros H. apply Hno in H. discriminate H.
Qed.

(** *** Messages *)

Lemma In_infos t text : In (st_info text) t <-> In text (infos t).
Proof.
  unfold infos. rewrite in_flat_map. split.
  - intros H. exists (st_info text). split; [exact H|now left].
  - intros (x & Hx & Hin). destruct x; simpl in Hin; try contradiction.
    destruct Hin as [->|[]]. exact Hx.
Qed.

Lemma In_errors t text : In (st_error text) t <-> In text (errors t).
Proof.
  unfold errors. rewrite in_flat_map. split.
  - intros H. exists (st_error text). split; [exact H|now left].
  - intros (x & Hx & Hin). destruct x; simpl in Hin; try contradiction.
    destruct Hin as [->|[]]. exact Hx.
Qed.

Lemma infos_app t u : infos (t ++ u) = infos t ++ infos u.
Proof. apply flat_map_app. Qed.

Lemma errors_app t u : errors (t ++ u) = errors t ++ errors u.
Proof. apply flat_map_app. Qed.

Lemma infos_folium m : infos [st_folium m] = [].
Proof. reflexivity. Qed.

Lemma errors_folium m : errors [st_folium m] = [].
Proof. reflexivity. Qed.

Lemma infos_base final s3 : infos (base_shown final s3) = [].
Proof. now destruct final. Qed.

Lemma errors_base final s3 : errors (base_shown final s3) = [].
Proof. now destruct final. Qed.

Lemma infos_shapes fs : infos (shapes_shown fs) = [].
Proof. unfold shapes_shown. now destruct (drc_admin2_geojson fs). Qed.

Lemma errors_shapes fs : errors (shapes_shown fs) = [].
Proof. unfold shapes_shown. now destruct (drc_admin2_geojson fs). Qed.

Lemma errors_overlay g s2 : errors (overlay_shown g s2) = [].
Proof.
  unfold overlay_shown. destruct g as [d|]; [|reflexivity].
  destruct (dict_truthy d); [|reflexivity].
  now destruct (filtered_features d s2).
Qed.

Lemma infos_hospital fs ui : infos (hospital_shown fs ui) = [].
Proof.
  unfold hospital_shown.
  destruct (show_hospitals ui); [destruct (drc_health_data_csv fs)|];
    reflexivity.
Qed.

Lemma infos_port fs ui : infos (port_shown fs ui) = [].
Proof.
  unfold port_shown.
  destruct (show_ports ui); [destruct (drc_port_data_csv fs)|]; reflexivity.
Qed.

(** The informational messages of a run in which the matching records can
    be plotted. *)
Lemma run_infos fs ui c data :
  cache_ok fs c ->
  drc_admin_data_csv fs = Content data ->
  plottable (final_of data ui) = true ->
  infos (trace (run fs ui c))
  = match unreadable fs with
    | Some _ => []
    | None => infos (overlay_shown (shapes_of fs) (selected_admin2 ui))
    end.
Proof.
  intros Hc Hd Hp. rewrite (run_shown fs ui c Hc). unfold page.
  rewrite Hd, Hp.
  destruct (unreadable fs); cbn [snd].
  { now rewrite infos_app, infos_base. }
  destruct (layer_plottable (show_hospitals ui) (drc_health_data_csv fs));
    [destruct (layer_plottable (show_ports ui) (drc_port_data_csv fs))|];
    cbn [snd];
    rewrite !infos_app, ?infos_base, ?infos_shapes, ?infos_hospital,
      ?infos_port, ?infos_folium;
    cbn [app]; now rewrite ?app_nil_r.
Qed.

(** X7. In a run that reads the location table and whose matching records
    can be plotted, 'No polygon found for the selected Admin2.' is shown
    exactly when the shapes file is read as a non-empty dictionary and none
    of its features matches the selected district (a dictionary without a
    'features' key included; an empty dictionary, a missing file or a file
    on which json.load raises show no such message); it is the only st.info
    message and is shown at most once. *)
Theorem no_polygon_message_rule
    (fs : files) (ui : interaction) (c : cache) (data : list LocationRecord) :
  cache_ok fs c ->
  drc_admin_data_csv fs = Content data ->
  plottable (final_of data ui) = true ->
  (In (st_info "No polygon found for the selected Admin2.")
      (trace (run fs ui c)) <->
   exists g, drc_admin2_geojson fs = Some (Content g) /\
             dict_truthy g = true /\
             filtered_features g (selected_admin2 ui) = []) /\
  (forall text, In (st_info text) (trace (run fs ui c)) ->
                text = "No polygon found for the selected Admin2.") /\
  length (infos (trace (run fs ui c))) <= 1.
Proof.
  intros Hc Hd Hp.
  assert (infos (trace (run fs ui c))
          = match drc_admin2_geojson fs with
            | Some (Content g) =>
                if dict_truthy g then
                  match filtered_features g (selected_admin2 ui) with
                  | [] => ["No polygon found for the selected Admin2."]
                  | _ => []
                  end
                else []
            | _ => []
            end) as Hi.
  { rewrite (run_infos fs ui c data Hc Hd Hp).
    unfold unreadable, shapes_of, overlay_shown.
    destruct (drc_admin2_geojson fs) as [[g|e]|]; try reflexivity.
    destruct (dict_truthy g); [|reflexivity].
    now destruct (filtered_features g (selected_admin2 ui)). }
  split; [|split].
  - rewrite In_infos, Hi. split.
    + destruct (drc_admin2_geojson fs) as [[g|e]|]; try (intros []).
      destruct (dict_truthy g) eqn:T; [|intros []].
      destruct (filtered_features g (selected_admin2 ui)) eqn:F;
        [|intros []].
      intros _. exists g. auto.
    + intros (g & -> & -> & ->). now left.
  - intros text. rewrite In_infos, Hi.
    destruct (drc_admin2_geojson fs) as [[g|e]|]; try (intros []).
    destruct (dict_truthy g); [|intros []].
    destruct (filtered_features g (selected_admin2 ui)); [|intros []].
    intros [<-|[]]. reflexivity.
  - rewrite Hi.
    destruct (drc_admin2_geojson fs) as [[g|e]|]; simpl; auto.
    destruct (dict_truthy g); simpl; auto.
    destruct (filtered_features g (selected_admin2 ui)); simpl; auto.
Qed.

(** X8. When drc_admin2.geojson exists but json.load raises (and the matching
    records can be plotted, so that line 110 is reached), the exception is
    not caught: the run ends on it after the dropdowns and the coordinates
    (or no-data) line, no checkbox is shown, no map is rendered and no
    st.error message is produced. *)
Theorem unreadable_shapes_file_ends_the_run
    (fs : files) (ui : interaction) (c : cache) (data : list LocationRecord)
    (e : string) :
  cache_ok fs c ->
  drc_admin_data_csv fs = Content data ->
  drc_admin2_geojson fs = Some (Failure e) ->
  plottable (final_data data (selected_admin1 ui) (selected_admin2 ui)
               (selected_admin3 ui)) = true ->
  fst (run fs ui c) = Raise e /\
  trace (run fs ui c)
  = before_map data ui
    ++ match final_data data (selected_admin1 ui) (selected_admin2 ui)
               (selected_admin3 ui) with
       | first :: _ =>
           [st_write_coordinates (selected_admin3 ui) (Lat first) (Lon first)]
       | [] => [st_write "No data found for the selected options."]
       end /\
  (forall m, ~ In (st_folium m) (trace (run fs ui c))) /\
  (forall label, ~ In (st_checkbox label) (trace (run fs ui c))) /\
  errors (trace (run fs ui c)) = [].
Proof.
  intros Hc Hd He Hp.
  destruct (run_geojson_unreadable fs ui c data e Hc Hd Hp He) as [Hr Ht].
  split; [exact Hr|]. split; [exact Ht|]. rewrite Ht.
  split; [|split].
  - intros m H. rewrite in_app_iff in H.
    destruct (final_of data ui); cbn [In before_map base_shown] in H;
      intuition discriminate.
  - intros l H. rewrite in_app_iff in H.
    destruct (final_of data ui); cbn [In before_map base_shown] in H;
      intuition discriminate.
  - rewrite errors_app, errors_base. reflexivity.
Qed.

(** X10. The st.error messages of a run are exactly: the location error alone
    when the location CSV cannot be read; otherwise, when no coordinate
    placed on the map is NaN (and unless json.load raised, in which case
    none), the hospital error if that layer is ticked and unreadable
    followed by the port error if that layer is ticked and unreadable. Each
    message carries the exception text; no error is shown when every
    attempted load succeeds. *)
Theorem errors_come_from_failed_loads
    (fs : files) (ui : interaction) (c : cache) :
  cache_ok fs c ->
  (forall data, drc_admin_data_csv fs = Content data ->
     plottable (final_of data ui) = true /\ layers_plottable fs ui = true) ->
  errors (trace (run fs ui c))
  = match drc_admin_data_csv fs with
    | Failure e => [("Error reading location CSV file: " ++ e)%string]
    | Content _ =>
        match drc_admin2_geojson fs with
        | Some (Failure _) => []
        | _ =>
            (if show_hospitals ui then
               match drc_health_data_csv fs with
               | Failure e => [("Error reading hospital CSV file: " ++ e)%string]
               | Content _ => []
               end
             else [])
            ++ (if show_ports ui then
                  match drc_port_data_csv fs with
                  | Failure e => [("Error reading port CSV file: " ++ e)%string]
                  | Content _ => []
                  end
                else [])
        end
    end.
Proof.
  intros Hc Hp.
  destruct (drc_admin_data_csv fs) as [data|e] eqn:Hd.
  - destruct (Hp data eq_refl) as [Hf Hl].
    destruct (drc_admin2_geojson fs) as [[g|e]|] eqn:Hg.
    1, 3:
      assert (shapes_readable fs) as Hs by (intros e He; congruence);
      destruct (run_rendered fs ui c data Hc Hd Hs Hf Hl) as [_ ->];
      rewrite !errors_app, errors_base, errors_shapes, errors_overlay,
        errors_folium;
      unfold hospital_shown, port_shown;
      destruct (show_hospitals ui), (show_ports ui),
        (drc_health_data_csv fs), (drc_port_data_csv fs);
      reflexivity.
    destruct (run_geojson_unreadable fs ui c data e Hc Hd Hf Hg) as [_ ->].
    now rewrite errors_app, errors_base.
  - destruct (run_location_failure fs ui c e Hc Hd) as [_ ->]. reflexivity.
Qed.

(** ** Which files a run reads *)

Section Preserves.
Variable I : cache -> Prop.

Lemma preserves_ret {A} (a : A) : preserves I (ret a).
Proof. intros s H. exact H. Qed.

Lemma preserves_call (x : st_call) : preserves I (call x).
Proof. intros s H. exact H. Qed.

Lemma preserves_stop {A} : preserves I (@st_stop A).
Proof. intros s H. exact H. Qed.

Lemma preserves_raise {A} (e : string) : preserves I (@raise A e).
Proof. intros s H. exact H. Qed.

Lemma preserves_read_file {A} (f : read A) : preserves I (read_file f).
Proof. destruct f; intros s H; exact H. Qed.

Lemma preserves_bind {A B} (m : M A) (k : A -> M B) :
  preserves I m -> (forall a, preserves I (k a)) -> preserves I (bind m k).
Proof.
  intros Hm Hk s H. unfold bind. specialize (Hm s H).
  destruct (m s) as [[a| |e] s']; simpl in *; auto. now apply Hk.
Qed.

Lemma preserves_try {A B} (body : M A) (handler : string -> M B)
    (orelse : A -> M B) :
  preserves I body -> (forall e, preserves I (handler e)) ->
  (forall a, preserves I (orelse a)) ->
  preserves I (try_except_else body handler orelse).
Proof.
  intros Hm Hh Ho s H. unfold try_except_else. specialize (Hm s H).
  destruct (body s) as [[a| |e] s']; simpl in *; auto.
  - now apply Ho.
  - now apply Hh.
Qed.

Lemma preserves_if {A} (b : bool) (m1 m2 : M A) :
  preserves I m1 -> preserves I m2 -> preserves I (if b then m1 else m2).
Proof. now destruct b. Qed.

(** A memoised call preserves what its body and its own entry preserve. *)
Lemma preserves_cache_data {A} (get : cache -> entry A) set (body : M A) :
  preserves I body ->
  (forall e c, I c -> I (set e c)) ->
  preserves I (cache_data get set body).
Proof.
  intros Hb Hset s H. unfold cache_data.
  destruct (get (st_cache s)) as [[v replay]|]; [exact H|].
  specialize (Hb {| st_cache := st_cache s; shown := [] |} H).
  destruct (body _) as [[v| |e] s']; simpl in *; auto.
Qed.

(** A computation that leaves the state as it is. *)
Lemma preserves_run {A} (m : M A) (r : res A) :
  (forall s, m s = (r, s)) -> preserves I m.
Proof. intros E s H. now rewrite E. Qed.

Lemma preserves_base_map final s3 : preserves I (base_map final s3).
Proof. intros s H. now rewrite base_map_run. Qed.

Lemma preserves_hospital_markers rows name children :
  preserves I (hospital_markers rows (FeatureGroup name children)).
Proof. eapply preserves_run. intros s. apply hospital_markers_run. Qed.

Lemma preserves_port_markers rows name children :
  preserves I (port_markers rows (FeatureGroup name children)).
Proof. eapply preserves_run. intros s. apply port_markers_run. Qed.

Lemma preserves_boundary_overlay g s2 m :
  preserves I (boundary_overlay g s2 m).
Proof.
  unfold boundary_overlay. destruct g as [g|]; [|apply preserves_ret].
  destruct (dict_truthy g); [|apply preserves_ret].
  destruct (filtered_features g s2);
    [apply preserves_bind; intros|];
    auto using preserves_call, preserves_ret.
Qed.

Lemma preserves_selectbox l o v : preserves I (selectbox l o v).
Proof.
  unfold selectbox. apply preserves_bind; intros;
    auto using preserves_call, preserves_ret.
Qed.

Lemma preserves_load_admin2_geojson_body fs :
  preserves I (load_admin2_geojson_body fs).
Proof.
  unfold load_admin2_geojson_body.
  destruct (drc_admin2_geojson fs); apply preserves_bind; intros;
    auto using preserves_call, preserves_ret, preserves_read_file.
Qed.

End Preserves.

Create HintDb preserves.
#[global] Hint Resolve preserves_ret preserves_call preserves_stop
  preserves_raise preserves_read_file preserves_bind preserves_try
  preserves_if preserves_base_map preserves_boundary_overlay
  preserves_selectbox preserves_load_admin2_geojson_body
  preserves_hospital_markers preserves_port_markers : preserves.

(** A block whose checkbox is not ticked leaves the store alone. *)
Lemma preserves_hospital_block_unticked I fs ui m la :
  show_hospitals ui = false -> preserves I (hospital_block fs ui m la).
Proof.
  intros H s Hs. unfold hospital_block, checkbox, bind, call, ret.
  rewrite H. exact Hs.
Qed.

Lemma preserves_port_block_unticked I fs ui m la :
  show_ports ui = false -> preserves I (port_block fs ui m la).
Proof.
  intros H s Hs. unfold port_block, checkbox, bind, call, ret.
  rewrite H. exact Hs.
Qed.

(** A block preserves what its own loader preserves. *)
Lemma preserves_hospital_block I fs ui m la :
  preserves I (load_hospital_data fs) ->
  preserves I (hospital_block fs ui m la).
Proof.
  intros H. unfold hospital_block, checkbox. auto 10 with preserves.
Qed.

Lemma preserves_port_block I fs ui m la :
  preserves I (load_port_data fs) -> preserves I (port_block fs ui m la).
Proof.
  intros H. unfold port_block, checkbox. auto 10 with preserves.
Qed.

(** The script preserves what its four blocks that touch the store do. *)
Lemma preserves_script I fs ui :
  preserves I (load_location_data fs) ->
  preserves I (load_admin2_geojson fs) ->
  (forall m la, preserves I (hospital_block fs ui m la)) ->
  (forall m la, preserves I (port_block fs ui m la)) ->
  preserves I (script fs ui).
Proof.
  intros H1 H2 H3 H4. unfold script, load_or_stop.
  repeat (apply preserves_bind; [auto 10 with preserves|intros ?]).
  auto with preserves.
Qed.

(** Two file systems on which a run cannot tell the difference. *)
Lemma page_ext fs fs' ui :
  drc_admin_data_csv fs' = drc_admin_data_csv fs ->
  drc_admin2_geojson fs' = drc_admin2_geojson fs ->
  (show_hospitals ui = true ->
   drc_health_data_csv fs' = drc_health_data_csv fs) ->
  (show_ports ui = true -> drc_port_data_csv fs' = drc_port_data_csv fs) ->
  page fs' ui = page fs ui.
Proof.
  intros Hl Hg Hh Hp.
  assert (unreadable fs' = unreadable fs) as E1
    by (unfold unreadable; now rewrite Hg).
  assert (shapes_of fs' = shapes_of fs) as E2
    by (unfold shapes_of; now rewrite Hg).
  assert (shapes_shown fs' = shapes_shown fs) as E3
    by (unfold shapes_shown; now rewrite Hg).
  assert (layer_plottable (show_hospitals ui) (drc_health_data_csv fs')
          = layer_plottable (show_hospitals ui) (drc_health_data_csv fs)
          /\ hospital_shown fs' ui = hospital_shown fs ui
          /\ hospital_children fs' ui = hospital_children fs ui
          /\ hospitals_loaded fs' ui = hospitals_loaded fs ui)
    as (E4 & E5 & E6 & E7).
  { unfold hospital_shown, hospital_children, hospitals_loaded.
    destruct (show_hospitals ui); [rewrite (Hh eq_refl)|]; auto. }
  assert (layer_plottable (show_ports ui) (drc_port_data_csv fs')
          = layer_plottable (show_ports ui) (drc_port_data_csv fs)
          /\ port_shown fs' ui = port_shown fs ui
          /\ port_children fs' ui = port_children fs ui
          /\ ports_loaded fs' ui = ports_loaded fs ui)
    as (E8 & E9 & E10 & E11).
  { unfold port_shown, port_children, ports_loaded.
    destruct (show_ports ui); [rewrite (Hp eq_refl)|]; auto. }
  unfold page, rendered_map.
  now rewrite Hl, E1, E2, E3, E4, E5, E6, E7, E8, E9, E10, E11.
Qed.

Lemma same_page fs fs' ui c c' :
  cache_ok fs c -> cache_ok fs' c' ->
  drc_admin_data_csv fs' = drc_admin_data_csv fs ->
  drc_admin2_geojson fs' = drc_admin2_geojson fs ->
  (show_hospitals ui = true ->
   drc_health_data_csv fs' = drc_health_data_csv fs) ->
  (show_ports ui = true -> drc_port_data_csv fs' = drc_port_data_csv fs) ->
  fst (run fs' ui c') = fst (run fs ui c) /\
  trace (run fs' ui c') = trace (run fs ui c).
Proof.
  intros Hc Hc' Hl Hg Hh Hp.
  rewrite (run_result fs ui c Hc), (run_shown fs ui c Hc),
    (run_result fs' ui c' Hc'), (run_shown fs' ui c' Hc'),
    (page_ext fs fs' ui Hl Hg Hh Hp).
  split; reflexivity.
Qed.

(** A memoised loader preserves a statement about another entry. *)
Ltac other_entry :=
  apply preserves_cache_data;
  [ first [ apply preserves_read_file
          | apply preserves_load_admin2_geojson_body ]
  | let H := fresh in intros ? ? H; exact H ].

(** X9. A facility file is read only if its checkbox is ticked: two file
    systems that agree on the location table, on the shapes file and on
    the facility files whose box is ticked give the same result and the
    same page, and an unticked layer leaves its entry of the memoisation
    store untouched. *)
Theorem unticked_layers_are_not_read
    (fs fs' : files) (ui : interaction) (c c' : cache) :
  cache_ok fs c -> cache_ok fs' c' ->
  drc_admin_data_csv fs' = drc_admin_data_csv fs ->
  drc_admin2_geojson fs' = drc_admin2_geojson fs ->
  (show_hospitals ui = true ->
   drc_health_data_csv fs' = drc_health_data_csv fs) ->
  (show_ports ui = true -> drc_port_data_csv fs' = drc_port_data_csv fs) ->
  fst (run fs' ui c') = fst (run fs ui c) /\
  trace (run fs' ui c') = trace (run fs ui c) /\
  (show_hospitals ui = false ->
   hospital_entry (st_cache (snd (run fs ui c))) = hospital_entry c) /\
  (show_ports ui = false ->
   port_entry (st_cache (snd (run fs ui c))) = port_entry c).
Proof.
  intros Hc Hc' Hl Hg Hh Hp.
  destruct (same_page fs fs' ui c c' Hc Hc' Hl Hg Hh Hp) as [Hr Ht].
  split; [exact Hr|]. split; [exact Ht|]. split.
  - intros Hu. unfold run.
    apply (preserves_script (fun x => hospital_entry x = hospital_entry c));
      try reflexivity.
    + other_entry.
    + other_entry.
    + intros m la. now apply preserves_hospital_block_unticked.
    + intros m la. apply preserves_port_block.
      other_entry.
  - intros Hu. unfold run.
    apply (preserves_script (fun x => port_entry x = port_entry c));
      try reflexivity.
    + other_entry.
    + other_entry.
    + intros m la. apply preserves_hospital_block.
      other_entry.
    + intros m la. now apply preserves_port_block_unticked.
Qed.

(** X11. Every record of a table without blank name cells can be reached by
    the drill-down: its province is offered at level 1, its district is
    offered once the province is selected, its town once the district is
    selected ([sorted] raises at none of these levels), the record is then
    in the final data and, when the map is rendered, its marker is on the
    map. *)
Theorem every_record_is_reachable
    (rows : list RawLocationRecord) (data : list LocationRecord)
    (r : LocationRecord) :
  typed_table rows = Some data ->
  In r data ->
  (exists o1, raw_admin1_options rows = Some o1 /\ In (Text (Admin1 r)) o1) /\
  (exists o2,
     raw_admin2_options rows (Some (Text (Admin1 r))) = Some o2 /\
     In (Text (Admin2 r)) o2) /\
  (exists o3,
     raw_admin3_options rows (Some (Text (Admin1 r)))
       (Some (Text (Admin2 r))) = Some o3 /\
     In (Text (Admin3 r)) o3) /\
  In (raw_record r)
     (raw_final_data rows (Some (Text (Admin1 r))) (Some (Text (Admin2 r)))
        (Some (Text (Admin3 r)))) /\
  forall fs c ui,
    cache_ok fs c ->
    drc_admin_data_csv fs = Content data ->
    shapes_readable fs ->
    selected_admin1 ui = Some (Admin1 r) ->
    selected_admin2 ui = Some (Admin2 r) ->
    selected_admin3 ui = Some (Admin3 r) ->
    plottable (final_of data ui) = true ->
    layers_plottable fs ui = true ->
    exists m,
      fst (run fs ui c) = Val m /\
      In (Marker (Lat r, Lon r)
                 (Admin1 r ++ " | " ++ Admin2 r ++ " | " ++ Admin3 r)%string
                 None)
         (direct_markers m).
Proof.
  intros Hty Hin. pose proof (typed_table_raw rows data Hty) as ->.
  assert (In r (final_data data (Some (Admin1 r)) (Some (Admin2 r))
                  (Some (Admin3 r)))) as Hf
    by (apply In_final_data; auto).
  split.
  { eexists. split; [apply raw_admin1_options_typed|].
    apply in_map, In_admin1_options. eauto. }
  split.
  { eexists. split; [apply (raw_admin2_options_typed data (Some (Admin1 r)))|].
    apply in_map, In_admin2_options. eauto. }
  split.
  { eexists. split;
      [apply (raw_admin3_options_typed data (Some (Admin1 r))
                (Some (Admin2 r)))|].
    apply in_map, In_admin3_options. exists r. auto. }
  split.
  { pose proof (raw_final_data_typed data (Some (Admin1 r))
                  (Some (Admin2 r)) (Some (Admin3 r))) as E.
    cbn [option_map] in E. rewrite E. now apply in_map. }
  intros fs c ui Hc Hd Hs H1 H2 H3 Hp Hl.
  destruct (run_map fs ui c data Hc Hd Hs Hp Hl)
    as (m & Hr & _ & _ & _ & Hch).
  exists m. split; [exact Hr|].
  rewrite (direct_markers_of_children m _ _ Hch
             (layers_hold_no_marker fs ui _ _ _)).
  unfold final_of. rewrite H1, H2, H3.
  apply (in_map location_marker) in Hf. exact Hf.
Qed.

(** *** The store after a run *)

Lemma preserves_elim (I : cache -> Prop) {A} (m : M A) (s : state) :
  preserves I m -> I (st_cache s) -> I (st_cache (snd (m s))).
Proof. intros H. apply H. Qed.

Lemma uncached_location_body fs data :
  drc_admin_data_csv fs = Content data ->
  uncached (load_location_data_body fs) = (Val data, []).
Proof.
  intros H. unfold uncached, load_location_data_body. now rewrite H.
Qed.

(** A run that reads the location table leaves it in the store. *)
Lemma run_stores_location fs ui c data :
  cache_ok fs c ->
  drc_admin_data_csv fs = Content data ->
  location_entry (st_cache (snd (run fs ui c))) = Some (data, []).
Proof.
  intros Hc Hd. unfold run, script.
  unfold bind at 1. cbn [call].
  unfold bind at 1. cbn [call st_cache shown].
  unfold bind at 1. unfold load_or_stop at 1, try_except_else.
  rewrite (load_location_data_eq fs c _ Hc).
  rewrite (uncached_location_body fs data Hd). cbn [fst snd]. unfold ret at 1.
  apply (preserves_elim (fun x => location_entry x = Some (data, []))).
  - repeat (apply preserves_bind;
            [ first [ apply preserves_hospital_block; other_entry
                    | apply preserves_port_block; other_entry
                    | other_entry
                    | solve [auto 10 with preserves] ]
            | intros ? ]).
    auto with preserves.
  - cbn [st_cache]. unfold remember.
    rewrite (uncached_location_body fs data Hd). cbn [fst snd].
    destruct Hc as (Hl & _). unfold entry_ok in Hl.
    destruct (location_entry c) as [[v replay]|] eqn:E.
    + rewrite (uncached_location_body fs data Hd) in Hl. congruence.
    + reflexivity.
Qed.

Lemma run_retains fs ui c : retains c (st_cache (snd (run fs ui c))).
Proof. unfold run. apply (keeps_script c fs ui). apply retains_refl. Qed.

Lemma session_retains fs uis c : retains c (session fs uis c).
Proof.
  revert c. induction uis as [|ui uis IH]; intros c; simpl.
  - apply retains_refl.
  - eapply retains_trans; [apply run_retains|apply IH].
Qed.

(** X12. After the first run of a session on a readable location CSV the
    memoisation store holds the table, through all later runs; a memoised
    call on such a store returns the stored table without running the
    loader body and without changing the store. *)
Theorem location_table_is_read_once
    (fs : files) (data : list LocationRecord)
    (ui : interaction) (uis : list interaction) :
  drc_admin_data_csv fs = Content data ->
  location_entry (session fs (ui :: uis) empty_cache) = Some (data, []) /\
  forall c pre body,
    location_entry c = Some (data, []) ->
    cache_data location_entry set_location_entry body
      {| st_cache := c; shown := pre |}
    = (Val data, {| st_cache := c; shown := pre |}).
Proof.
  intros Hd. split.
  - simpl. apply (session_retains fs uis).
    apply run_stores_location; [apply cache_ok_empty|exact Hd].
  - intros c pre body He. unfold cache_data. cbn [st_cache shown].
    rewrite He. now rewrite app_nil_r.
Qed.

(** X13. Memoisation is invisible on the page: after any sequence of earlier
    runs of the session, a run returns and shows exactly what a run on an
    empty store returns and shows (the warning of a missing shapes file is
    replayed on every rerun). *)
Theorem reruns_show_the_same_page
    (fs : files) (uis : list interaction) (ui : interaction) :
  fst (run fs ui (session fs uis empty_cache))
  = fst (run fs ui empty_cache) /\
  trace (run fs ui (session fs uis empty_cache))
  = trace (run fs ui empty_cache).
Proof.
  destruct (run_from_empty fs ui (session fs uis empty_cache)
              (session_ok fs uis empty_cache (cache_ok_empty fs)))
    as (H1 & H2 & _).
  split; assumption.
Qed.

(** *** The page, the empty table and the store *)

(** X3. A run that reads the location table, on which json.load does not
    raise and in which no coordinate placed on the map is NaN, shows, in
    this order: page config, CSS, title, intro, columns, the three
    dropdowns, the coordinates or the no-data message, the warning when the
    shapes file is missing, the no-polygon message, the layers heading and
    text, the hospital checkbox followed by its error if that load failed,
    the port checkbox followed by its error if that load failed, and last
    the map. *)
Theorem page_layout
    (fs : files) (ui : interaction) (c : cache) (data : list LocationRecord) :
  cache_ok fs c ->
  drc_admin_data_csv fs = Content data ->
  shapes_readable fs ->
  plottable (final_data data (selected_admin1 ui) (selected_admin2 ui)
               (selected_admin3 ui)) = true ->
  layers_plottable fs ui = true ->
  exists m,
    fst (run fs ui c) = Val m /\
    trace (run fs ui c)
    = [st_set_page_config "DRC Congo Positioning" "centered";
       st_markdown page_css;
       st_markdown page_title;
       st_write page_intro;
       st_columns 3;
       st_selectbox "Select Admin Level 1 (Province):" (admin1_options data);
       st_selectbox "Select Admin Level 2 (District):"
         (admin2_options data (selected_admin1 ui));
       st_selectbox "Select Admin Level 3 (Town):"
         (admin3_options data (selected_admin1 ui) (selected_admin2 ui))]
      ++ match final_data data (selected_admin1 ui) (selected_admin2 ui)
                 (selected_admin3 ui) with
         | first :: _ =>
             [st_write_coordinates (selected_admin3 ui) (Lat first) (Lon first)]
         | [] => [st_write "No data found for the selected options."]
         end
      ++ match drc_admin2_geojson fs with
         | None => [st_warning "Admin2 polygon file not found."]
         | Some _ => []
         end
      ++ match drc_admin2_geojson fs with
         | Some (Content g) =>
             if dict_truthy g then
               match filtered_features g (selected_admin2 ui) with
               | [] => [st_info "No polygon found for the selected Admin2."]
               | _ => []
               end
             else []
         | _ => []
         end
      ++ [st_markdown "<b>Layers</b>"; st_write layers_intro]
      ++ st_checkbox "Show Health Facilities Layer"
         :: (if show_hospitals ui then
               match drc_health_data_csv fs with
               | Failure e =>
                   [st_error ("Error reading hospital CSV file: " ++ e)%string]
               | Content _ => []
               end
             else [])
      ++ st_checkbox "Show Ports Layer"
         :: (if show_ports ui then
               match drc_port_data_csv fs with
               | Failure e =>
                   [st_error ("Error reading port CSV file: " ++ e)%string]
               | Content _ => []
               end
             else [])
      ++ [st_folium m].
Proof.
  intros Hc Hd Hs Hp Hl.
  destruct (run_rendered fs ui c data Hc Hd Hs Hp Hl) as [Hr Ht].
  exists (rendered_map data fs ui). split; [exact Hr|]. rewrite Ht.
  assert (overlay_shown (shapes_of fs) (selected_admin2 ui)
          = match drc_admin2_geojson fs with
            | Some (Content g) =>
                if dict_truthy g then
                  match filtered_features g (selected_admin2 ui) with
                  | [] => [st_info "No polygon found for the selected Admin2."]
                  | _ => []
                  end
                else []
            | _ => []
            end) as ->.
  { unfold overlay_shown, shapes_of.
    now destruct (drc_admin2_geojson fs) as [[g|e]|]. }
  reflexivity.
Qed.

(** X15. A dropdown without selection (None) empties everything below it: with
    no province the district options are empty, with no province or no
    district the town options are empty, and with any of the three
    selections missing the final data is empty. *)
Theorem missing_selection_finds_no_data
    (data : list LocationRecord) (s1 s2 s3 : option string) :
  (s1 = None -> admin2_options data s1 = []) /\
  (s1 = None \/ s2 = None -> admin3_options data s1 s2 = []) /\
  (s1 = None \/ s2 = None \/ s3 = None -> final_data data s1 s2 s3 = []).
Proof.
  assert (forall l : list string, (forall v, ~ In v l) -> l = []) as Hnil.
  { intros [|x l] H; [reflexivity|]. exfalso. apply (H x). now left. }
  assert (forall l : list LocationRecord, (forall v, ~ In v l) -> l = [])
    as Hnil'.
  { intros [|x l] H; [reflexivity|]. exfalso. apply (H x). now left. }
  split; [|split].
  - intros ->. apply Hnil. intros v H. apply In_admin2_options in H.
    destruct H as (r & _ & H & _). discriminate.
  - intros H. apply Hnil. intros v Hv. apply In_admin3_options in Hv.
    destruct Hv as (r & _ & H1 & H2 & _).
    destruct H as [->| ->]; discriminate.
  - intros H. apply Hnil'. intros v Hv. apply In_final_data in Hv.
    destruct Hv as (_ & H1 & H2 & H3).
    destruct H as [->|[->| ->]]; discriminate.
Qed.

(** X14. On a location CSV with a header only (json.load does not raise, no
    row of a ticked layer has a NaN coordinate), the three dropdowns are
    shown with no option, the no-data message is written and the map is the
    world view (centre (0, 0), zoom 2) without markers. *)
Theorem empty_table_page
    (fs : files) (ui : interaction) (c : cache) :
  cache_ok fs c ->
  drc_admin_data_csv fs = Content [] ->
  shapes_readable fs ->
  layers_plottable fs ui = true ->
  exists m,
    fst (run fs ui c) = Val m /\
    selectboxes (trace (run fs ui c))
    = [("Select Admin Level 1 (Province):", []);
       ("Select Admin Level 2 (District):", []);
       ("Select Admin Level 3 (Town):", [])] /\
    In (st_write "No data found for the selected options.")
       (trace (run fs ui c)) /\
    location m = (0%float, 0%float) /\
    zoom_start m = 2%Z /\
    direct_markers m = [].
Proof.
  intros Hc Hd Hs Hl.
  destruct (run_map fs ui c [] Hc Hd Hs eq_refl Hl)
    as (m & Hr & _ & _ & Hv & Hch).
  destruct (run_writes fs ui c [] Hc Hd) as [_ Hno].
  exists m. split; [exact Hr|]. split.
  { now rewrite (run_selectboxes fs ui c [] Hc Hd). }
  split; [now apply Hno|].
  simpl in Hv. injection Hv as Hloc Hz.
  split; [exact Hloc|]. split; [exact Hz|].
  exact (direct_markers_of_children m _ _ Hch
           (layers_hold_no_marker fs ui _ _ _)).
Qed.

(** X16. At any point of a session every entry of the memoisation store is
    what its file holds: a stored table or document is the content of the
    file, a stored None for the shapes file means the file is missing and
    carries the warning to replay, and a failed read is never stored. *)
Theorem store_holds_the_files (fs : files) (uis : list interaction) :
  (forall data replay,
     location_entry (session fs uis empty_cache) = Some (data, replay) ->
     drc_admin_data_csv fs = Content data /\ replay = []) /\
  (forall data replay,
     hospital_entry (session fs uis empty_cache) = Some (data, replay) ->
     drc_health_data_csv fs = Content data /\ replay = []) /\
  (forall data replay,
     port_entry (session fs uis empty_cache) = Some (data, replay) ->
     drc_port_data_csv fs = Content data /\ replay = []) /\
  (forall g replay,
     geojson_entry (session fs uis empty_cache) = Some (Some g, replay) ->
     drc_admin2_geojson fs = Some (Content g) /\ replay = []) /\
  (forall replay,
     geojson_entry (session fs uis empty_cache) = Some (None, replay) ->
     drc_admin2_geojson fs = None /\
     replay = [st_warning "Admin2 polygon file not found."]).
Proof.
  destruct (session_ok fs uis empty_cache (cache_ok_empty fs))
    as (H1 & H2 & H3 & H4).
  unfold entry_ok, uncached, load_location_data_body, load_hospital_data_body,
    load_port_data_body, load_admin2_geojson_body in *.
  split; [|split; [|split; [|split]]]; intros ? ? E || intros ? E.
  - rewrite E in H1.
    destruct (drc_admin_data_csv fs); simpl in H1; split; congruence.
  - rewrite E in H2.
    destruct (drc_health_data_csv fs); simpl in H2; split; congruence.
  - rewrite E in H3.
    destruct (drc_port_data_csv fs); simpl in H3; split; congruence.
  - rewrite E in H4.
    destruct (drc_admin2_geojson fs) as [[?|?]|]; simpl in H4;
      split; congruence.
  - rewrite E in H4.
    destruct (drc_admin2_geojson fs) as [[?|?]|]; simpl in H4;
      split; congruence.
Qed.

(** *** Coordinates that cannot be plotted *)

(** X17. A NaN coordinate (a blank Lat or Lon cell) ends the run on folium's
    ValueError, which the script does not catch. When a record matching the
    selection has one, the run ends after the dropdowns and the coordinates
    line: no checkbox is shown and no map is rendered. When the matching
    records are fine and json.load does not raise but a row of a ticked
    facility layer that was read has one, the run ends after that layer's
    checkbox and no map is rendered. *)
Theorem nan_coordinate_ends_the_run
    (fs : files) (ui : interaction) (c : cache) (data : list LocationRecord) :
  cache_ok fs c ->
  drc_admin_data_csv fs = Content data ->
  (plottable (final_of data ui) = false ->
   fst (run fs ui c) = Raise nan_error /\
   trace (run fs ui c)
   = before_map data ui
     ++ base_shown (final_of data ui) (selected_admin3 ui) /\
   exists first rest,
     final_of data ui = first :: rest /\
     base_shown (final_of data ui) (selected_admin3 ui)
     = [st_write_coordinates (selected_admin3 ui) (Lat first) (Lon first)]) /\
  (plottable (final_of data ui) = true ->
   shapes_readable fs ->
   layers_plottable fs ui = false ->
   fst (run fs ui c) = Raise nan_error /\
   In (st_checkbox "Show Health Facilities Layer") (trace (run fs ui c)) /\
   (forall m, ~ In (st_folium m) (trace (run fs ui c))) /\
   (layer_plottable (show_hospitals ui) (drc_health_data_csv fs) = false ->
    ~ In (st_checkbox "Show Ports Layer") (trace (run fs ui c)))).
Proof.
  intros Hc Hd. rewrite (run_result fs ui c Hc), (run_shown fs ui c Hc).
  unfold page. rewrite Hd. split.
  - intros Hp. rewrite Hp. split; [reflexivity|]. split; [reflexivity|].
    destruct (final_of data ui) as [|first rest]; [discriminate Hp|].
    now exists first, rest.
  - intros Hp Hs Hl. rewrite Hp, (unreadable_none fs Hs).
    unfold layers_plottable in Hl. apply andb_false_iff in Hl.
    assert (forall x, In x (before_map data ui
                            ++ base_shown (final_of data ui)
                                 (selected_admin3 ui)) ->
                      match x with
                      | st_checkbox _ | st_folium _ => False
                      | _ => True
                      end) as H0.
    { intros x H. apply in_app_iff in H. destruct H as [H|H].
      - cbn in H. repeat (destruct H as [<-|H]; [exact I|]). destruct H.
      - destruct (final_of data ui); cbn in H; destruct H as [<-|[]];
          exact I. }
    assert (forall x, In x (shapes_shown fs
                            ++ overlay_shown (shapes_of fs)
                                 (selected_admin2 ui)
                            ++ layers_head) ->
                      match x with
                      | st_checkbox _ | st_folium _ => False
                      | _ => True
                      end) as H1.
    { intros x H. rewrite !in_app_iff in H. destruct H as [H|[H|H]].
      - unfold shapes_shown in H. destruct (drc_admin2_geojson fs);
          cbn in H; [destruct H|]. destruct H as [<-|[]]. exact I.
      - unfold overlay_shown in H. destruct (shapes_of fs) as [d|];
          [|destruct H]. destruct (dict_truthy d); [|destruct H].
        destruct (filtered_features d (selected_admin2 ui)); [|destruct H].
        destruct H as [<-|[]]. exact I.
      - cbn in H. repeat (destruct H as [<-|H]; [exact I|]). destruct H. }
    assert (forall x, In x (hospital_shown fs ui) ->
                      match x with
                      | st_checkbox label =>
                          label = "Show Health Facilities Layer"
                      | st_folium _ => False
                      | _ => True
                      end) as H2.
    { intros x H. unfold hospital_shown in H.
      destruct H as [<-|H]; [reflexivity|].
      destruct (show_hospitals ui); [|destruct H].
      destruct (drc_health_data_csv fs); [destruct H|].
      destruct H as [<-|[]]. exact I. }
    assert (forall x, In x (port_shown fs ui) ->
                      match x with
                      | st_folium _ => False
                      | _ => True
                      end) as H3.
    { intros x H. unfold port_shown in H.
      destruct H as [<-|H]; [exact I|].
      destruct (show_ports ui); [|destruct H].
      destruct (drc_port_data_csv fs); [destruct H|].
      destruct H as [<-|[]]. exact I. }
    destruct (layer_plottable (show_hospitals ui) (drc_health_data_csv fs)).
    + destruct Hl as [Hl|Hl]; [discriminate Hl|]. rewrite Hl.
      cbn [fst snd]. split; [reflexivity|]. split.
      { rewrite !in_app_iff. left. do 4 right. now left. }
      split; [|discriminate].
      intros m H. rewrite !in_app_iff in H.
      destruct H as [[[H|H]|[H|[H|[H|H]]]]|H].
      * apply (H0 _ (in_or_app _ _ _ (or_introl H))).
      * apply (H0 _ (in_or_app _ _ _ (or_intror H))).
      * apply (H1 (st_folium m)). rewrite !in_app_iff. auto.
      * apply (H1 (st_folium m)). rewrite !in_app_iff. auto.
      * apply (H1 (st_folium m)). rewrite !in_app_iff. auto.
      * apply (H2 _ H).
      * apply (H3 _ H).
    + cbn [fst snd]. split; [reflexivity|]. split.
      { rewrite !in_app_iff. do 4 right. now left. }
      split.
      * intros m H. rewrite !in_app_iff in H.
        destruct H as [[H|H]|[H|[H|[H|H]]]].
        -- apply (H0 _ (in_or_app _ _ _ (or_introl H))).
        -- apply (H0 _ (in_or_app _ _ _ (or_intror H))).
        -- apply (H1 (st_folium m)). rewrite !in_app_iff. auto.
        -- apply (H1 (st_folium m)). rewrite !in_app_iff. auto.
        -- apply (H1 (st_folium m)). rewrite !in_app_iff. auto.
        -- apply (H2 _ H).
      * intros _ H. rewrite !in_app_iff in H.
        destruct H as [[H|H]|[H|[H|[H|H]]]].
        -- apply (H0 _ (in_or_app _ _ _ (or_introl H))).
        -- apply (H0 _ (in_or_app _ _ _ (or_intror H))).
        -- apply (H1 (st_checkbox "Show Ports Layer")).
           rewrite !in_app_iff. auto.
        -- apply (H1 (st_checkbox "Show Ports Layer")).
           rewrite !in_app_iff. auto.
        -- apply (H1 (st_checkbox "Show Ports Layer")).
           rewrite !in_app_iff. auto.
        -- apply H2 in H. discriminate H.
Qed.

(** ** Further statements on the sample inputs *)

Lemma one_marker_per_matching_record_witness :
  exists m rest,
    fst (run sample_files sample_ui empty_cache) = Val m /\
    map_children m
    = map (fun row =>
             Marker (Lat row, Lon row)
                    (Admin1 row ++ " | " ++ Admin2 row ++ " | "
                     ++ Admin3 row)%string None)
          (final_data sample_table (selected_admin1 sample_ui)
             (selected_admin2 sample_ui) (selected_admin3 sample_ui))
      ++ rest /\
    filter is_marker rest = [] /\
    length (direct_markers m)
    = length (final_data sample_table (selected_admin1 sample_ui)
                (selected_admin2 sample_ui) (selected_admin3 sample_ui)).
Proof.
  apply (one_marker_per_matching_record sample_files sample_ui empty_cache
           sample_table).
  - repeat split.
  - reflexivity.
  - intros e. discriminate.
  - reflexivity.
  - reflexivity.
Defined.

Lemma empty_final_data_renders_world_view_witness :
  exists m,
    fst (run files_empty_table ui_nothing empty_cache) = Val m /\
    location m = (0%float, 0%float) /\ zoom_start m = 2%Z /\
    In (st_write "No data found for the selected options.")
       (trace (run files_empty_table ui_nothing empty_cache)).
Proof.
  destruct (empty_final_data_renders_world_view files_empty_table ui_nothing
              empty_cache [])
    as (m & Hr & _ & Hl & Hz & _ & _ & Hw & _).
  - repeat split.
  - reflexivity.
  - intros e. discriminate.
  - reflexivity.
  - reflexivity.
  - exists m. auto.
Defined.

Lemma page_layout_witness :
  exists m,
    fst (run sample_files sample_ui empty_cache) = Val m /\
    In (st_folium m) (trace (run sample_files sample_ui empty_cache)).
Proof.
  destruct (page_layout sample_files sample_ui empty_cache sample_table)
    as (m & Hr & Ht).
  - repeat split.
  - reflexivity.
  - intros e. discriminate.
  - reflexivity.
  - reflexivity.
  - exists m. split; [exact Hr|]. rewrite Ht, !in_app_iff.
    do 7 right. now left.
Defined.

Lemma several_matches_centre_on_first_witness :
  exists m,
    fst (run files_with_duplicates sample_ui empty_cache) = Val m /\
    location m = (Lat makala, Lon makala) /\ zoom_start m = 10%Z /\
    length (direct_markers m) = 2.
Proof.
  destruct (several_matches_centre_on_first files_with_duplicates sample_ui
              empty_cache [kalamu] [goma; makala_again] makala)
    as (m & Hr & Hl & Hz & _ & _ & _ & Hn).
  - repeat split.
  - reflexivity.
  - intros e. discriminate.
  - reflexivity.
  - reflexivity.
  - reflexivity.
  - intros r [<-|[]] (H1 & H2 & H3); discriminate.
  - reflexivity.
  - reflexivity.
  - exists m. auto.
Defined.

Lemma layer_control_rule_witness :
  exists m,
    fst (run sample_files sample_ui empty_cache) = Val m /\
    layer_controls m = [LayerControl].
Proof.
  destruct (layer_control_rule sample_files sample_ui empty_cache sample_table)
    as (m & Hr & _ & H & _).
  - repeat split.
  - reflexivity.
  - intros e. discriminate.
  - reflexivity.
  - reflexivity.
  - exists m. split; [exact Hr|]. apply H. left.
    split; [reflexivity|]. now exists sample_hospitals.
Defined.

Lemma feature_groups_in_order_witness :
  exists m,
    fst (run sample_files sample_ui empty_cache) = Val m /\
    group_names m = ["Admin2 Boundary"; "Hospitals"; "Ports"].
Proof.
  destruct (feature_groups_in_order sample_files sample_ui empty_cache
              sample_table)
    as (m & Hr & H & _).
  - repeat split.
  - reflexivity.
  - intros e. discriminate.
  - reflexivity.
  - reflexivity.
  - exists m. split; [exact Hr|]. exact H.
Defined.

Lemma no_polygon_message_rule_witness :
  In (st_info "No polygon found for the selected Admin2.")
     (trace (run files_other_shapes sample_ui empty_cache)) /\
  length (infos (trace (run files_other_shapes sample_ui empty_cache))) <= 1.
Proof.
  destruct (no_polygon_message_rule files_other_shapes sample_ui empty_cache
              sample_table)
    as (H & _ & Hn).
  - repeat split.
  - reflexivity.
  - reflexivity.
  - split; [|exact Hn]. apply H. eexists. split; [reflexivity|].
    split; reflexivity.
Defined.

Lemma unreadable_shapes_file_ends_the_run_witness :
  fst (run files_bad_shapes sample_ui empty_cache) = Raise "Expecting value".
Proof.
  apply (unreadable_shapes_file_ends_the_run files_bad_shapes sample_ui
           empty_cache sample_table "Expecting value").
  - repeat split.
  - reflexivity.
  - reflexivity.
  - reflexivity.
Defined.

Lemma unticked_layers_are_not_read_witness :
  fst (run files_bad_hospitals ui_ports_only empty_cache)
  = fst (run sample_files ui_ports_only empty_cache).
Proof.
  apply (unticked_layers_are_not_read sample_files files_bad_hospitals
           ui_ports_only empty_cache empty_cache).
  - repeat split.
  - repeat split.
  - reflexivity.
  - reflexivity.
  - discriminate.
  - reflexivity.
Defined.

Lemma errors_come_from_failed_loads_witness :
  errors (trace (run files_bad_hospitals sample_ui empty_cache))
  = ["Error reading hospital CSV file: No such file or directory"].
Proof.
  apply (errors_come_from_failed_loads files_bad_hospitals sample_ui
           empty_cache).
  - repeat split.
  - intros data H. injection H as <-. split; reflexivity.
Defined.

Lemma every_record_is_reachable_witness :
  In (raw_record makala)
     (raw_final_data raw_sample_table (Some (Text "Kinshasa"))
        (Some (Text "Funa")) (Some (Text "Makala"))) /\
  exists m,
    fst (run sample_files sample_ui empty_cache) = Val m /\
    In (Marker ((-4.5)%float, 15.25%float) "Kinshasa | Funa | Makala" None)
       (direct_markers m).
Proof.
  destruct (every_record_is_reachable raw_sample_table sample_table makala)
    as (_ & _ & _ & Hf & K).
  - reflexivity.
  - simpl. auto.
  - split; [exact Hf|].
    apply (K sample_files empty_cache sample_ui); try reflexivity.
    + repeat split.
    + intros e. discriminate.
Defined.

Lemma location_table_is_read_once_witness :
  location_entry (session sample_files [sample_ui; ui_ports_only] empty_cache)
  = Some (sample_table, []).
Proof.
  apply (location_table_is_read_once sample_files sample_table sample_ui
           [ui_ports_only]).
  reflexivity.
Defined.

Lemma empty_table_page_witness :
  exists m,
    fst (run files_empty_table ui_nothing empty_cache) = Val m /\
    selectboxes (trace (run files_empty_table ui_nothing empty_cache))
    = [("Select Admin Level 1 (Province):", []);
       ("Select Admin Level 2 (District):", []);
       ("Select Admin Level 3 (Town):", [])].
Proof.
  destruct (empty_table_page files_empty_table ui_nothing empty_cache)
    as (m & Hr & Hs & _).
  - repeat split.
  - reflexivity.
  - intros e. discriminate.
  - reflexivity.
  - exists m. auto.
Defined.

Lemma nan_coordinate_ends_the_run_witness :
  fst (run files_blank_latitude sample_ui empty_cache) = Raise nan_error /\
  trace (run files_blank_latitude sample_ui empty_cache)
  = before_map [kalamu; mkLocation "Kinshasa" "Funa" "Makala" nan 15.25%float]
      sample_ui
    ++ [st_write_coordinates (Some "Makala") nan 15.25%float].
Proof.
  destruct (nan_coordinate_ends_the_run files_blank_latitude sample_ui
              empty_cache
              [kalamu; mkLocation "Kinshasa" "Funa" "Makala" nan 15.25%float])
    as [H _].
  - repeat split.
  - reflexivity.
  - destruct (H eq_refl) as (Hr & Ht & _). split; [exact Hr|exact Ht].
Defined.
